(** * Metrics collection system

    A shallow embedding of the accumulation-and-flush pipeline of the
    C++ sources: the typed metric values and metrics of
    [MetricSystem.h] / [MetricSystem.cpp], the name validator and the
    registry of [MetricUtilities.cpp], the writer and the collector.

    Conventions of the embedding.
    - Integral kinds ([int], [long]) are [Z] with the two's complement
      wrap-around of their width written out; [size_t] counters are [Z]
      reduced modulo their width.
    - Floating kinds ([double], [float]) are exact rationals [Q]: the
      rounding of the binary representation is abstracted, and a NaN,
      an infinity or the negative zero is not a value of the model.
      What is stated of floating values is stated of numbers, up to
      rounding.
    - A [std::unique_ptr] that may be null is an [option].
    - A function that may throw returns a [Result]; the state it leaves
      behind is returned next to it.
    - [std::cerr] is a list of lines, oldest first. *)

From Stdlib Require Import ZArith QArith String Ascii List Lia DecimalString.
From stdpp Require Import base gmap strings list.

Open Scope Z_scope.

(** ** Platform parameters

    The widths of [long] and [size_t], the signedness of plain [char]
    and the local calendar are fixed by the compilation target and the
    host, not by the sources. *)

Class Platform := {
  long_is_64 : bool;
  size_t_is_64 : bool;
  char_is_signed : bool;
  (** [std::put_time(std::localtime(&t), "%Y-%m-%d %H:%M:%S")] for a
      [time_t] [t]: the calendar and the time zone are the host's. *)
  put_time_local : Z -> string
}.

(** ** Exceptions and results *)

Inductive exception :=
| invalid_argument (msg : string)
| runtime_error (msg : string).

Definition what (e : exception) : string :=
  match e with
  | invalid_argument msg => msg
  | runtime_error msg => msg
  end.

Inductive Result (A : Type) :=
| Return (a : A)
| Throw (e : exception).

Arguments Return {A} a.
Arguments Throw {A} e.

(** [std::cerr], one element per line written. *)
Definition ostream := list string.

(** ** Numeric kinds: the four instantiations of the templates *)

Inductive IntType := t_int | t_long.
Inductive FloatType := t_double | t_float.
Inductive NumType :=
| Integral (i : IntType)
| Floating (f : FloatType).

Definition is_floating_point (T : NumType) : bool :=
  match T with
  | Integral _ => false
  | Floating _ => true
  end.

Definition NumType_eq_dec (T U : NumType) : {T = U} + {T <> U}.
Proof. repeat decide equality. Defined.

(** The values of kind [T]. *)
Definition val (T : NumType) : Type :=
  match T with
  | Integral _ => Z
  | Floating _ => Q
  end.

Definition wrap_signed (w z : Z) : Z := (z + 2 ^ (w - 1)) mod 2 ^ w - 2 ^ (w - 1).
Definition wrap_unsigned (w z : Z) : Z := z mod 2 ^ w.

Definition in_range (w z : Z) : Prop := - 2 ^ (w - 1) <= z < 2 ^ (w - 1).

Section Arithmetic.
Context {P : Platform}.

Definition int_bits (i : IntType) : Z :=
  match i with
  | t_int => 32
  | t_long => if long_is_64 then 64 else 32
  end.

Definition size_bits : Z := if size_t_is_64 then 64 else 32.

(** [T{}] *)
Definition T0 (T : NumType) : val T :=
  match T with
  | Integral _ => 0%Z
  | Floating _ => 0%Q
  end.

(** [a + b] in [T] *)
Definition plus (T : NumType) : val T -> val T -> val T :=
  match T with
  | Integral i => fun a b => wrap_signed (int_bits i) (a + b)
  | Floating _ => Qplus
  end.

(** [a / b] in [T]: truncating for the integral kinds *)
Definition divide (T : NumType) : val T -> val T -> val T :=
  match T with
  | Integral i => fun a b => wrap_signed (int_bits i) (Z.quot a b)
  | Floating _ => Qdiv
  end.

(** [static_cast<T>(n)] for a [size_t] [n] *)
Definition of_size (T : NumType) (n : Z) : val T :=
  match T with
  | Integral i => wrap_signed (int_bits i) n
  | Floating _ => inject_Z n
  end.

(** [a != b] in [T] *)
Definition differs (T : NumType) : val T -> val T -> bool :=
  match T with
  | Integral _ => fun a b => negb (Z.eqb a b)
  | Floating _ => fun a b => negb (Qeq_bool a b)
  end.

(** [++n] on a [size_t] *)
Definition size_succ (n : Z) : Z := wrap_unsigned size_bits (n + 1).

End Arithmetic.

(** ** Stream insertion of numbers *)

(** [oss << n] for an integral [n]. *)
Definition show_integer (z : Z) : string := NilZero.string_of_int (Z.to_int z).

(** Nearest integer to [n / d] for [0 <= n], [0 < d], ties to even. *)
Definition round_half_even (n d : Z) : Z :=
  let q := n / d in
  let r := n mod d in
  match 2 * r ?= d with
  | Lt => q
  | Gt => q + 1
  | Eq => if Z.even q then q else q + 1
  end.

Fixpoint zeros (n : nat) : string :=
  match n with
  | O => EmptyString
  | S k => String "0"%char (zeros k)
  end.

(** [oss << std::fixed << std::setprecision(p) << q] *)
Definition show_fixed (p : nat) (q : Q) : string :=
  let scale := 10 ^ Z.of_nat p in
  let n := round_half_even (Z.abs (Qnum q) * scale) (Zpos (Qden q)) in
  let frac := show_integer (n mod scale) in
  let sign := if Qnum q <? 0 then "-"%string else ""%string in
  let point :=
    if Nat.eqb p 0 then ""%string
    else ("." +:+ zeros (p - String.length frac) +:+ frac)%string in
  sign +:+ show_integer (n / scale) +:+ point.

(** ** TypedMetricValue<T> *)

Module TypedMetricValue.
Section WithPlatform.
Context {P : Platform}.

Record t (T : NumType) := mk {
  value_ : val T;
  count_ : Z
}.
Arguments mk {T} _ _.
Arguments value_ {T} _.
Arguments count_ {T} _.

(** The constructor [TypedMetricValue(T value = T{})]. *)
Definition make (T : NumType) (value : val T) : t T :=
  {| value_ := value;
     count_ := if differs T value (T0 T) then 1 else 0 |}.

Definition getValue {T} (v : t T) : val T :=
  if 0 <? count_ v then divide T (value_ v) (of_size T (count_ v)) else T0 T.

Definition addValue {T} (val : val T) (v : t T) : t T :=
  {| value_ := plus T (value_ v) val; count_ := size_succ (count_ v) |}.

Definition toString {T} (v : t T) : string :=
  if count_ v =? 0 then "0"%string
  else
    match T return val T -> string with
    | Floating _ => fun x => show_fixed 2 x
    | Integral _ => fun x => show_integer x
    end (getValue v).

Definition reset {T} (v : t T) : t T :=
  {| value_ := T0 T; count_ := 0 |}.

End WithPlatform.
Arguments mk {T} _ _.
Arguments value_ {T} _.
Arguments count_ {T} _.
End TypedMetricValue.

(** The base class [MetricValue], as the closed union of its
    instantiations; [toString] is its virtual method. *)
Inductive MetricValue :=
| metric_value (T : NumType) (v : TypedMetricValue.t T).

Definition MetricValue_toString {P : Platform} (v : MetricValue) : string :=
  match v with
  | metric_value T tv => TypedMetricValue.toString tv
  end.

(** [clone], and [accumulate] with the downcast of its argument. *)
Definition TypedMetricValue_clone {T : NumType} (v : TypedMetricValue.t T) : MetricValue :=
  metric_value T
    (TypedMetricValue.mk (TypedMetricValue.value_ v) (TypedMetricValue.count_ v)).

(** [dynamic_cast<const TypedMetricValue<T>*>(&v)] *)
Definition MetricValue_cast (T : NumType) (v : MetricValue)
  : option (TypedMetricValue.t T) :=
  match v with
  | metric_value U tv =>
      match NumType_eq_dec U T with
      | left e => Some (eq_rect U TypedMetricValue.t tv T e)
      | right _ => None
      end
  end.

Definition TypedMetricValue_accumulate {P : Platform} {T : NumType}
    (other : MetricValue) (v : TypedMetricValue.t T)
  : TypedMetricValue.t T * Result unit :=
  match MetricValue_cast T other with
  | None =>
      (v, Throw (invalid_argument "Cannot accumulate different metric value types"))
  | Some typed_other =>
      (TypedMetricValue.mk
         (plus T (TypedMetricValue.value_ v) (TypedMetricValue.value_ typed_other))
         (wrap_unsigned size_bits
            (TypedMetricValue.count_ v + TypedMetricValue.count_ typed_other)),
       Return tt)
  end.

(** ** TypedMetric<T> *)

Module TypedMetric.
Section WithPlatform.
Context {P : Platform}.

Record t (T : NumType) := mk {
  name_ : string;
  accumulated_value_ : val T;
  count_ : Z
}.
Arguments mk {T} _ _ _.
Arguments name_ {T} _.
Arguments accumulated_value_ {T} _.
Arguments count_ {T} _.

(** [explicit TypedMetric(const std::string& name)] *)
Definition make (T : NumType) (name : string) : t T :=
  {| name_ := name; accumulated_value_ := T0 T; count_ := 0 |}.

Definition getName {T} (m : t T) : string := name_ m.

(** [void recordValue(T value)] *)
Definition recordValue {T} (value : val T) (m : t T) : t T :=
  {| name_ := name_ m;
     accumulated_value_ := plus T (accumulated_value_ m) value;
     count_ := size_succ (count_ m) |}.

(** [std::unique_ptr<MetricValue> getAccumulatedValue() const] *)
Definition getAccumulatedValue {T} (m : t T) : option MetricValue :=
  if count_ m =? 0 then
    Some (metric_value T (TypedMetricValue.make T (T0 T)))
  else if is_floating_point T then
    let average := divide T (accumulated_value_ m) (of_size T (count_ m)) in
    Some (metric_value T (TypedMetricValue.make T average))
  else
    Some (metric_value T (TypedMetricValue.make T (accumulated_value_ m))).

Definition reset {T} (m : t T) : t T :=
  {| name_ := name_ m; accumulated_value_ := T0 T; count_ := 0 |}.

End WithPlatform.
Arguments mk {T} _ _ _.
Arguments name_ {T} _.
Arguments accumulated_value_ {T} _.
Arguments count_ {T} _.
End TypedMetric.

(** The base class [Metric] with its virtual methods, and the downcast
    the collector performs on it. *)
Inductive Metric :=
| metric (T : NumType) (m : TypedMetric.t T).

Definition Metric_getName (m : Metric) : string :=
  match m with metric T tm => TypedMetric.getName tm end.

Definition Metric_getAccumulatedValue {P : Platform} (m : Metric) : option MetricValue :=
  match m with metric T tm => TypedMetric.getAccumulatedValue tm end.

Definition Metric_reset (m : Metric) : Metric :=
  match m with metric T tm => metric T (TypedMetric.reset tm) end.

Definition Metric_kind (m : Metric) : NumType :=
  match m with metric T _ => T end.

(** [dynamic_cast<TypedMetric<T>*>(m)], [None] for the null pointer. *)
Definition dynamic_cast (T : NumType) (m : Metric) : option (TypedMetric.t T) :=
  match m with
  | metric U tm =>
      match NumType_eq_dec U T with
      | left e => Some (eq_rect U TypedMetric.t tm T e)
      | right _ => None
      end
  end.

(** [void recordValue(std::unique_ptr<MetricValue> value)]; [None] is
    the null pointer, whose downcast is null. *)
Definition TypedMetric_recordValue_ptr {P : Platform} {T : NumType}
    (value : option MetricValue) (m : TypedMetric.t T)
  : TypedMetric.t T * Result unit :=
  match
    match value with
    | Some v => MetricValue_cast T v
    | None => None
    end
  with
  | None =>
      (m, Throw (invalid_argument
                   ("Invalid metric value type for metric: " +:+ TypedMetric.name_ m)))
  | Some typed_value =>
      (TypedMetric.mk (TypedMetric.name_ m)
         (plus T (TypedMetric.accumulated_value_ m)
            (TypedMetricValue.getValue typed_value))
         (size_succ (TypedMetric.count_ m)),
       Return tt)
  end.

(** ** TimestampUtils and MetricNameValidator *)

Definition TimePoint := Z.  (* milliseconds since the epoch *)

(** [os << std::setfill('0') << std::setw(w) << n] *)
Definition show_padded (w : nat) (n : Z) : string :=
  let s := show_integer n in
  (zeros (w - String.length s) +:+ s)%string.

Module TimestampUtils.
Definition formatTimestamp {P : Platform} (timePoint : TimePoint) : string :=
  let time_t := Z.quot timePoint 1000 in
  let ms := Z.rem timePoint 1000 in
  (put_time_local time_t +:+ "." +:+ show_padded 3 ms)%string.
End TimestampUtils.

Definition dquote : string := String (ascii_of_nat 34) EmptyString.

Module MetricNameValidator.
Section WithPlatform.
Context {P : Platform}.

(** The value of a [char] as the comparisons of the source see it. *)
Definition char_value (c : ascii) : Z :=
  let n := Z.of_N (N_of_ascii c) in
  if char_is_signed && (128 <=? n) then n - 256 else n.

(** The test of the loop body: [c] is the double quote (34), a line
    feed, a carriage return, a tab, or [c < 32]. *)
Definition invalid_char (c : ascii) : bool :=
  let v := char_value c in
  (v =? 34) || (v =? 10) || (v =? 13) || (v =? 9) || (v <? 32).

Definition isValidName (name : string) : bool :=
  if String.eqb name "" then false
  else negb (existsb invalid_char (list_ascii_of_string name)).

Definition formatNameForOutput (name : string) : Result string :=
  if negb (isValidName name) then
    Throw (invalid_argument ("Cannot format invalid metric name: " +:+ name))
  else Return (dquote +:+ name +:+ dquote)%string.

(** [s.front()] and [s.back()] are the double quote; the source reads
    them only for a length of at least 2. *)
Definition is_dquote_at (i : nat) (s : string) : bool :=
  match String.get i s with
  | Some c => Ascii.eqb c (ascii_of_nat 34)
  | None => false
  end.

Definition extractNameFromOutput (formattedName : string) : Result string :=
  if (String.length formattedName <? 2)%nat
     || negb (is_dquote_at 0 formattedName)
     || negb (is_dquote_at (String.length formattedName - 1) formattedName)
  then Throw (invalid_argument ("Invalid formatted metric name: " +:+ formattedName))
  else Return (String.substring 1 (String.length formattedName - 2) formattedName).

End WithPlatform.
End MetricNameValidator.

(** ** MetricRegistry *)

Module MetricRegistry.
Section WithPlatform.
Context {P : Platform}.

Record t := mk { metrics_ : gmap string Metric }.

Definition empty : t := {| metrics_ := ∅ |}.

Definition registerMetric (name : string) (m : Metric) (r : t) : t * Result unit :=
  if negb (MetricNameValidator.isValidName name) then
    (r, Throw (invalid_argument ("Invalid metric name: " +:+ name)))
  else
    match metrics_ r !! name with
    | Some _ => (r, Throw (invalid_argument ("Metric already registered: " +:+ name)))
    | None => ({| metrics_ := <[name := m]> (metrics_ r) |}, Return tt)
    end.

Definition getMetric (name : string) (r : t) : option Metric := metrics_ r !! name.

Definition hasMetric (name : string) (r : t) : bool :=
  match metrics_ r !! name with Some _ => true | None => false end.

Definition size (r : t) : nat := base.size (metrics_ r).

Definition clear (r : t) : t := {| metrics_ := ∅ |}.

(** The two enumerations, in the iteration order of the map. *)
Definition getAllMetricNames (r : t) : list string :=
  map fst (map_to_list (metrics_ r)).

Definition getAllMetrics (r : t) : list (string * Metric) :=
  map_to_list (metrics_ r).

End WithPlatform.
End MetricRegistry.

(** ** The output file stream

    What the writer uses of [std::ofstream]: characters are appended to
    the stream's buffer, and a flush moves the buffer to the file.  A
    stream that is not open takes nothing.  The device takes every
    write here; the stream with its error bits, on a device that can
    refuse, is [StreamErrors] below. *)

Module ofstream.

Record t := mk {
  is_open : bool;
  buffer : string;
  file : string
}.

(** [stream << s] *)
Definition put (s : string) (f : t) : t :=
  if is_open f then
    {| is_open := true; buffer := buffer f +:+ s; file := file f |}
  else f.

Definition flush (f : t) : t :=
  if is_open f then
    {| is_open := true; buffer := ""; file := file f +:+ buffer f |}
  else f.

Definition newline : string := String (ascii_of_nat 10) EmptyString.

(** [stream << std::endl] *)
Definition endl (f : t) : t := flush (put newline f).

Definition close (f : t) : t :=
  if is_open f then
    {| is_open := false; buffer := ""; file := file f +:+ buffer f |}
  else f.

End ofstream.

(** ** MetricEntry and MetricWriter *)

Record MetricEntry := mkEntry {
  timestamp : TimePoint;
  name : string;
  value : MetricValue
}.

Module MetricWriter.
Section WithPlatform.
Context {P : Platform}.

Record t := mk {
  output_file_ : string;
  file_stream_ : ofstream.t
}.

(** The text of one entry: timestamp, quoted name, rendered value. *)
Definition entry_text (timestamp_str metric_name value_str : string) : string :=
  (timestamp_str +:+ " " +:+ metric_name +:+ " " +:+ value_str)%string.

(** One iteration of the loop of [writeMetrics], with its [try] and
    [catch]. *)
Definition write_entry (st : ofstream.t * ostream) (entry : MetricEntry)
  : ofstream.t * ostream :=
  let '(fs, cerr) := st in
  let timestamp_str := TimestampUtils.formatTimestamp (timestamp entry) in
  match MetricNameValidator.formatNameForOutput (name entry) with
  | Throw e =>
      (fs, cerr ++ [("Error formatting metric entry '" +:+ name entry +:+ "': "
                     +:+ what e)%string])
  | Return metric_name =>
      let value_str := MetricValue_toString (value entry) in
      (ofstream.endl
         (ofstream.put value_str
            (ofstream.put " "
               (ofstream.put metric_name
                  (ofstream.put " "
                     (ofstream.put timestamp_str fs))))),
       cerr)
  end.

Definition writeMetrics (entries : list MetricEntry) (w : t) (cerr : ostream)
  : t * ostream * Result unit :=
  match entries with
  | [] => (w, cerr, Return tt)
  | _ :: _ =>
      if negb (ofstream.is_open (file_stream_ w)) then
        (w, cerr, Throw (runtime_error "Output file is not open"))
      else
        let '(fs, cerr') := fold_left write_entry entries (file_stream_ w, cerr) in
        ({| output_file_ := output_file_ w; file_stream_ := ofstream.flush fs |},
         cerr', Return tt)
  end.

Definition close (w : t) : t :=
  {| output_file_ := output_file_ w;
     file_stream_ := ofstream.close (file_stream_ w) |}.

(** The constructor.  [opened] is the answer of the file system to the
    opening of [filename] for appending: [None] when it fails, the
    contents the file already has otherwise. *)
Definition make (filename : string) (opened : option string) : Result t :=
  if String.eqb filename "" then
    Throw (invalid_argument "Output filename cannot be empty")
  else
    match opened with
    | None => Throw (runtime_error ("Failed to open output file: " +:+ filename))
    | Some contents =>
        Return {| output_file_ := filename;
                  file_stream_ := ofstream.mk true "" contents |}
    end.

End WithPlatform.
End MetricWriter.

(** ** MetricCollector *)

(** [std::find_if(v.begin(), v.end(), p)] as the position found. *)
Fixpoint find_if {A : Type} (p : A -> bool) (v : list A) : option nat :=
  match v with
  | [] => None
  | x :: v' => if p x then Some O else option_map S (find_if p v')
  end.

Module MetricCollector.
Section WithPlatform.
Context {P : Platform}.

Record t := mk {
  metrics_ : list Metric;
  running_ : bool;
  writer_ : MetricWriter.t
}.

(** [explicit MetricCollector(std::unique_ptr<MetricWriter> writer)] *)
Definition make (writer : option MetricWriter.t) : Result t :=
  match writer with
  | None => Throw (invalid_argument "MetricWriter cannot be null")
  | Some w => Return {| metrics_ := []; running_ := false; writer_ := w |}
  end.

Definition has_name (name : string) (m : Metric) : bool :=
  String.eqb (Metric_getName m) name.

Definition registerMetric (T : NumType) (name : string) (c : t) : t * Result unit :=
  match find_if (has_name name) (metrics_ c) with
  | Some _ =>
      (c, Throw (invalid_argument ("Metric already registered: " +:+ name)))
  | None =>
      ({| metrics_ := metrics_ c ++ [metric T (TypedMetric.make T name)];
          running_ := running_ c;
          writer_ := writer_ c |},
       Return tt)
  end.

(** The hot path of [recordMetric]: the downcast of the metric found
    at position [i] and the call of its [recordValue]. *)
Definition record_at (T : NumType) (value : val T) (i : nat) (c : t) : t :=
  match metrics_ c !! i with
  | Some target_metric =>
      match dynamic_cast T target_metric with
      | Some typed_metric =>
          {| metrics_ :=
               <[i := metric T (TypedMetric.recordValue value typed_metric)]> (metrics_ c);
             running_ := running_ c;
             writer_ := writer_ c |}
      | None => c
      end
  | None => c
  end.

Definition recordMetric (T : NumType) (name : string) (value : val T)
    (st : t * ostream) : t * ostream :=
  let '(c, cerr) := st in
  if negb (running_ c) then (c, cerr)
  else
    match find_if (has_name name) (metrics_ c) with
    | Some i => (record_at T value i c, cerr)
    | None =>
        match registerMetric T name c with
        | (c1, Return _) =>
            match find_if (has_name name) (metrics_ c1) with
            | Some i => (record_at T value i c1, cerr)
            | None => (c1, cerr)
            end
        | (c1, Throw e) =>
            (c1, cerr ++ [("Failed to auto-register metric '" +:+ name +:+ "': "
                           +:+ what e)%string])
        end
    end.

(** The three steps of [collectCurrentMetrics].  The first loop, under
    [metrics_mutex_]: *)
Definition collect_entries (timestamp : TimePoint) (metrics : list Metric)
  : list MetricEntry :=
  flat_map
    (fun m =>
       match Metric_getAccumulatedValue m with
       | Some accumulated_value => [mkEntry timestamp (Metric_getName m) accumulated_value]
       | None => []
       end)
    metrics.

(** the reset loop, under [metrics_mutex_] again: *)
Definition reset_all (c : t) : t :=
  {| metrics_ := map Metric_reset (metrics_ c);
     running_ := running_ c;
     writer_ := writer_ c |}.

(** and the write between the two, with no lock held, followed by the
    reset when it returns. *)
Definition write_and_reset (entries : list MetricEntry) (st : t * ostream)
  : t * ostream :=
  let '(c, cerr) := st in
  match entries with
  | [] => (c, cerr)
  | _ :: _ =>
      match MetricWriter.writeMetrics entries (writer_ c) cerr with
      | (w, cerr', Return _) =>
          (reset_all {| metrics_ := metrics_ c; running_ := running_ c; writer_ := w |},
           cerr')
      | (w, cerr', Throw e) =>
          ({| metrics_ := metrics_ c; running_ := running_ c; writer_ := w |},
           cerr' ++ [("Error writing metrics: " +:+ what e)%string])
      end
  end.

(** [timestamp] is the reading of [TimestampUtils::getCurrentTime()]. *)
Definition collectCurrentMetrics (timestamp : TimePoint) (st : t * ostream)
  : t * ostream :=
  write_and_reset (collect_entries timestamp (metrics_ (fst st))) st.

(** [start], [stop] and [flush] without the worker thread, whose
    iterations are calls of [collectCurrentMetrics]. *)
Definition start (c : t) : t :=
  {| metrics_ := metrics_ c; running_ := true; writer_ := writer_ c |}.

Definition stop (timestamp : TimePoint) (st : t * ostream) : t * ostream :=
  let '(c, cerr) := st in
  if negb (running_ c) then (c, cerr)
  else
    collectCurrentMetrics timestamp
      ({| metrics_ := metrics_ c; running_ := false; writer_ := writer_ c |}, cerr).

Definition flush (timestamp : TimePoint) (st : t * ostream) : t * ostream :=
  if negb (running_ (fst st)) then st
  else collectCurrentMetrics timestamp st.

End WithPlatform.
End MetricCollector.

(** ** ValueFormatter *)

Module ValueFormatter.

(** [precision] is taken non-negative.  The model has one zero; the
    code prints the sign of a negative zero. *)
Definition formatDouble (value : Q) (precision : nat) : string :=
  show_fixed precision value.

(** [std::to_string(value)] for a [long]. *)
Definition formatInteger (value : Z) : string := show_integer value.

Definition formatValue {P : Platform} (T : NumType) : val T -> string :=
  match T with
  | Floating _ => fun value => formatDouble value 2
  | Integral _ => fun value => formatInteger (wrap_signed (int_bits t_long) value)
  end.

End ValueFormatter.

(** ** MetricSystemFactory and MetricSystemManager *)

Module MetricSystemFactory.

Definition createSystem (output_file : string) (opened : option string)
  : Result MetricCollector.t :=
  match MetricWriter.make output_file opened with
  | Throw e => Throw e
  | Return writer => MetricCollector.make (Some writer)
  end.

End MetricSystemFactory.

(** [collector_] is not null once the constructor has returned (it
    throws otherwise), and no method resets it: the field is the
    collector itself, and the tests of the methods against the null
    pointer are not represented. *)
Module MetricSystemManager.
Section WithPlatform.
Context {P : Platform}.

Record t := mk {
  collector_ : MetricCollector.t;
  output_file_ : string;
  is_running_ : bool
}.

Definition make (output_file : string) (opened : option string) : Result t :=
  match MetricSystemFactory.createSystem output_file opened with
  | Throw e => Throw e
  | Return c =>
      Return {| collector_ := c; output_file_ := output_file; is_running_ := false |}
  end.

Definition isRunning (m : t) : bool := is_running_ m.

Definition start (m : t) : t :=
  if is_running_ m then m
  else
    {| collector_ := MetricCollector.start (collector_ m);
       output_file_ := output_file_ m;
       is_running_ := true |}.

Definition stop (timestamp : TimePoint) (st : t * ostream) : t * ostream :=
  let '(m, cerr) := st in
  if negb (is_running_ m) then (m, cerr)
  else
    let '(c, cerr') := MetricCollector.stop timestamp (collector_ m, cerr) in
    ({| collector_ := c; output_file_ := output_file_ m; is_running_ := false |}, cerr').

Definition registerMetric (T : NumType) (name : string) (st : t * ostream)
  : t * ostream * Result unit :=
  let '(m, cerr) := st in
  match MetricCollector.registerMetric T name (collector_ m) with
  | (c, Return _) =>
      ({| collector_ := c; output_file_ := output_file_ m;
          is_running_ := is_running_ m |}, cerr, Return tt)
  | (c, Throw e) =>
      ({| collector_ := c; output_file_ := output_file_ m;
          is_running_ := is_running_ m |},
       cerr ++ [("Failed to register metric '" +:+ name +:+ "': " +:+ what e)%string],
       Throw e)
  end.

Definition registerCPUMetric := registerMetric (Floating t_double).
Definition registerHTTPMetric := registerMetric (Integral t_int).
Definition registerMemoryMetric := registerMetric (Floating t_double).
Definition registerNetworkMetric := registerMetric (Integral t_long).

Definition recordMetric (T : NumType) (name : string) (value : val T)
    (st : t * ostream) : t * ostream :=
  let '(m, cerr) := st in
  if negb (is_running_ m) then (m, cerr)
  else
    let '(c, cerr') := MetricCollector.recordMetric T name value (collector_ m, cerr) in
    ({| collector_ := c; output_file_ := output_file_ m;
        is_running_ := is_running_ m |}, cerr').

Definition recordCPU (utilization : Q) (name : string) :=
  recordMetric (Floating t_double) name utilization.
Definition recordHTTPRequests (requests : Z) (name : string) :=
  recordMetric (Integral t_int) name requests.
Definition recordMemoryUsage (memoryMB : Q) (name : string) :=
  recordMetric (Floating t_double) name memoryMB.
Definition recordNetworkBytes (bytes : Z) (name : string) :=
  recordMetric (Integral t_long) name bytes.

Definition flush (timestamp : TimePoint) (st : t * ostream) : t * ostream :=
  let '(m, cerr) := st in
  if is_running_ m then
    let '(c, cerr') := MetricCollector.flush timestamp (collector_ m, cerr) in
    ({| collector_ := c; output_file_ := output_file_ m;
        is_running_ := is_running_ m |}, cerr')
  else (m, cerr).

End WithPlatform.
End MetricSystemManager.

(** [ScopedMetricSystem]: the constructor creates and starts a manager,
    the destructor stops it. *)
Module ScopedMetricSystem.
Section WithPlatform.
Context {P : Platform}.

Definition make (output_file : string) (opened : option string)
  : Result MetricSystemManager.t :=
  match MetricSystemManager.make output_file opened with
  | Throw e => Throw e
  | Return m => Return (MetricSystemManager.start m)
  end.

Definition destroy (timestamp : TimePoint) (st : MetricSystemManager.t * ostream)
  : MetricSystemManager.t * ostream :=
  MetricSystemManager.stop timestamp st.

End WithPlatform.
End ScopedMetricSystem.

(** ** The specific metrics

    Each class extends a [TypedMetric<T>]: the base object is the field
    [base].  [std::to_string] of a [double] prints six decimals. *)

Definition to_string_double (x : Q) : string := show_fixed 6 x.

(** [a < b] and [a <= b] on the floating kinds, for numbers: a NaN, for
    which every comparison is false, is not a value of the model. *)
Definition Qltb (a b : Q) : bool := negb (Qle_bool b a).

Module CPUMetric.
Section WithPlatform.
Context {P : Platform}.

Record t := mk {
  base : TypedMetric.t (Floating t_double);
  cpu_cores_ : Z;
  max_utilization_ : Q
}.

(** [hardware_concurrency] is what [std::thread::hardware_concurrency()]
    returns, an [unsigned int]. *)
Definition make (name : string) (cores : Z) (hardware_concurrency : Z) : t :=
  let cpu_cores :=
    if cores <=? 0 then
      let detected := wrap_signed 32 hardware_concurrency in
      if detected <=? 0 then 1 else detected
    else cores in
  {| base := TypedMetric.make (Floating t_double) name;
     cpu_cores_ := cpu_cores;
     max_utilization_ := inject_Z cpu_cores |}.

Definition isValidUtilization (value : Q) (m : t) : bool :=
  Qle_bool 0 value && Qle_bool value (max_utilization_ m).

Definition recordValue (value : Q) (m : t) : t * Result unit :=
  if negb (isValidUtilization value m) then
    (m, Throw (invalid_argument
                 ("Invalid CPU utilization value: " +:+ to_string_double value +:+
                  ". Must be between 0 and " +:+ to_string_double (max_utilization_ m))))
  else
    ({| base := TypedMetric.recordValue (T:=Floating t_double) value (base m);
        cpu_cores_ := cpu_cores_ m;
        max_utilization_ := max_utilization_ m |},
     Return tt).

Definition getUtilizationPercentage (m : t) : Q :=
  match
    match TypedMetric.getAccumulatedValue (base m) with
    | Some current_value => MetricValue_cast (Floating t_double) current_value
    | None => None
    end
  with
  | Some typed_value =>
      if cpu_cores_ m =? 0 then 0%Q
      else (TypedMetricValue.getValue typed_value / inject_Z (cpu_cores_ m) * 100)%Q
  | None => 0%Q
  end.


End WithPlatform.
End CPUMetric.

Module HTTPRequestMetric.
Section WithPlatform.
Context {P : Platform}.

Record t := mk {
  base : TypedMetric.t (Integral t_int);
  total_requests_ : Z;
  start_time_ : TimePoint;
  last_reset_ : TimePoint
}.

(** [now] is the reading of [TimestampUtils::getCurrentTime()]. *)
Definition make (name : string) (now : TimePoint) : t :=
  {| base := TypedMetric.make (Integral t_int) name;
     total_requests_ := 0;
     start_time_ := now;
     last_reset_ := now |}.

Definition recordValue (requests : Z) (m : t) : t * Result unit :=
  if requests <? 0 then
    (m, Throw (invalid_argument
                 ("HTTP request count cannot be negative: " +:+ show_integer requests)))
  else
    ({| base := TypedMetric.recordValue (T:=Integral t_int) requests (base m);
        total_requests_ :=
          wrap_signed (int_bits t_long) (total_requests_ m + requests);
        start_time_ := start_time_ m;
        last_reset_ := last_reset_ m |},
     Return tt).

Definition reset (now : TimePoint) (m : t) : t :=
  {| base := TypedMetric.reset (base m);
     total_requests_ := total_requests_ m;
     start_time_ := start_time_ m;
     last_reset_ := now |}.

Definition getTotalRequests (m : t) : Z := total_requests_ m.

(** [duration_cast<seconds>] of a difference of time points. *)
Definition seconds_between (from to : TimePoint) : Z := Z.quot (to - from) 1000.

Definition getCurrentRPS (now : TimePoint) (m : t) : Q :=
  let duration := seconds_between (last_reset_ m) now in
  if duration <=? 0 then 0%Q
  else
    match
      match TypedMetric.getAccumulatedValue (base m) with
      | Some current_value => MetricValue_cast (Integral t_int) current_value
      | None => None
      end
    with
    | Some typed_value =>
        (inject_Z (TypedMetricValue.getValue typed_value) / inject_Z duration)%Q
    | None => 0%Q
    end.

Definition getUptime (now : TimePoint) (m : t) : Z :=
  seconds_between (start_time_ m) now.

End WithPlatform.
End HTTPRequestMetric.

Module MemoryMetric.
Section WithPlatform.
Context {P : Platform}.

Record t := mk {
  base : TypedMetric.t (Floating t_double);
  peak_usage_ : Q;
  track_peak_ : bool
}.

Definition make (name : string) (trackPeak : bool) : t :=
  {| base := TypedMetric.make (Floating t_double) name;
     peak_usage_ := 0%Q;
     track_peak_ := trackPeak |}.

Definition recordValue (memoryMB : Q) (m : t) : t * Result unit :=
  if Qltb memoryMB 0 then
    (m, Throw (invalid_argument
                 ("Memory usage cannot be negative: " +:+ to_string_double memoryMB)))
  else
    ({| base := TypedMetric.recordValue (T:=Floating t_double) memoryMB (base m);
        peak_usage_ :=
          if track_peak_ m && Qltb (peak_usage_ m) memoryMB then memoryMB
          else peak_usage_ m;
        track_peak_ := track_peak_ m |},
     Return tt).

Definition reset (m : t) : t :=
  {| base := TypedMetric.reset (base m);
     peak_usage_ := 0%Q;
     track_peak_ := track_peak_ m |}.

Definition getPeakUsage (m : t) : Q := peak_usage_ m.

Definition getCurrentUsage (m : t) : Q :=
  match
    match TypedMetric.getAccumulatedValue (base m) with
    | Some current_value => MetricValue_cast (Floating t_double) current_value
    | None => None
    end
  with
  | Some typed_value => TypedMetricValue.getValue typed_value
  | None => 0%Q
  end.

End WithPlatform.
End MemoryMetric.

Module NetworkMetric.
Section WithPlatform.
Context {P : Platform}.

Record t := mk {
  base : TypedMetric.t (Integral t_long);
  total_bytes_ : Z;
  direction_ : string
}.

Definition make (name direction : string) : Result t :=
  if negb (String.eqb direction "in") && negb (String.eqb direction "out")
     && negb (String.eqb direction "both")
  then
    Throw (invalid_argument
             ("Invalid network direction: " +:+ direction +:+
              ". Must be 'in', 'out', or 'both'"))
  else
    Return {| base := TypedMetric.make (Integral t_long) name;
              total_bytes_ := 0;
              direction_ := direction |}.

Definition recordValue (bytes : Z) (m : t) : t * Result unit :=
  if bytes <? 0 then
    (m, Throw (invalid_argument
                 ("Network bytes cannot be negative: " +:+ show_integer bytes)))
  else
    ({| base := TypedMetric.recordValue (T:=Integral t_long) bytes (base m);
        total_bytes_ := wrap_signed (int_bits t_long) (total_bytes_ m + bytes);
        direction_ := direction_ m |},
     Return tt).

Definition reset (m : t) : t :=
  {| base := TypedMetric.reset (base m);
     total_bytes_ := total_bytes_ m;
     direction_ := direction_ m |}.

Definition getTotalBytes (m : t) : Z := total_bytes_ m.

Definition formatThroughput (bytesPerSecond : Z) : string :=
  if bytesPerSecond <? 1024 then
    (show_integer bytesPerSecond +:+ " B/s")%string
  else if bytesPerSecond <? 1024 * 1024 then
    (show_fixed 2 (inject_Z bytesPerSecond / 1024) +:+ " KB/s")%string
  else if bytesPerSecond <? 1024 * 1024 * 1024 then
    (show_fixed 2 (inject_Z bytesPerSecond / (1024 * 1024)) +:+ " MB/s")%string
  else
    (show_fixed 2 (inject_Z bytesPerSecond / (1024 * 1024 * 1024)) +:+ " GB/s")%string.

End WithPlatform.
End NetworkMetric.

(** ** The stream with its error state

    [std::ofstream] does not throw when the device refuses a write (the
    writer leaves the stream's exception mask empty): the stream sets
    [badbit], stays open, and from then on insertions and flushes do
    nothing.  The stream of [ofstream] above is the stream on a device
    that takes every write.  Here the device can refuse: [device_full]
    is its answer to a write, and [writeMetrics] and
    [collectCurrentMetrics] are the same code of [MetricWriter] and
    [MetricCollector] over this stream.  Neither function reads the
    error bits. *)

Module StreamErrors.
Section WithPlatform.
Context {P : Platform}.

Record stream := mkStream {
  contents : ofstream.t;
  badbit : bool;
  device_full : bool
}.

Definition is_open (f : stream) : bool := ofstream.is_open (contents f).

(** [stream << s]: into the buffer, unless an error bit is set. *)
Definition put (s : string) (f : stream) : stream :=
  if badbit f then f
  else
    {| contents := ofstream.put s (contents f);
       badbit := false;
       device_full := device_full f |}.

(** A flush writes the buffer to the device.  When the device refuses,
    [badbit] is set and what was buffered does not reach the file. *)
Definition flush (f : stream) : stream :=
  if badbit f then f
  else if device_full f then
    if negb (is_open f) || String.eqb (ofstream.buffer (contents f)) "" then f
    else {| contents := contents f; badbit := true; device_full := true |}
  else
    {| contents := ofstream.flush (contents f);
       badbit := false;
       device_full := false |}.

(** [stream << std::endl] *)
Definition endl (f : stream) : stream := flush (put ofstream.newline f).

Record writer := mkWriter {
  output_file_ : string;
  file_stream_ : stream
}.

(** One iteration of the loop of [writeMetrics]. *)
Definition write_entry (st : stream * ostream) (entry : MetricEntry)
  : stream * ostream :=
  let '(fs, cerr) := st in
  let timestamp_str := TimestampUtils.formatTimestamp (timestamp entry) in
  match MetricNameValidator.formatNameForOutput (name entry) with
  | Throw e =>
      (fs, cerr ++ [("Error formatting metric entry '" +:+ name entry +:+ "': "
                     +:+ what e)%string])
  | Return metric_name =>
      let value_str := MetricValue_toString (value entry) in
      (endl (put value_str (put " " (put metric_name (put " " (put timestamp_str fs))))),
       cerr)
  end.

Definition writeMetrics (entries : list MetricEntry) (w : writer) (cerr : ostream)
  : writer * ostream * Result unit :=
  match entries with
  | [] => (w, cerr, Return tt)
  | _ :: _ =>
      if negb (is_open (file_stream_ w)) then
        (w, cerr, Throw (runtime_error "Output file is not open"))
      else
        let '(fs, cerr') := fold_left write_entry entries (file_stream_ w, cerr) in
        ({| output_file_ := output_file_ w; file_stream_ := flush fs |},
         cerr', Return tt)
  end.

Record collector := mkCollector {
  metrics_ : list Metric;
  running_ : bool;
  writer_ : writer
}.

Definition collectCurrentMetrics (timestamp : TimePoint) (st : collector * ostream)
  : collector * ostream :=
  let '(c, cerr) := st in
  match MetricCollector.collect_entries timestamp (metrics_ c) with
  | [] => (c, cerr)
  | e :: es =>
      match writeMetrics (e :: es) (writer_ c) cerr with
      | (w, cerr', Return _) =>
          ({| metrics_ := map Metric_reset (metrics_ c);
              running_ := running_ c;
              writer_ := w |},
           cerr')
      | (w, cerr', Throw x) =>
          ({| metrics_ := metrics_ c; running_ := running_ c; writer_ := w |},
           cerr' ++ [("Error writing metrics: " +:+ what x)%string])
      end
  end.

(** A collector of the model above, with its stream on a device that
    takes every write ([full] false) or refuses them ([full] true). *)
Definition on_stream (full : bool) (fs : ofstream.t) : stream :=
  {| contents := fs; badbit := false; device_full := full |}.

Definition on_device (full : bool) (c : MetricCollector.t) : collector :=
  {| metrics_ := MetricCollector.metrics_ c;
     running_ := MetricCollector.running_ c;
     writer_ :=
       {| output_file_ := MetricWriter.output_file_ (MetricCollector.writer_ c);
          file_stream_ :=
            on_stream full (MetricWriter.file_stream_ (MetricCollector.writer_ c)) |} |}.

(** What has reached the file. *)
Definition persisted (c : collector) : string :=
  ofstream.file (contents (file_stream_ (writer_ c))).

End WithPlatform.
End StreamErrors.

(** ** Vocabulary of the statements *)

(** The sum and the arithmetic mean of a list of samples, in unbounded
    arithmetic. *)
Definition exact_sum (vs : list Z) : Z := fold_right Z.add 0 vs.

Definition rational_sum (vs : list Q) : Q := fold_right Qplus 0%Q vs.

Definition arithmetic_mean (vs : list Q) : Q :=
  (rational_sum vs / inject_Z (Z.of_nat (length vs)))%Q.

(** What a flush reports for the samples [vs] of a metric of kind [T]:
    for an integral kind the sum reduced to the width of the kind, which
    is the exact sum when that fits; for a floating kind the mean. *)
Definition flushed_as {P : Platform} (T : NumType) : val T -> list (val T) -> Prop :=
  match T with
  | Integral i => fun x vs =>
      x = wrap_signed (int_bits i) (exact_sum vs) /\
      (in_range (int_bits i) (exact_sum vs) -> x = exact_sum vs)
  | Floating _ => fun x vs => (x == arithmetic_mean vs)%Q
  end.

(** A sequence of [recordValue] calls on one metric, and a sequence of
    [recordMetric] calls under one name. *)
Definition record_values {P : Platform} {T : NumType} (vs : list (val T))
    (m : TypedMetric.t T) : TypedMetric.t T :=
  fold_left (fun m v => TypedMetric.recordValue v m) vs m.

Definition record_calls {P : Platform} (T : NumType) (name : string)
    (vs : list (val T)) (st : MetricCollector.t * ostream)
    : MetricCollector.t * ostream :=
  fold_left (fun st v => MetricCollector.recordMetric T name v st) vs st.

(** Whether a line was added to [std::cerr]. *)
Definition logged (before after : ostream) : Prop :=
  exists line, after = before ++ [line].

(** The names the specification calls malformed: empty, or containing a
    double quote or a control character (a code below 32). *)
Definition is_quote (c : ascii) : bool := N.eqb (N_of_ascii c) 34.
Definition is_control (c : ascii) : bool := N.ltb (N_of_ascii c) 32.

Definition malformed (name : string) : Prop :=
  name = ""%string \/
  exists c, In c (list_ascii_of_string name) /\ (is_quote c = true \/ is_control c = true).

(** What the writer persists for one entry, and what it logs for an
    entry whose serialization fails. *)
Definition serializes {P : Platform} (e : MetricEntry) : bool :=
  MetricNameValidator.isValidName (name e).

Definition entry_line {P : Platform} (e : MetricEntry) : string :=
  (MetricWriter.entry_text
     (TimestampUtils.formatTimestamp (timestamp e))
     (dquote +:+ name e +:+ dquote)
     (MetricValue_toString (value e)) +:+ ofstream.newline)%string.

Definition entry_error (e : MetricEntry) : string :=
  ("Error formatting metric entry '" +:+ name e +:+ "': "
   +:+ "Cannot format invalid metric name: " +:+ name e)%string.

Fixpoint written_text {P : Platform} (entries : list MetricEntry) : string :=
  match entries with
  | [] => ""%string
  | e :: es =>
      if serializes e then (entry_line e +:+ written_text es)%string
      else written_text es
  end.

Fixpoint logged_errors {P : Platform} (entries : list MetricEntry) : list string :=
  match entries with
  | [] => []
  | e :: es =>
      if serializes e then logged_errors es
      else entry_error e :: logged_errors es
  end.

(** The contents of the sink of a collector. *)
Definition sink (st : MetricCollector.t * ostream) : string :=
  ofstream.file (MetricWriter.file_stream_ (MetricCollector.writer_ (fst st))).

(** ** Interleavings of a flush cycle with producers

    [collectCurrentMetrics] holds [metrics_mutex_] during its first loop
    and again during its reset loop, and takes each metric's own mutex
    inside [getAccumulatedValue] and inside [reset] only; the write runs
    between the two loops with no lock held.  [recordMetric] takes
    [metrics_mutex_] for its lookup and the metric's mutex for
    [recordValue].  An execution is modelled as a sequence of atomic
    steps: the first loop, the write, the reset loop, and the
    [recordMetric] calls of the producers, which may fall before the
    first loop, between the first loop and the write, between the write
    and the reset loop, or after it.  [sys_pc] is the position of the
    flush thread in its cycle, with the entries it holds. *)

Inductive flush_pc :=
| at_start
| collected (entries : list MetricEntry)
| written.

Record system := mkSystem {
  sys_collector : MetricCollector.t;
  sys_cerr : ostream;
  sys_pc : flush_pc
}.

Inductive event :=
| ev_record (T : NumType) (name : string) (value : val T)
| ev_collect (timestamp : TimePoint)
| ev_write
| ev_reset.

Definition step {P : Platform} (s : system) (e : event) : system :=
  match e with
  | ev_record T name value =>
      let '(c, log) :=
        MetricCollector.recordMetric T name value (sys_collector s, sys_cerr s) in
      mkSystem c log (sys_pc s)
  | ev_collect timestamp =>
      match sys_pc s with
      | at_start =>
          mkSystem (sys_collector s) (sys_cerr s)
            (collected
               (MetricCollector.collect_entries timestamp
                  (MetricCollector.metrics_ (sys_collector s))))
      | _ => s
      end
  | ev_write =>
      match sys_pc s with
      | collected [] => mkSystem (sys_collector s) (sys_cerr s) at_start
      | collected (e :: es) =>
          let c := sys_collector s in
          match MetricWriter.writeMetrics (e :: es) (MetricCollector.writer_ c) (sys_cerr s) with
          | (w, log, Return _) =>
              mkSystem
                (MetricCollector.mk (MetricCollector.metrics_ c)
                   (MetricCollector.running_ c) w)
                log written
          | (w, log, Throw x) =>
              mkSystem
                (MetricCollector.mk (MetricCollector.metrics_ c)
                   (MetricCollector.running_ c) w)
                (log ++ [("Error writing metrics: " +:+ what x)%string]) at_start
          end
      | _ => s
      end
  | ev_reset =>
      match sys_pc s with
      | written =>
          mkSystem (MetricCollector.reset_all (sys_collector s)) (sys_cerr s) at_start
      | _ => s
      end
  end.

Definition run {P : Platform} (s : system) (schedule : list event) : system :=
  fold_left step schedule s.

(** The events of one flush cycle, in program order. *)
Definition flush_cycle (timestamp : TimePoint) : list event :=
  [ev_collect timestamp; ev_write; ev_reset].

(** A producer's record under a name that is registered in [c]. *)
Definition registered_record (c : MetricCollector.t) (e : event) : Prop :=
  match e with
  | ev_record _ n _ =>
      exists i, find_if (MetricCollector.has_name n) (MetricCollector.metrics_ c) = Some i
  | _ => False
  end.

(** Collectors that differ at most in the totals and counts of their
    metrics. *)
Definition same_up_to_samples (c c' : MetricCollector.t) : Prop :=
  map Metric_reset (MetricCollector.metrics_ c') =
    map Metric_reset (MetricCollector.metrics_ c) /\
  MetricCollector.running_ c' = MetricCollector.running_ c /\
  MetricCollector.writer_ c' = MetricCollector.writer_ c.

(** ** The host and the states of the worked examples *)

(** 64-bit [long] and [size_t], signed [char], and a clock reading
    rendered for one fixed second. *)
Definition example_host : Platform :=
  {| long_is_64 := true;
     size_t_is_64 := true;
     char_is_signed := true;
     put_time_local := fun _ => "2025-06-01 15:00:01"%string |}.

(** The line of the sink for a name and a rendered value, at the clock
    reading 1653 ms on [example_host]. *)
Definition example_line (n v : string) : string :=
  ("2025-06-01 15:00:01.653 " +:+ dquote +:+ n +:+ dquote +:+ " " +:+ v
   +:+ ofstream.newline)%string.

Definition open_writer : MetricWriter.t :=
  MetricWriter.mk "metrics.txt" (ofstream.mk true "" "").

Definition closed_writer : MetricWriter.t :=
  MetricWriter.mk "metrics.txt" (ofstream.mk false "" "").

Definition http_metric : Metric :=
  metric (Integral t_int) (TypedMetric.make (Integral t_int) "HTTP").

Definition cpu_metric : Metric :=
  metric (Floating t_double) (TypedMetric.make (Floating t_double) "CPU").

Definition running_collector (ms : list Metric) (w : MetricWriter.t) : MetricCollector.t :=
  MetricCollector.mk ms true w.

Definition idle_collector (ms : list Metric) (w : MetricWriter.t) : MetricCollector.t :=
  MetricCollector.mk ms false w.

Definition http_collector : MetricCollector.t :=
  running_collector [http_metric] open_writer.

Definition cpu_collector : MetricCollector.t :=
  running_collector [cpu_metric] open_writer.

Definition cpu_http_collector : MetricCollector.t :=
  running_collector [cpu_metric; http_metric] open_writer.

(** An [int] metric that holds the samples 10 and 20. *)
Definition http_metric_30 : Metric :=
  metric (Integral t_int) (TypedMetric.mk (T:=Integral t_int) "HTTP" 30 2).

Definition thirty : MetricValue :=
  metric_value (Integral t_int) (TypedMetricValue.make (Integral t_int) 30).

(** A running collector that holds the samples 10 and 20, on an open
    stream whose device refuses the write, and on one that takes it. *)
Definition refused_collector : StreamErrors.collector :=
  StreamErrors.on_device true (running_collector [http_metric_30] open_writer).

Definition accepted_collector : StreamErrors.collector :=
  StreamErrors.on_device false (running_collector [http_metric_30] open_writer).

(** A floating metric whose two samples cancel. *)
Definition cancelling_metric : TypedMetric.t (Floating t_double) :=
  @record_values example_host (Floating t_double) [(3 # 2)%Q; (- (3 # 2))%Q]
    (TypedMetric.make (Floating t_double) "CPU").

(** ** Vocabulary of the further properties *)

(** The characters [isValidName] lets through: codes from 32 up, other
    than the double quote, and below 128 where plain [char] is signed
    (a byte from 128 up is then a negative [char], below 32). *)
Definition acceptable_char {P : Platform} (c : ascii) : Prop :=
  (32 <= N_of_ascii c)%N /\ N_of_ascii c <> 34%N /\
  (char_is_signed = true -> (N_of_ascii c < 128)%N).

(** The registry holds valid names only. *)
Definition names_valid {P : Platform} (r : MetricRegistry.t) : Prop :=
  forall n m, MetricRegistry.metrics_ r !! n = Some m ->
              MetricNameValidator.isValidName n = true.

(** The operations that change a registry; a registration that throws
    leaves it as it was. *)
Inductive registry_op :=
| reg_register (name : string) (m : Metric)
| reg_clear.

Definition registry_step {P : Platform} (r : MetricRegistry.t) (op : registry_op)
  : MetricRegistry.t :=
  match op with
  | reg_register name m => fst (MetricRegistry.registerMetric name m r)
  | reg_clear => MetricRegistry.clear r
  end.

(** The name and the kind of every metric of a collector, in order. *)
Definition signature (c : MetricCollector.t) : list (string * NumType) :=
  map (fun m => (Metric_getName m, Metric_kind m)) (MetricCollector.metrics_ c).

Definition names_of (c : MetricCollector.t) : list string :=
  map Metric_getName (MetricCollector.metrics_ c).

(** [recordMetric] releases [metrics_mutex_] after its first lookup,
    and [registerMetric] takes it again: calls of other threads can run
    in between.  [recordMetric_after_miss] is the rest of a call whose
    first lookup found no metric of the name: the auto-registration,
    the second lookup and the record, on the collector as the other
    threads have left it by then. *)
Definition recordMetric_after_miss {P : Platform} (T : NumType) (name : string)
    (value : val T) (st : MetricCollector.t * ostream) : MetricCollector.t * ostream :=
  let '(c, cerr) := st in
  match MetricCollector.registerMetric T name c with
  | (c1, Return _) =>
      match find_if (MetricCollector.has_name name) (MetricCollector.metrics_ c1) with
      | Some i => (MetricCollector.record_at T value i c1, cerr)
      | None => (c1, cerr)
      end
  | (c1, Throw e) =>
      (c1, cerr ++ [("Failed to auto-register metric '" +:+ name +:+ "': "
                     +:+ what e)%string])
  end.

(** The calls made on a collector, and the cycles of its worker; an
    exception of [registerMetric] goes to the caller and the collector
    stays as the call left it. *)
Inductive collector_op :=
| op_register (T : NumType) (name : string)
| op_record (T : NumType) (name : string) (value : val T)
| op_start
| op_stop (timestamp : TimePoint)
| op_flush (timestamp : TimePoint)
| op_cycle (timestamp : TimePoint).

Definition collector_step {P : Platform} (st : MetricCollector.t * ostream)
    (op : collector_op) : MetricCollector.t * ostream :=
  match op with
  | op_register T name => (fst (MetricCollector.registerMetric T name (fst st)), snd st)
  | op_record T name value => MetricCollector.recordMetric T name value st
  | op_start => (MetricCollector.start (fst st), snd st)
  | op_stop timestamp => MetricCollector.stop timestamp st
  | op_flush timestamp => MetricCollector.flush timestamp st
  | op_cycle timestamp => MetricCollector.collectCurrentMetrics timestamp st
  end.

Definition collector_run {P : Platform} (st : MetricCollector.t * ostream)
    (ops : list collector_op) : MetricCollector.t * ostream :=
  fold_left collector_step ops st.

(** Equality of values of a kind: of the rationals that stand for the
    floating values, as numbers. *)
Definition val_eq (T : NumType) : val T -> val T -> Prop :=
  match T with
  | Integral _ => eq
  | Floating _ => Qeq
  end.

(** A sequence of [addValue] calls on a metric value. *)
Definition add_values {P : Platform} {T : NumType} (vs : list (val T))
    (v : TypedMetricValue.t T) : TypedMetricValue.t T :=
  fold_left (fun v x => TypedMetricValue.addValue x v) vs v.

(** What [getValue] gives for the added values [vs]: the mean, which
    for an integral kind is the quotient truncated toward zero when the
    sum and the number of values fit the kind. *)
Definition averaged_as {P : Platform} (T : NumType) : val T -> list (val T) -> Prop :=
  match T with
  | Integral i => fun x vs =>
      in_range (int_bits i) (exact_sum vs) ->
      in_range (int_bits i) (Z.of_nat (length vs)) ->
      x = Z.quot (exact_sum vs) (Z.of_nat (length vs))
  | Floating _ => fun x vs => (x == arithmetic_mean vs)%Q
  end.

(** The calls made on a manager, and the cycles of the worker of its
    collector; an exception of [registerMetric] goes to the caller. *)
Inductive manager_op :=
| m_start
| m_stop (timestamp : TimePoint)
| m_register (T : NumType) (name : string)
| m_record (T : NumType) (name : string) (value : val T)
| m_flush (timestamp : TimePoint)
| m_cycle (timestamp : TimePoint).

Definition manager_step {P : Platform} (st : MetricSystemManager.t * ostream)
    (op : manager_op) : MetricSystemManager.t * ostream :=
  match op with
  | m_start => (MetricSystemManager.start (fst st), snd st)
  | m_stop timestamp => MetricSystemManager.stop timestamp st
  | m_register T name => fst (MetricSystemManager.registerMetric T name st)
  | m_record T name value => MetricSystemManager.recordMetric T name value st
  | m_flush timestamp => MetricSystemManager.flush timestamp st
  | m_cycle timestamp =>
      let '(c, cerr') :=
        MetricCollector.collectCurrentMetrics timestamp
          (MetricSystemManager.collector_ (fst st), snd st) in
      ({| MetricSystemManager.collector_ := c;
          MetricSystemManager.output_file_ := MetricSystemManager.output_file_ (fst st);
          MetricSystemManager.is_running_ := MetricSystemManager.is_running_ (fst st) |},
       cerr')
  end.

Definition manager_run {P : Platform} (st : MetricSystemManager.t * ostream)
    (ops : list manager_op) : MetricSystemManager.t * ostream :=
  fold_left manager_step ops st.

(** Calls on the metrics of SpecificMetrics; a [recordValue] that throws
    leaves the metric as it was. *)
Definition cpu_records {P : Platform} (vs : list Q) (m : CPUMetric.t) : CPUMetric.t :=
  fold_left (fun m v => fst (CPUMetric.recordValue v m)) vs m.

Inductive memory_op :=
| mem_record (memoryMB : Q)
| mem_reset.

Definition memory_step {P : Platform} (m : MemoryMetric.t) (op : memory_op)
  : MemoryMetric.t :=
  match op with
  | mem_record memoryMB => fst (MemoryMetric.recordValue memoryMB m)
  | mem_reset => MemoryMetric.reset m
  end.

Definition memory_run {P : Platform} (m : MemoryMetric.t) (ops : list memory_op)
  : MemoryMetric.t :=
  fold_left memory_step ops m.

(** The values of the records that were accepted since the last reset. *)
Definition memory_since_step (acc : list Q) (op : memory_op) : list Q :=
  match op with
  | mem_record memoryMB => if Qltb memoryMB 0 then acc else acc ++ [memoryMB]
  | mem_reset => []
  end.

Definition memory_since_reset (ops : list memory_op) : list Q :=
  fold_left memory_since_step ops [].

Inductive http_op :=
| http_record (requests : Z)
| http_reset (now : TimePoint).

Definition http_step {P : Platform} (m : HTTPRequestMetric.t) (op : http_op)
  : HTTPRequestMetric.t :=
  match op with
  | http_record requests => fst (HTTPRequestMetric.recordValue requests m)
  | http_reset now => HTTPRequestMetric.reset now m
  end.

Definition http_run {P : Platform} (m : HTTPRequestMetric.t) (ops : list http_op)
  : HTTPRequestMetric.t :=
  fold_left http_step ops m.

(** The request counts of the records that were accepted, in all and
    since the last reset. *)
Definition http_accepted (ops : list http_op) : list Z :=
  flat_map (fun op =>
              match op with
              | http_record requests => if requests <? 0 then [] else [requests]
              | http_reset _ => []
              end) ops.

Definition http_since_step (acc : list Z) (op : http_op) : list Z :=
  match op with
  | http_record requests => if requests <? 0 then acc else acc ++ [requests]
  | http_reset _ => []
  end.

Definition http_since_reset (ops : list http_op) : list Z :=
  fold_left http_since_step ops [].

(** The time of the last reset among the calls, and the time [t0] of
    the construction when there is none. *)
Definition http_last_reset (t0 : TimePoint) (ops : list http_op) : TimePoint :=
  fold_left (fun t op =>
               match op with
               | http_record _ => t
               | http_reset now => now
               end) ops t0.

(** A metric that holds no samples: it is as [reset] leaves it. *)
Definition holds_no_samples (m : Metric) : Prop := Metric_reset m = m.

(** What a manager with an open stream keeps: its flag is the flag of
    its collector, the stream stays open, and while it is stopped its
    metrics hold no samples. *)
Definition manager_invariant (m : MetricSystemManager.t) : Prop :=
  MetricSystemManager.is_running_ m =
    MetricCollector.running_ (MetricSystemManager.collector_ m) /\
  ofstream.is_open
    (MetricWriter.file_stream_
       (MetricCollector.writer_ (MetricSystemManager.collector_ m))) = true /\
  (MetricSystemManager.is_running_ m = false ->
   Forall holds_no_samples (MetricCollector.metrics_ (MetricSystemManager.collector_ m))).

(** The calls of the worked examples on these metrics. *)
Definition example_cpu_records : list Q := [(1 # 2)%Q; 5%Q; 3%Q].

Definition example_memory_calls : list memory_op :=
  [mem_record 10%Q; mem_reset; mem_record 2%Q; mem_record (-1)%Q; mem_record 4%Q].

Definition example_http_calls : list http_op :=
  [http_record 10; http_reset 1000; http_record 30].

Definition example_manager : MetricSystemManager.t :=
  MetricSystemManager.mk (idle_collector [] open_writer) "metrics.txt" false.

Definition example_manager_calls : list manager_op :=
  [m_record (Integral t_int) "HTTP" 1; m_start; m_record (Integral t_int) "HTTP" 10;
   m_cycle 1653; m_stop 2653].

(** The manager of a scoped system, and calls that leave a sample in
    a running manager. *)
Definition example_scoped_manager : MetricSystemManager.t :=
  MetricSystemManager.mk (running_collector [] open_writer) "metrics.txt" true.

Definition example_scoped_calls : list manager_op :=
  [m_register (Integral t_int) "HTTP"; m_record (Integral t_int) "HTTP" 10;
   m_stop 1653; m_record (Integral t_int) "HTTP" 5; m_start;
   m_record (Floating t_double) "CPU" (1 # 2)%Q].

(** ** Arithmetic of the wrapped kinds *)

Lemma pow2_double (w : Z) : 0 < w -> 2 ^ w = 2 * 2 ^ (w - 1).
Proof.
  intros Hw. replace w with (Z.succ (w - 1)) at 1 by lia.
  rewrite Z.pow_succ_r by lia. reflexivity.
Qed.

Lemma wrap_signed_small (w z : Z) :
  0 < w -> in_range w z -> wrap_signed w z = z.
Proof.
  unfold in_range, wrap_signed. intros Hw Hz.
  rewrite (pow2_double w Hw).
  rewrite Z.mod_small by lia. lia.
Qed.

Lemma wrap_signed_in_range (w z : Z) : 0 < w -> in_range w (wrap_signed w z).
Proof.
  unfold in_range, wrap_signed. intros Hw.
  assert (Hh : 0 < 2 ^ (w - 1)) by (apply Z.pow_pos_nonneg; lia).
  pose proof (Z.mod_pos_bound (z + 2 ^ (w - 1)) (2 ^ w)) as Hb.
  rewrite (pow2_double w Hw) in *. lia.
Qed.

Lemma wrap_signed_plus_l (w a b : Z) :
  wrap_signed w (wrap_signed w a + b) = wrap_signed w (a + b).
Proof.
  unfold wrap_signed. f_equal.
  replace ((a + 2 ^ (w - 1)) mod 2 ^ w - 2 ^ (w - 1) + b + 2 ^ (w - 1))
    with ((a + 2 ^ (w - 1)) mod 2 ^ w + b) by lia.
  rewrite Zplus_mod_idemp_l. f_equal. lia.
Qed.

Lemma wrap_unsigned_succ (w a : Z) :
  wrap_unsigned w (wrap_unsigned w a + 1) = wrap_unsigned w (a + 1).
Proof. unfold wrap_unsigned. apply Zplus_mod_idemp_l. Qed.

Lemma int_bits_pos {P : Platform} (i : IntType) : 1 < int_bits i.
Proof. destruct i; simpl; [lia | destruct long_is_64; lia]. Qed.

Lemma size_bits_pos {P : Platform} : 0 < size_bits.
Proof. unfold size_bits. destruct size_t_is_64; lia. Qed.

Lemma in_range_one (w : Z) : 1 < w -> in_range w 1.
Proof.
  intros Hw. unfold in_range.
  assert (2 ^ 1 <= 2 ^ (w - 1)) by (apply Z.pow_le_mono_r; lia).
  change (2 ^ 1) with 2 in *. lia.
Qed.

(** ** A sequence of records on one metric *)

Section RecordValues.
Context {P : Platform}.

Lemma record_values_name {T} (vs : list (val T)) (m : TypedMetric.t T) :
  TypedMetric.name_ (record_values vs m) = TypedMetric.name_ m.
Proof.
  revert m. induction vs as [|v vs IH]; intros m; simpl; [reflexivity|].
  unfold record_values in *. simpl. rewrite IH. reflexivity.
Qed.

Lemma record_values_count {T} (vs : list (val T)) (m : TypedMetric.t T) :
  wrap_unsigned size_bits (TypedMetric.count_ (record_values vs m)) =
  wrap_unsigned size_bits (TypedMetric.count_ m + Z.of_nat (length vs)).
Proof.
  revert m. induction vs as [|v vs IH]; intros m.
  - simpl. f_equal. lia.
  - unfold record_values in *. cbn [fold_left length]. rewrite IH.
    cbn [TypedMetric.recordValue TypedMetric.count_]. unfold size_succ.
    unfold wrap_unsigned. rewrite Zplus_mod_idemp_l. f_equal. lia.
Qed.

Lemma record_values_count_wrapped {T} (vs : list (val T)) (m : TypedMetric.t T) :
  vs <> [] ->
  TypedMetric.count_ (record_values vs m) =
  wrap_unsigned size_bits (TypedMetric.count_ (record_values vs m)).
Proof.
  revert m. induction vs as [|v vs IH]; intros m Hne; [congruence|].
  destruct vs as [|v' vs].
  - unfold record_values. simpl. unfold size_succ, wrap_unsigned.
    rewrite Z.mod_mod; [reflexivity|].
    pose proof size_bits_pos. apply Z.pow_nonzero; lia.
  - unfold record_values in *. cbn [fold_left]. cbn [fold_left] in IH.
    apply IH. discriminate.
Qed.

(** The count after fewer than [2 ^ size_bits] records on a fresh
    metric is the number of records. *)
Lemma record_values_count_fresh {T} (vs : list (val T)) (name : string) :
  Z.of_nat (length vs) < 2 ^ size_bits ->
  TypedMetric.count_ (record_values vs (TypedMetric.make T name)) =
  Z.of_nat (length vs).
Proof.
  intros Hlen. destruct vs as [|v vs]; [reflexivity|].
  rewrite record_values_count_wrapped by discriminate.
  rewrite record_values_count. simpl TypedMetric.count_.
  unfold wrap_unsigned. apply Z.mod_small. lia.
Qed.

Lemma record_values_integral (i : IntType) (vs : list Z)
    (m : TypedMetric.t (Integral i)) :
  wrap_signed (int_bits i) (TypedMetric.accumulated_value_ (record_values (T:=Integral i) vs m)) =
  wrap_signed (int_bits i) (TypedMetric.accumulated_value_ m + exact_sum vs).
Proof.
  revert m. induction vs as [|v vs IH]; intros m.
  - simpl. f_equal. lia.
  - unfold record_values in *. cbn [fold_left exact_sum fold_right]. rewrite IH.
    cbn [TypedMetric.recordValue TypedMetric.accumulated_value_ plus].
    rewrite wrap_signed_plus_l. f_equal. fold (exact_sum vs). lia.
Qed.

Lemma record_values_integral_fresh (i : IntType) (vs : list Z) (name : string) :
  TypedMetric.accumulated_value_
    (record_values (T:=Integral i) vs (TypedMetric.make (Integral i) name)) =
  wrap_signed (int_bits i) (exact_sum vs).
Proof.
  pose proof (int_bits_pos i) as Hw.
  destruct vs as [|v vs].
  - simpl. symmetry. apply wrap_signed_small; [lia|].
    unfold in_range. assert (0 < 2 ^ (int_bits i - 1)) by (apply Z.pow_pos_nonneg; lia).
    lia.
  - rewrite <- (wrap_signed_small (int_bits i)
                 (TypedMetric.accumulated_value_
                    (record_values (T:=Integral i) (v :: vs) _)));
      [rewrite record_values_integral; reflexivity | lia |].
    clear. generalize (TypedMetric.make (Integral i) name). revert v.
    induction vs as [|v' vs IH]; intros v m.
    + unfold record_values. simpl. apply wrap_signed_in_range.
      pose proof (int_bits_pos i). lia.
    + unfold record_values in *. cbn [fold_left]. cbn [fold_left] in IH. apply IH.
Qed.

Lemma record_values_floating (f : FloatType) (vs : list Q)
    (m : TypedMetric.t (Floating f)) :
  (TypedMetric.accumulated_value_ (record_values (T:=Floating f) vs m) ==
   TypedMetric.accumulated_value_ m + rational_sum vs)%Q.
Proof.
  revert m. induction vs as [|v vs IH]; intros m.
  - simpl. symmetry. apply Qplus_0_r.
  - unfold record_values in *. cbn [fold_left rational_sum fold_right]. rewrite IH.
    cbn [TypedMetric.recordValue TypedMetric.accumulated_value_ plus].
    symmetry. apply Qplus_assoc.
Qed.

End RecordValues.

(** ** The snapshot taken by a flush cycle *)

Section Snapshot.
Context {P : Platform}.

Lemma getValue_make_floating (f : FloatType) (x : Q) :
  (TypedMetricValue.getValue (TypedMetricValue.make (Floating f) x) == x)%Q.
Proof.
  unfold TypedMetricValue.getValue, TypedMetricValue.make. simpl.
  destruct (Qeq_bool x 0) eqn:Hx; simpl.
  - apply Qeq_bool_eq in Hx. symmetry. exact Hx.
  - unfold Qdiv. change (/ inject_Z 1)%Q with 1%Q. apply Qmult_1_r.
Qed.

Lemma getValue_make_integral (i : IntType) (x : Z) :
  in_range (int_bits i) x ->
  TypedMetricValue.getValue (TypedMetricValue.make (Integral i) x) = x.
Proof.
  intros Hx. pose proof (int_bits_pos i) as Hw.
  unfold TypedMetricValue.getValue, TypedMetricValue.make. simpl.
  destruct (Z.eqb_spec x 0) as [->|Hne]; simpl; [reflexivity|].
  rewrite (wrap_signed_small (int_bits i) 1) by (try apply in_range_one; lia).
  rewrite Z.quot_1_r. apply wrap_signed_small; [lia | exact Hx].
Qed.

(** [getAccumulatedValue] never returns the null pointer. *)
Lemma getAccumulatedValue_not_null (m : Metric) :
  exists v, Metric_getAccumulatedValue m = Some v.
Proof.
  destruct m as [T tm]. simpl. unfold TypedMetric.getAccumulatedValue.
  destruct (TypedMetric.count_ tm =? 0); [eauto|].
  destruct (is_floating_point T); eauto.
Qed.

(** So the first loop of a flush cycle makes one entry per registered
    metric, in order. *)
Lemma collect_entries_all (ts : TimePoint) (ms : list Metric) :
  Forall2
    (fun m e =>
       timestamp e = ts /\ name e = Metric_getName m /\
       Metric_getAccumulatedValue m = Some (value e))
    ms (MetricCollector.collect_entries ts ms).
Proof.
  induction ms as [|m ms IH]; simpl; [constructor|].
  destruct (getAccumulatedValue_not_null m) as [v Hv]. rewrite Hv. simpl.
  constructor; [|exact IH]. simpl. auto.
Qed.

Lemma collect_entries_lookup (ts : TimePoint) (ms : list Metric) (i : nat) (m : Metric) :
  ms !! i = Some m ->
  exists e,
    MetricCollector.collect_entries ts ms !! i = Some e /\
    timestamp e = ts /\ name e = Metric_getName m /\
    Metric_getAccumulatedValue m = Some (value e).
Proof.
  intros Hm.
  destruct (Forall2_lookup_l _ _ _ _ _ (collect_entries_all ts ms) Hm)
    as (e & He & Hprops).
  exists e. auto.
Qed.

Lemma collect_entries_nil (ts : TimePoint) (ms : list Metric) :
  MetricCollector.collect_entries ts ms = [] -> ms = [].
Proof.
  intros He. pose proof (collect_entries_all ts ms) as HF.
  rewrite He in HF. inversion HF. reflexivity.
Qed.

(** The rendering of a snapshot whose value is zero. *)
Lemma toString_make_zero (T : NumType) (x : val T) :
  differs T x (T0 T) = false ->
  TypedMetricValue.toString (TypedMetricValue.make T x) = "0"%string.
Proof.
  intros Hx. unfold TypedMetricValue.toString, TypedMetricValue.make. simpl.
  rewrite Hx. reflexivity.
Qed.

End Snapshot.

(** ** Lookup and downcast *)

Lemma find_if_lookup {A : Type} (p : A -> bool) (l : list A) (i : nat) :
  find_if p l = Some i -> exists x, l !! i = Some x /\ p x = true.
Proof.
  revert i. induction l as [|a l IH]; intros i Hf; simpl in Hf; [discriminate|].
  destruct (p a) eqn:Ha.
  - inversion Hf; subst. exists a. split; [reflexivity | exact Ha].
  - destruct (find_if p l) as [j|]; simpl in Hf; [|discriminate].
    inversion Hf; subst. destruct (IH j eq_refl) as (x & Hx & Hp).
    exists x. split; [exact Hx | exact Hp].
Qed.

Lemma find_if_insert {A : Type} (p : A -> bool) (l : list A) (i : nat) (y : A) :
  find_if p l = Some i -> p y = true -> find_if p (<[i:=y]> l) = Some i.
Proof.
  revert i. induction l as [|a l IH]; intros i Hf Hy; simpl in Hf; [discriminate|].
  destruct (p a) eqn:Ha.
  - inversion Hf; subst. simpl. rewrite Hy. reflexivity.
  - destruct (find_if p l) as [j|] eqn:Hj; simpl in Hf; [|discriminate].
    inversion Hf; subst. simpl. rewrite Ha. rewrite (IH j eq_refl Hy). reflexivity.
Qed.

Lemma find_if_app_fresh {A : Type} (p : A -> bool) (l : list A) (x : A) :
  find_if p l = None -> p x = true -> find_if p (l ++ [x]) = Some (length l).
Proof.
  induction l as [|a l IH]; intros Hf Hx; simpl in *.
  - rewrite Hx. reflexivity.
  - destruct (p a); [discriminate|].
    destruct (find_if p l); [discriminate|]. rewrite IH by auto. reflexivity.
Qed.

Lemma find_if_ext {A B : Type} (p : A -> bool) (q : B -> bool) (g : A -> B) (l : list A) :
  (forall a, q (g a) = p a) -> find_if q (map g l) = find_if p l.
Proof.
  intros Hpq. induction l as [|a l IH]; simpl; [reflexivity|].
  rewrite Hpq, IH. reflexivity.
Qed.

Lemma dynamic_cast_same (T : NumType) (tm : TypedMetric.t T) :
  dynamic_cast T (metric T tm) = Some tm.
Proof.
  unfold dynamic_cast. destruct (NumType_eq_dec T T) as [e|n]; [|congruence].
  rewrite <- (Eqdep_dec.eq_rect_eq_dec NumType_eq_dec). reflexivity.
Qed.

Lemma dynamic_cast_other (T : NumType) (m : Metric) :
  Metric_kind m <> T -> dynamic_cast T m = None.
Proof.
  destruct m as [U tm]. simpl. intros Hne.
  destruct (NumType_eq_dec U T); [congruence | reflexivity].
Qed.

Lemma dynamic_cast_Some (T : NumType) (m : Metric) (tm : TypedMetric.t T) :
  dynamic_cast T m = Some tm -> m = metric T tm.
Proof.
  destruct m as [U um]. simpl.
  destruct (NumType_eq_dec U T) as [e|n]; [|discriminate].
  subst U. rewrite <- (Eqdep_dec.eq_rect_eq_dec NumType_eq_dec).
  intros H; inversion H. reflexivity.
Qed.

(** ** Records through the collector *)

Section CollectorRecords.
Context {P : Platform}.
Import MetricCollector.

Lemma has_name_reset (n : string) (m : Metric) :
  has_name n (Metric_reset m) = has_name n m.
Proof. destruct m; reflexivity. Qed.

Lemma record_at_hit (T : NumType) (v : val T) (i : nat) (c : t)
    (tm : TypedMetric.t T) :
  metrics_ c !! i = Some (metric T tm) ->
  record_at T v i c =
  {| metrics_ := <[i := metric T (TypedMetric.recordValue v tm)]> (metrics_ c);
     running_ := running_ c; writer_ := writer_ c |}.
Proof.
  intros Hm. unfold record_at. rewrite Hm, dynamic_cast_same. reflexivity.
Qed.

Lemma record_at_miss (T : NumType) (v : val T) (i : nat) (c : t) (m : Metric) :
  metrics_ c !! i = Some m -> Metric_kind m <> T -> record_at T v i c = c.
Proof.
  intros Hm Hk. unfold record_at. rewrite Hm, dynamic_cast_other by exact Hk.
  reflexivity.
Qed.

(** A record under a registered name of the metric's own kind. *)
Lemma recordMetric_registered (T : NumType) (n : string) (v : val T)
    (c : t) (cerr : ostream) (i : nat) (tm : TypedMetric.t T) :
  running_ c = true ->
  find_if (has_name n) (metrics_ c) = Some i ->
  metrics_ c !! i = Some (metric T tm) ->
  recordMetric T n v (c, cerr) =
  ({| metrics_ := <[i := metric T (TypedMetric.recordValue v tm)]> (metrics_ c);
      running_ := true; writer_ := writer_ c |}, cerr).
Proof.
  intros Hrun Hfind Hm. unfold recordMetric. rewrite Hrun, Hfind. simpl.
  rewrite (record_at_hit T v i c tm Hm), Hrun. reflexivity.
Qed.

Lemma record_calls_registered (T : NumType) (n : string) (vs : list (val T))
    (c : t) (cerr : ostream) (i : nat) (tm : TypedMetric.t T) :
  running_ c = true ->
  find_if (has_name n) (metrics_ c) = Some i ->
  metrics_ c !! i = Some (metric T tm) ->
  record_calls T n vs (c, cerr) =
  ({| metrics_ := <[i := metric T (record_values vs tm)]> (metrics_ c);
      running_ := true; writer_ := writer_ c |}, cerr).
Proof.
  revert c tm. induction vs as [|v vs IH]; intros c tm Hrun Hfind Hm.
  - simpl. rewrite list_insert_id by exact Hm. destruct c; simpl in *.
    rewrite Hrun. reflexivity.
  - unfold record_calls in *. cbn [fold_left].
    rewrite (recordMetric_registered T n v c cerr i tm Hrun Hfind Hm).
    assert (Hi : (i < length (metrics_ c))%nat) by (eapply lookup_lt_Some; eauto).
    destruct (find_if_lookup _ _ _ Hfind) as (x & Hx & Hpx).
    rewrite Hm in Hx. inversion Hx; subst x.
    rewrite (IH _ (TypedMetric.recordValue v tm)); simpl.
    + rewrite list_insert_insert_eq. reflexivity.
    + reflexivity.
    + apply find_if_insert; [exact Hfind | exact Hpx].
    + apply list_lookup_insert_eq. exact Hi.
Qed.

End CollectorRecords.

(** ** The writer *)

Lemma str_app_assoc (a b c : string) : ((a +:+ b) +:+ c = a +:+ (b +:+ c))%string.
Proof.
  induction a as [|x a IH]; [reflexivity|].
  change (String x ((a +:+ b) +:+ c) = String x (a +:+ b +:+ c)).
  rewrite IH. reflexivity.
Qed.

Lemma str_app_nil_r (a : string) : (a +:+ "" = a)%string.
Proof.
  induction a as [|x a IH]; [reflexivity|].
  change (String x (a +:+ "") = String x a).
  rewrite IH. reflexivity.
Qed.

Section Writer.
Context {P : Platform}.
Import MetricWriter.

(** One iteration of the loop on an open stream. *)
Lemma write_entry_open (fs : ofstream.t) (cerr : ostream) (e : MetricEntry) :
  ofstream.is_open fs = true ->
  exists fs',
    write_entry (fs, cerr) e =
      (fs', cerr ++ (if serializes e then [] else [entry_error e])) /\
    ofstream.is_open fs' = true /\
    (ofstream.file fs' +:+ ofstream.buffer fs' =
     (ofstream.file fs +:+ ofstream.buffer fs) +:+
     (if serializes e then entry_line e else ""))%string.
Proof.
  intros Hopen. unfold write_entry, serializes, MetricNameValidator.formatNameForOutput.
  destruct (MetricNameValidator.isValidName (name e)) eqn:Hv; simpl.
  - eexists. split; [rewrite app_nil_r; reflexivity|].
    unfold ofstream.endl, ofstream.flush, ofstream.put. rewrite Hopen. simpl.
    split; [reflexivity|].
    unfold entry_line, entry_text. rewrite ?str_app_nil_r, ?str_app_assoc.
    reflexivity.
  - exists fs. split; [reflexivity|]. split; [exact Hopen|].
    rewrite str_app_nil_r. reflexivity.
Qed.

Lemma write_entries_open (entries : list MetricEntry) (fs : ofstream.t) (cerr : ostream) :
  ofstream.is_open fs = true ->
  exists fs',
    fold_left write_entry entries (fs, cerr) = (fs', cerr ++ logged_errors entries) /\
    ofstream.is_open fs' = true /\
    (ofstream.file fs' +:+ ofstream.buffer fs' =
     (ofstream.file fs +:+ ofstream.buffer fs) +:+ written_text entries)%string.
Proof.
  revert fs cerr. induction entries as [|e es IH]; intros fs cerr Hopen.
  - exists fs. simpl. rewrite app_nil_r, str_app_nil_r. auto.
  - destruct (write_entry_open fs cerr e Hopen) as (fs1 & Hstep & Hopen1 & Hfile1).
    destruct (IH fs1 (cerr ++ (if serializes e then [] else [entry_error e])) Hopen1)
      as (fs2 & Hfold & Hopen2 & Hfile2).
    exists fs2. cbn [fold_left]. rewrite Hstep.
    split; [|split; [exact Hopen2|]].
    + etransitivity; [exact Hfold|].
      f_equal. rewrite <- app_assoc. f_equal. simpl.
      destruct (serializes e); reflexivity.
    + rewrite Hfile2, Hfile1. simpl.
      destruct (serializes e); rewrite ?str_app_nil_r, ?str_app_assoc; reflexivity.
Qed.

(** [writeMetrics] on an open stream returns, with every entry that
    serializes persisted and the buffer empty. *)
Lemma writeMetrics_open (entries : list MetricEntry) (w : t) (cerr : ostream) :
  entries <> [] ->
  ofstream.is_open (file_stream_ w) = true ->
  exists w',
    writeMetrics entries w cerr = (w', cerr ++ logged_errors entries, Return tt) /\
    output_file_ w' = output_file_ w /\
    ofstream.is_open (file_stream_ w') = true /\
    ofstream.buffer (file_stream_ w') = ""%string /\
    ofstream.file (file_stream_ w') =
      ((ofstream.file (file_stream_ w) +:+ ofstream.buffer (file_stream_ w))
       +:+ written_text entries)%string.
Proof.
  intros Hne Hopen. unfold writeMetrics.
  destruct entries as [|e es]; [congruence|]. rewrite Hopen. simpl negb. cbv iota.
  destruct (write_entries_open (e :: es) (file_stream_ w) cerr Hopen)
    as (fs' & Hfold & Hopen' & Hfile).
  rewrite Hfold. eexists. split; [reflexivity|]. simpl.
  unfold ofstream.flush. rewrite Hopen'. simpl. auto.
Qed.

Lemma writeMetrics_closed (entries : list MetricEntry) (w : t) (cerr : ostream) :
  entries <> [] ->
  ofstream.is_open (file_stream_ w) = false ->
  writeMetrics entries w cerr =
    (w, cerr, Throw (runtime_error "Output file is not open")).
Proof.
  intros Hne Hclosed. unfold writeMetrics.
  destruct entries; [congruence|]. rewrite Hclosed. reflexivity.
Qed.

(** A throw of [writeMetrics] leaves the writer and the log as they
    were, and only a closed stream makes it throw. *)
Lemma writeMetrics_Throw (entries : list MetricEntry) (w w' : t)
    (cerr cerr' : ostream) (x : exception) :
  writeMetrics entries w cerr = (w', cerr', Throw x) ->
  w' = w /\ cerr' = cerr /\ entries <> [] /\
  ofstream.is_open (file_stream_ w) = false.
Proof.
  unfold writeMetrics. destruct entries as [|e es]; [discriminate|].
  destruct (ofstream.is_open (file_stream_ w)) eqn:Hopen; cbn [negb].
  - destruct (fold_left write_entry (e :: es) (file_stream_ w, cerr)) as [fs' log].
    intros H; discriminate H.
  - intros H; inversion H; subst. repeat split; congruence.
Qed.

End Writer.

(** ** The flush cycle *)

Section FlushCycle.
Context {P : Platform}.
Import MetricCollector.

Lemma collectCurrentMetrics_open (ts : TimePoint) (c : t) (cerr : ostream) :
  metrics_ c <> [] ->
  ofstream.is_open (MetricWriter.file_stream_ (writer_ c)) = true ->
  exists w,
    collectCurrentMetrics ts (c, cerr) =
      ({| metrics_ := map Metric_reset (metrics_ c);
          running_ := running_ c; writer_ := w |},
       cerr ++ logged_errors (collect_entries ts (metrics_ c))) /\
    ofstream.is_open (MetricWriter.file_stream_ w) = true /\
    ofstream.buffer (MetricWriter.file_stream_ w) = ""%string /\
    ofstream.file (MetricWriter.file_stream_ w) =
      ((ofstream.file (MetricWriter.file_stream_ (writer_ c)) +:+
        ofstream.buffer (MetricWriter.file_stream_ (writer_ c)))
       +:+ written_text (collect_entries ts (metrics_ c)))%string.
Proof.
  intros Hne Hopen. unfold collectCurrentMetrics, write_and_reset. simpl fst.
  destruct (collect_entries ts (metrics_ c)) as [|e es] eqn:Hes.
  - apply collect_entries_nil in Hes. congruence.
  - destruct (writeMetrics_open (e :: es) (writer_ c) cerr)
      as (w & Hw & _ & Ho & Hb & Hf); [discriminate | exact Hopen |].
    rewrite Hw. exists w. unfold reset_all. simpl. auto.
Qed.

Lemma collectCurrentMetrics_closed (ts : TimePoint) (c : t) (cerr : ostream) :
  metrics_ c <> [] ->
  ofstream.is_open (MetricWriter.file_stream_ (writer_ c)) = false ->
  collectCurrentMetrics ts (c, cerr) =
    (c, cerr ++ ["Error writing metrics: Output file is not open"%string]).
Proof.
  intros Hne Hclosed. unfold collectCurrentMetrics, write_and_reset. simpl fst.
  destruct (collect_entries ts (metrics_ c)) as [|e es] eqn:Hes.
  - apply collect_entries_nil in Hes. congruence.
  - rewrite writeMetrics_closed by (try discriminate; exact Hclosed).
    destruct c; reflexivity.
Qed.

(** The sequential cycle is the schedule that runs its three steps
    with nothing in between. *)
Lemma run_flush_cycle (ts : TimePoint) (c : t) (cerr : ostream) :
  run (mkSystem c cerr at_start) (flush_cycle ts) =
  let '(c', cerr') := collectCurrentMetrics ts (c, cerr) in
  mkSystem c' cerr' at_start.
Proof.
  unfold run, flush_cycle, collectCurrentMetrics, write_and_reset. simpl fst.
  cbn [fold_left step sys_pc sys_collector sys_cerr].
  destruct (collect_entries ts (metrics_ c)) as [|e es].
  - reflexivity.
  - destruct (MetricWriter.writeMetrics (e :: es) (writer_ c) cerr) as [[w log] [u|x]];
      reflexivity.
Qed.

(** [flush] is a cycle on a running collector and nothing on an idle
    one; [stop] ends with a cycle. *)
Lemma flush_running (ts : TimePoint) (c : t) (cerr : ostream) :
  running_ c = true -> flush ts (c, cerr) = collectCurrentMetrics ts (c, cerr).
Proof. intros Hrun. unfold flush. simpl. rewrite Hrun. reflexivity. Qed.

Lemma flush_idle (ts : TimePoint) (c : t) (cerr : ostream) :
  running_ c = false -> flush ts (c, cerr) = (c, cerr).
Proof. intros Hidle. unfold flush. simpl. rewrite Hidle. reflexivity. Qed.

Lemma stop_running (ts : TimePoint) (c : t) (cerr : ostream) :
  running_ c = true ->
  stop ts (c, cerr) =
  collectCurrentMetrics ts (MetricCollector.mk (metrics_ c) false (writer_ c), cerr).
Proof. intros Hrun. unfold stop. rewrite Hrun. reflexivity. Qed.

End FlushCycle.

(** ** Registration *)

Section Registration.
Context {P : Platform}.

Lemma malformed_not_valid (n : string) :
  malformed n -> MetricNameValidator.isValidName n = false.
Proof.
  intros [->|(c & Hin & Hc)]; [reflexivity|].
  unfold MetricNameValidator.isValidName.
  destruct (String.eqb n ""); [reflexivity|].
  apply negb_false_iff, existsb_exists. exists c. split; [exact Hin|].
  unfold MetricNameValidator.invalid_char, MetricNameValidator.char_value.
  unfold is_quote, is_control in Hc.
  destruct Hc as [Hq|Hq].
  - apply N.eqb_eq in Hq. rewrite Hq. simpl Z.of_N.
    replace (128 <=? 34) with false by reflexivity.
    rewrite andb_false_r. reflexivity.
  - apply N.ltb_lt in Hq.
    assert (Hlt : Z.of_N (N_of_ascii c) < 32) by lia.
    replace (128 <=? Z.of_N (N_of_ascii c)) with false
      by (symmetry; apply Z.leb_gt; lia).
    rewrite andb_false_r.
    apply Z.ltb_lt in Hlt. rewrite Hlt. rewrite !orb_true_r. reflexivity.
Qed.

(** The registry validates before it inserts. *)
Lemma registry_rejects_malformed (n : string) (m : Metric) (r : MetricRegistry.t) :
  malformed n ->
  MetricRegistry.registerMetric n m r =
    (r, Throw (invalid_argument ("Invalid metric name: " +:+ n))).
Proof.
  intros Hn. unfold MetricRegistry.registerMetric.
  rewrite (malformed_not_valid n Hn). reflexivity.
Qed.

(** The collector's own registration inserts any name that is not yet
    there. *)
Lemma collector_registers_any_fresh_name (T : NumType) (n : string)
    (c : MetricCollector.t) :
  find_if (MetricCollector.has_name n) (MetricCollector.metrics_ c) = None ->
  MetricCollector.registerMetric T n c =
    (MetricCollector.mk
       (MetricCollector.metrics_ c ++ [metric T (TypedMetric.make T n)])
       (MetricCollector.running_ c) (MetricCollector.writer_ c),
     Return tt).
Proof. intros Hf. unfold MetricCollector.registerMetric. rewrite Hf. reflexivity. Qed.

Lemma collector_registered_found (T : NumType) (n : string)
    (c c1 : MetricCollector.t) :
  MetricCollector.registerMetric T n c = (c1, Return tt) ->
  find_if (MetricCollector.has_name n) (MetricCollector.metrics_ c1) =
    Some (length (MetricCollector.metrics_ c)) /\
  MetricCollector.metrics_ c1 !! length (MetricCollector.metrics_ c) =
    Some (metric T (TypedMetric.make T n)).
Proof.
  unfold MetricCollector.registerMetric.
  destruct (find_if _ _) eqn:Hf; [discriminate|].
  intros H; inversion H; subst; simpl. split.
  - apply find_if_app_fresh; [exact Hf|].
    unfold MetricCollector.has_name. simpl. apply String.eqb_refl.
  - rewrite lookup_app_r by lia. rewrite Nat.sub_diag. reflexivity.
Qed.

(** C5. Registering a name that is already registered throws the
    already-registered error and changes nothing: the collector, or the
    registry, is returned as it was, so the metric of the first
    registration keeps its place and its accumulated total and count.
    This holds for [MetricCollector::registerMetric] and for
    [MetricRegistry::registerMetric]. *)
Theorem duplicate_registration_rejected (n : string) :
  (forall (T : NumType) (c : MetricCollector.t) (i : nat) (m : Metric),
      find_if (MetricCollector.has_name n) (MetricCollector.metrics_ c) = Some i ->
      MetricCollector.metrics_ c !! i = Some m ->
      MetricCollector.registerMetric T n c =
        (c, Throw (invalid_argument ("Metric already registered: " +:+ n)))) /\
  (forall (m' m : Metric) (r : MetricRegistry.t),
      MetricNameValidator.isValidName n = true ->
      MetricRegistry.metrics_ r !! n = Some m ->
      MetricRegistry.registerMetric n m' r =
        (r, Throw (invalid_argument ("Metric already registered: " +:+ n)))).
Proof.
  split.
  - intros T c i m Hf _. unfold MetricCollector.registerMetric. rewrite Hf.
    reflexivity.
  - intros m' m r Hv Hm. unfold MetricRegistry.registerMetric. rewrite Hv, Hm.
    reflexivity.
Qed.

End Registration.

(** ** Records that are dropped *)

Section DroppedRecords.
Context {P : Platform}.
Import MetricCollector.

(** C8. A [recordMetric] call on a collector that is not running
    returns without an error and leaves the collector (its metrics,
    their totals and counts, the set of registered names) and the log
    exactly as they were. *)
Theorem record_while_idle_is_dropped (T : NumType) (n : string) (v : val T)
    (c : t) (cerr : ostream) :
  running_ c = false ->
  recordMetric T n v (c, cerr) = (c, cerr).
Proof. intros Hidle. unfold recordMetric. rewrite Hidle. reflexivity. Qed.

(** C7, as amended. While the collector is running, a [recordMetric]
    call whose value kind differs from the kind of the metric found
    under the name is dropped silently: the collector and every
    metric's total and count are unchanged, no exception reaches the
    caller, and nothing is written to the log. *)
Theorem record_of_other_kind_is_dropped_silently (T : NumType) (n : string)
    (v : val T) (c : t) (cerr : ostream) (i : nat) (m : Metric) :
  running_ c = true ->
  find_if (has_name n) (metrics_ c) = Some i ->
  metrics_ c !! i = Some m ->
  Metric_kind m <> T ->
  recordMetric T n v (c, cerr) = (c, cerr).
Proof.
  intros Hrun Hf Hm Hk. unfold recordMetric. rewrite Hrun, Hf. simpl.
  rewrite (record_at_miss T v i c m Hm Hk). reflexivity.
Qed.

End DroppedRecords.

(** ** Write failures and serialization failures *)

Section WriteFailures.
Context {P : Platform}.
Import MetricCollector.

(** The part of C3 that holds.  In a flush cycle the metrics are reset
    only after [writeMetrics] has returned: when it throws, the cycle
    leaves the collector exactly as it was (no metric is reset, totals
    and counts are intact for the next cycle) and logs the failure; and
    a cycle that changed any metric is one whose write returned.  The
    one throw of [writeMetrics] is the closed stream. *)
Theorem reset_only_after_successful_write (ts : TimePoint) (c : t) (cerr : ostream) :
  (forall (w' : MetricWriter.t) (cerr' : ostream) (x : exception),
      MetricWriter.writeMetrics (collect_entries ts (metrics_ c)) (writer_ c) cerr =
        (w', cerr', Throw x) ->
      collectCurrentMetrics ts (c, cerr) =
        (c, cerr ++ [("Error writing metrics: " +:+ what x)%string])) /\
  (metrics_ (fst (collectCurrentMetrics ts (c, cerr))) <> metrics_ c ->
   exists (w' : MetricWriter.t) (cerr' : ostream),
     MetricWriter.writeMetrics (collect_entries ts (metrics_ c)) (writer_ c) cerr =
       (w', cerr', Return tt)).
Proof.
  split.
  - intros w' cerr' x Hw.
    destruct (writeMetrics_Throw _ _ _ _ _ _ Hw) as (-> & -> & Hne & _).
    unfold collectCurrentMetrics, write_and_reset. simpl fst.
    destruct (collect_entries ts (metrics_ c)) as [|e es]; [congruence|].
    rewrite Hw. destruct c; reflexivity.
  - unfold collectCurrentMetrics, write_and_reset. simpl fst.
    destruct (collect_entries ts (metrics_ c)) as [|e es]; [simpl; congruence|].
    destruct (MetricWriter.writeMetrics (e :: es) (writer_ c) cerr)
      as [[w log] [[]|x]]; simpl; [eauto | congruence].
Qed.

Lemma written_text_app (es1 es2 : list MetricEntry) :
  written_text (es1 ++ es2) = (written_text es1 +:+ written_text es2)%string.
Proof.
  induction es1 as [|e es1 IH]; simpl; [reflexivity|].
  destruct (serializes e); rewrite IH, ?str_app_assoc; reflexivity.
Qed.

Lemma logged_errors_app (es1 es2 : list MetricEntry) :
  logged_errors (es1 ++ es2) = logged_errors es1 ++ logged_errors es2.
Proof.
  induction es1 as [|e es1 IH]; simpl; [reflexivity|].
  destruct (serializes e); rewrite IH; reflexivity.
Qed.

(** C9. [writeMetrics] for a list in which the serialization of the
    entry [bad] fails.  On a stream that is not open the call throws
    before it serializes anything and changes nothing.  Otherwise it
    returns: [bad] is skipped and one line about it is logged; the text
    of the entries before and after it that serialize is appended to
    the file, in order; and the stream has been flushed (its buffer is
    empty, what it held is in the file). *)
Theorem failed_entry_is_skipped_rest_written (before after : list MetricEntry)
    (bad : MetricEntry) (w : MetricWriter.t) (cerr : ostream) :
  serializes bad = false ->
  (ofstream.is_open (MetricWriter.file_stream_ w) = false /\
   MetricWriter.writeMetrics (before ++ bad :: after) w cerr =
     (w, cerr, Throw (runtime_error "Output file is not open"))) \/
  (ofstream.is_open (MetricWriter.file_stream_ w) = true /\
   exists w',
     MetricWriter.writeMetrics (before ++ bad :: after) w cerr =
       (w',
        cerr ++ logged_errors before ++ entry_error bad :: logged_errors after,
        Return tt) /\
     ofstream.file (MetricWriter.file_stream_ w') =
       ((ofstream.file (MetricWriter.file_stream_ w) +:+
         ofstream.buffer (MetricWriter.file_stream_ w))
        +:+ written_text before +:+ written_text after)%string /\
     ofstream.buffer (MetricWriter.file_stream_ w') = ""%string /\
     ofstream.is_open (MetricWriter.file_stream_ w') = true).
Proof.
  intros Hbad.
  assert (Hne : before ++ bad :: after <> []) by (destruct before; discriminate).
  destruct (ofstream.is_open (MetricWriter.file_stream_ w)) eqn:Hopen.
  - right. split; [reflexivity|].
    destruct (writeMetrics_open (before ++ bad :: after) w cerr Hne Hopen)
      as (w' & Hw & _ & Ho & Hb & Hf).
    exists w'. rewrite Hw, Hf.
    rewrite logged_errors_app, written_text_app. simpl. rewrite Hbad. auto.
  - left. split; [reflexivity|]. apply writeMetrics_closed; assumption.
Qed.

End WriteFailures.

(** ** A write that the device refuses *)

Section RefusedWrites.
Context {P : Platform}.
Import StreamErrors.

Lemma flush_on_accepting_device (fs : ofstream.t) :
  flush (on_stream false fs) = on_stream false (ofstream.flush fs).
Proof. reflexivity. Qed.

Lemma write_entry_on_accepting_device (fs : ofstream.t) (cerr : ostream)
    (e : MetricEntry) :
  write_entry (on_stream false fs, cerr) e =
    (on_stream false (fst (MetricWriter.write_entry (fs, cerr) e)),
     snd (MetricWriter.write_entry (fs, cerr) e)).
Proof.
  unfold write_entry, MetricWriter.write_entry.
  destruct (MetricNameValidator.formatNameForOutput (name e)); reflexivity.
Qed.

Lemma write_entries_on_accepting_device (es : list MetricEntry) (fs : ofstream.t)
    (cerr : ostream) :
  fold_left write_entry es (on_stream false fs, cerr) =
    (on_stream false (fst (fold_left MetricWriter.write_entry es (fs, cerr))),
     snd (fold_left MetricWriter.write_entry es (fs, cerr))).
Proof.
  revert fs cerr. induction es as [|e es IH]; intros fs cerr; [reflexivity|].
  cbn [fold_left]. rewrite write_entry_on_accepting_device.
  destruct (MetricWriter.write_entry (fs, cerr) e) as [fs1 cerr1]. apply IH.
Qed.

(** On a device that takes every write, the cycle over the stream with
    error bits is the cycle of [MetricCollector]. *)
Lemma cycle_on_accepting_device (ts : TimePoint) (c : MetricCollector.t)
    (cerr : ostream) :
  collectCurrentMetrics ts (on_device false c, cerr) =
    (on_device false (fst (MetricCollector.collectCurrentMetrics ts (c, cerr))),
     snd (MetricCollector.collectCurrentMetrics ts (c, cerr))).
Proof.
  destruct c as [ms run [out fs]].
  unfold collectCurrentMetrics, MetricCollector.collectCurrentMetrics,
    MetricCollector.write_and_reset, on_device.
  cbn [fst metrics_ writer_ running_ MetricCollector.metrics_ MetricCollector.writer_
       MetricCollector.running_ MetricWriter.output_file_ MetricWriter.file_stream_].
  destruct (MetricCollector.collect_entries ts ms) as [|e es]; [reflexivity|].
  unfold writeMetrics, MetricWriter.writeMetrics, is_open.
  cbn [file_stream_ output_file_ on_stream contents MetricWriter.file_stream_
       MetricWriter.output_file_].
  destruct (ofstream.is_open fs); cbn [negb]; [|reflexivity].
  change {| contents := fs; badbit := false; device_full := false |}
    with (on_stream false fs).
  rewrite write_entries_on_accepting_device.
  destruct (fold_left MetricWriter.write_entry (e :: es) (fs, cerr)) as [fs1 cerr1].
  reflexivity.
Qed.

(** On a device that refuses, no insertion and no flush changes the
    file, and the stream stays open. *)
Lemma put_refusing (s : string) (f : stream) (text : string) :
  device_full f = true /\ is_open f = true /\ ofstream.file (contents f) = text ->
  device_full (put s f) = true /\ is_open (put s f) = true /\
  ofstream.file (contents (put s f)) = text.
Proof.
  intros (Hfull & Hopen & Hfile). unfold put. destruct (badbit f); [auto|].
  unfold is_open in *. cbn [device_full contents]. unfold ofstream.put.
  rewrite Hopen. auto.
Qed.

Lemma flush_refusing (f : stream) (text : string) :
  device_full f = true /\ is_open f = true /\ ofstream.file (contents f) = text ->
  device_full (flush f) = true /\ is_open (flush f) = true /\
  ofstream.file (contents (flush f)) = text.
Proof.
  intros (Hfull & Hopen & Hfile). unfold flush. destruct (badbit f); [auto|].
  rewrite Hfull.
  destruct (negb (is_open f) || String.eqb (ofstream.buffer (contents f)) ""); auto.
Qed.

Lemma write_entry_refusing (fs : stream) (cerr : ostream) (e : MetricEntry)
    (text : string) :
  device_full fs = true /\ is_open fs = true /\ ofstream.file (contents fs) = text ->
  exists fs',
    write_entry (fs, cerr) e =
      (fs', cerr ++ (if serializes e then [] else [entry_error e])) /\
    device_full fs' = true /\ is_open fs' = true /\ ofstream.file (contents fs') = text.
Proof.
  intros Hinv. unfold write_entry, serializes, MetricNameValidator.formatNameForOutput.
  destruct (MetricNameValidator.isValidName (name e)); cbn [negb].
  - eexists. split; [rewrite app_nil_r; reflexivity|].
    unfold endl. apply flush_refusing. do 6 apply put_refusing. exact Hinv.
  - exists fs. split; [reflexivity | exact Hinv].
Qed.

Lemma write_entries_refusing (es : list MetricEntry) (fs : stream) (cerr : ostream)
    (text : string) :
  device_full fs = true /\ is_open fs = true /\ ofstream.file (contents fs) = text ->
  exists fs',
    fold_left write_entry es (fs, cerr) = (fs', cerr ++ logged_errors es) /\
    device_full fs' = true /\ is_open fs' = true /\ ofstream.file (contents fs') = text.
Proof.
  revert fs cerr. induction es as [|e es IH]; intros fs cerr Hinv.
  - exists fs. cbn [fold_left logged_errors]. rewrite app_nil_r. auto.
  - destruct (write_entry_refusing fs cerr e text Hinv) as (fs1 & Hstep & Hinv1).
    destruct (IH fs1 (cerr ++ (if serializes e then [] else [entry_error e])) Hinv1)
      as (fs2 & Hfold & Hinv2).
    exists fs2. cbn [fold_left]. rewrite Hstep. split; [|exact Hinv2].
    etransitivity; [exact Hfold|].
    rewrite <- app_assoc. f_equal. cbn [logged_errors].
    destruct (serializes e); reflexivity.
Qed.

(** The defect in general.  On an open stream whose device refuses
    every write, the cycle of a collector that has metrics persists
    nothing, logs nothing about the write (only the entries that do not
    serialize), and resets every metric all the same: [writeMetrics]
    returns, since nothing in it reads the error bits. *)
Lemma refused_write_still_resets (ts : TimePoint) (c : collector) (cerr : ostream) :
  metrics_ c <> [] ->
  is_open (file_stream_ (writer_ c)) = true ->
  device_full (file_stream_ (writer_ c)) = true ->
  metrics_ (fst (collectCurrentMetrics ts (c, cerr))) = map Metric_reset (metrics_ c) /\
  persisted (fst (collectCurrentMetrics ts (c, cerr))) = persisted c /\
  snd (collectCurrentMetrics ts (c, cerr)) =
    cerr ++ logged_errors (MetricCollector.collect_entries ts (metrics_ c)).
Proof.
  intros Hne Hopen Hfull. unfold collectCurrentMetrics.
  destruct (MetricCollector.collect_entries ts (metrics_ c)) as [|e es] eqn:Hes.
  - apply collect_entries_nil in Hes. congruence.
  - unfold writeMetrics. rewrite Hopen. cbn [negb].
    destruct (write_entries_refusing (e :: es) (file_stream_ (writer_ c)) cerr
                (persisted c)) as (fs & Hfold & Hinv); [unfold persisted; auto|].
    rewrite Hfold. cbn [fst snd metrics_]. unfold persisted at 1.
    cbn [writer_ file_stream_].
    destruct (flush_refusing fs (persisted c) Hinv) as (_ & _ & Hfile).
    auto.
Qed.

End RefusedWrites.

(** ** Metrics without samples, and snapshots equal to zero *)

Section ZeroSnapshots.
Context {P : Platform}.
Import MetricCollector.

(** A registered metric with no sample still contributes an entry,
    whose value renders as ["0"]: the test of the snapshot against the
    null pointer in [collectCurrentMetrics] never fails. *)
Lemma zero_sample_metric_is_emitted (ts : TimePoint) (ms : list Metric) (i : nat)
    (T : NumType) (m : TypedMetric.t T) :
  ms !! i = Some (metric T m) ->
  TypedMetric.count_ m = 0 ->
  exists e,
    collect_entries ts ms !! i = Some e /\
    name e = TypedMetric.name_ m /\
    MetricValue_toString (value e) = "0"%string.
Proof.
  intros Hm Hc.
  destruct (collect_entries_lookup ts ms i _ Hm) as (e & He & _ & Hn & Hv).
  exists e. split; [exact He|]. split; [exact Hn|].
  simpl in Hv. unfold TypedMetric.getAccumulatedValue in Hv.
  rewrite Hc in Hv. simpl in Hv. inversion Hv as [Hv'].
  simpl. apply toString_make_zero. destruct T; reflexivity.
Qed.

(** C10. A metric of a floating kind whose reduced value at a flush
    is exactly zero (no sample, or a total whose mean is zero) yields
    an entry whose rendered value is ["0"], which is not the fixed
    two-decimal rendering of zero. *)
Theorem zero_mean_renders_as_plain_zero (ts : TimePoint) (ms : list Metric)
    (i : nat) (f : FloatType) (m : TypedMetric.t (Floating f)) :
  ms !! i = Some (metric (Floating f) m) ->
  (TypedMetric.count_ m = 0 \/
   (TypedMetric.accumulated_value_ m / inject_Z (TypedMetric.count_ m) == 0)%Q) ->
  exists e,
    collect_entries ts ms !! i = Some e /\
    name e = TypedMetric.name_ m /\
    MetricValue_toString (value e) = "0"%string /\
    MetricValue_toString (value e) <> show_fixed 2 0.
Proof.
  intros Hm Hzero.
  destruct (collect_entries_lookup ts ms i _ Hm) as (e & He & _ & Hn & Hv).
  exists e. split; [exact He|]. split; [exact Hn|].
  assert (Hs : MetricValue_toString (value e) = "0"%string).
  { simpl in Hv. unfold TypedMetric.getAccumulatedValue in Hv.
    destruct (TypedMetric.count_ m =? 0) eqn:Hc.
    - inversion Hv as [Hv']. simpl. apply toString_make_zero. reflexivity.
    - simpl in Hv. inversion Hv as [Hv']. simpl. apply toString_make_zero.
      simpl. apply negb_false_iff, Qeq_bool_iff.
      destruct Hzero as [H0|Hq]; [|exact Hq].
      apply Z.eqb_neq in Hc. contradiction. }
  split; [exact Hs|]. rewrite Hs. vm_compute. discriminate.
Qed.

End ZeroSnapshots.

(** ** The value produced at a flush *)

Section FlushedValue.
Context {P : Platform}.
Import MetricCollector.

Lemma snapshot_integral (i : IntType) (vs : list Z) (n : string) :
  Z.of_nat (length vs) < 2 ^ size_bits ->
  exists tv,
    TypedMetric.getAccumulatedValue
      (record_values (T:=Integral i) vs (TypedMetric.make (Integral i) n)) =
      Some (metric_value (Integral i) tv) /\
    flushed_as (Integral i) (TypedMetricValue.getValue tv) vs.
Proof.
  intros Hlen. pose proof (int_bits_pos i) as Hw.
  unfold TypedMetric.getAccumulatedValue.
  rewrite record_values_count_fresh by exact Hlen.
  rewrite record_values_integral_fresh. simpl is_floating_point.
  assert (Hval : forall x, x = wrap_signed (int_bits i) (exact_sum vs) ->
            flushed_as (Integral i)
              (TypedMetricValue.getValue (TypedMetricValue.make (Integral i) x)) vs).
  { intros x ->. rewrite getValue_make_integral
      by (apply wrap_signed_in_range; lia).
    split; [reflexivity|]. intros Hr. apply wrap_signed_small; [lia | exact Hr]. }
  match goal with |- context [if ?b then _ else _] => destruct b eqn:H0 end.
  - eexists. split; [reflexivity|]. apply Hval.
    destruct vs; [|simpl in H0; discriminate].
    simpl. symmetry. apply wrap_signed_small; [lia|].
    unfold in_range.
    assert (0 < 2 ^ (int_bits i - 1)) by (apply Z.pow_pos_nonneg; lia). lia.
  - eexists. split; [reflexivity|]. apply Hval. reflexivity.
Qed.

Lemma snapshot_floating (f : FloatType) (vs : list Q) (n : string) :
  Z.of_nat (length vs) < 2 ^ size_bits ->
  exists tv,
    TypedMetric.getAccumulatedValue
      (record_values (T:=Floating f) vs (TypedMetric.make (Floating f) n)) =
      Some (metric_value (Floating f) tv) /\
    flushed_as (Floating f) (TypedMetricValue.getValue tv) vs.
Proof.
  intros Hlen. unfold TypedMetric.getAccumulatedValue.
  rewrite record_values_count_fresh by exact Hlen. simpl is_floating_point.
  match goal with |- context [if ?b then _ else _] => destruct b eqn:H0 end.
  - eexists. split; [reflexivity|]. simpl.
    rewrite getValue_make_floating.
    destruct vs; [|simpl in H0; discriminate]. reflexivity.
  - eexists. split; [reflexivity|]. simpl.
    rewrite getValue_make_floating. unfold arithmetic_mean.
    rewrite record_values_floating. simpl TypedMetric.accumulated_value_.
    rewrite Qplus_0_l. reflexivity.
Qed.

Lemma snapshot_of_records (T : NumType) (vs : list (val T)) (n : string) :
  Z.of_nat (length vs) < 2 ^ size_bits ->
  exists tv,
    TypedMetric.getAccumulatedValue (record_values vs (TypedMetric.make T n)) =
      Some (metric_value T tv) /\
    flushed_as T (TypedMetricValue.getValue tv) vs.
Proof.
  destruct T as [i|f]; [apply snapshot_integral | apply snapshot_floating].
Qed.

(** C2, as amended. Let a metric of kind [T] be registered under [n]
    in a running collector and be empty (as after a reset), and let
    fewer than [2 ^ size_bits] values [vs] of kind [T] be recorded
    under [n].  Then the entry that the next flush cycle makes for the
    metric carries, for a floating kind, the arithmetic mean of [vs]
    and, for an integral kind, the sum of [vs] reduced to the width of
    the kind, which is the exact sum whenever that sum fits the kind;
    and when the writer's stream is open, so that the write returns,
    the metric is empty again after the cycle. *)
Theorem flush_reports_mean_or_sum (T : NumType) (n : string) (vs : list (val T))
    (ts : TimePoint) (c : t) (cerr : ostream) (i : nat) :
  running_ c = true ->
  find_if (has_name n) (metrics_ c) = Some i ->
  metrics_ c !! i = Some (metric T (TypedMetric.make T n)) ->
  Z.of_nat (length vs) < 2 ^ size_bits ->
  ofstream.is_open (MetricWriter.file_stream_ (writer_ c)) = true ->
  exists tv,
    collect_entries ts (metrics_ (fst (record_calls T n vs (c, cerr)))) !! i =
      Some (mkEntry ts n (metric_value T tv)) /\
    flushed_as T (TypedMetricValue.getValue tv) vs /\
    metrics_ (fst (collectCurrentMetrics ts (record_calls T n vs (c, cerr)))) !! i =
      Some (metric T (TypedMetric.make T n)).
Proof.
  intros Hrun Hfind Hm Hlen Hopen.
  rewrite (record_calls_registered T n vs c cerr i _ Hrun Hfind Hm).
  cbn [fst metrics_].
  assert (Hi : (i < length (metrics_ c))%nat) by (eapply lookup_lt_Some; eauto).
  set (rv := record_values vs (TypedMetric.make T n)).
  assert (Hrv : <[i := metric T rv]> (metrics_ c) !! i = Some (metric T rv))
    by (apply list_lookup_insert_eq; exact Hi).
  destruct (snapshot_of_records T vs n Hlen) as (tv & Hsnap & Hval).
  exists tv. split; [|split; [exact Hval|]].
  - destruct (collect_entries_lookup ts _ i _ Hrv) as (e & He & Hts & Hn & Hv).
    rewrite He. f_equal. destruct e as [ets en ev]. simpl in *.
    fold rv in Hsnap. rewrite Hsnap in Hv. inversion Hv; subst.
    unfold TypedMetric.getName, rv. rewrite record_values_name. reflexivity.
  - match goal with
    | |- context [collectCurrentMetrics ts (?c1, cerr)] =>
        destruct (collectCurrentMetrics_open ts c1 cerr) as (w & Hcycle & _)
    end.
    + simpl. intros Hnil. rewrite Hnil in Hrv. discriminate.
    + exact Hopen.
    + rewrite Hcycle. simpl. rewrite list_lookup_fmap, Hrv. simpl.
      unfold TypedMetric.reset, TypedMetric.make, rv.
      rewrite record_values_name. reflexivity.
Qed.

End FlushedValue.

(** ** Producers racing with a flush cycle *)

Section Interleavings.
Context {P : Platform}.
Import MetricCollector.

Lemma run_app (s : system) (l1 l2 : list event) :
  run s (l1 ++ l2) = run (run s l1) l2.
Proof. unfold run. apply fold_left_app. Qed.

Lemma find_if_reset (n : string) (ms : list Metric) :
  find_if (has_name n) (map Metric_reset ms) = find_if (has_name n) ms.
Proof. apply find_if_ext. intros m. apply has_name_reset. Qed.

Lemma same_up_to_samples_refl (c : t) : same_up_to_samples c c.
Proof. unfold same_up_to_samples. auto. Qed.

Lemma record_at_same_up_to_samples (T : NumType) (v : val T) (i : nat) (c : t) :
  same_up_to_samples c (record_at T v i c).
Proof.
  unfold record_at.
  destruct (metrics_ c !! i) as [m|] eqn:Hm; [|apply same_up_to_samples_refl].
  destruct (dynamic_cast T m) as [tm|] eqn:Hcast; [|apply same_up_to_samples_refl].
  apply dynamic_cast_Some in Hcast. subst m.
  unfold same_up_to_samples. simpl. split; [|auto].
  change (map Metric_reset) with (fmap (M:=list) Metric_reset).
  rewrite list_fmap_insert. apply list_insert_id.
  rewrite list_lookup_fmap, Hm. reflexivity.
Qed.

Lemma recordMetric_same_up_to_samples (T : NumType) (n : string) (v : val T)
    (c c' : t) (log : ostream) :
  same_up_to_samples c c' ->
  (exists i, find_if (has_name n) (metrics_ c) = Some i) ->
  exists c'',
    recordMetric T n v (c', log) = (c'', log) /\ same_up_to_samples c c''.
Proof.
  intros (Hms & Hrun & Hw) [i Hf]. unfold recordMetric.
  pose proof Hrun as Hrun0.
  destruct (running_ c') eqn:Hrc; simpl;
    [|exists c'; unfold same_up_to_samples; rewrite Hrc; auto].
  assert (Hf' : find_if (has_name n) (metrics_ c') = Some i).
  { rewrite <- find_if_reset, Hms, find_if_reset. exact Hf. }
  rewrite Hf'. exists (record_at T v i c'). split; [reflexivity|].
  destruct (record_at_same_up_to_samples T v i c') as (Hms' & Hrun' & Hw').
  unfold same_up_to_samples.
  rewrite Hms', Hrun', Hw', Hrc. auto.
Qed.

Lemma run_registered_records (mid : list event) (c c' : t) (log : ostream)
    (pc : flush_pc) :
  Forall (registered_record c) mid ->
  same_up_to_samples c c' ->
  exists c'',
    run (mkSystem c' log pc) mid = mkSystem c'' log pc /\
    same_up_to_samples c c''.
Proof.
  intros Hmid. revert c'. induction Hmid as [|e mid He Hmid IH]; intros c' Hsame.
  - exists c'. split; [reflexivity | exact Hsame].
  - destruct e as [T n v| | |]; simpl in He; try contradiction.
    destruct (recordMetric_same_up_to_samples T n v c c' log Hsame He)
      as (c1 & Hrec & Hsame1).
    destruct (IH c1 Hsame1) as (c2 & Hrun & Hsame2).
    exists c2. split; [|exact Hsame2].
    unfold run in *. cbn [fold_left step sys_collector sys_cerr sys_pc].
    rewrite Hrec. exact Hrun.
Qed.

Lemma step_collect (ts : TimePoint) (c : t) (log : ostream) :
  run (mkSystem c log at_start) [ev_collect ts] =
  mkSystem c log (collected (collect_entries ts (metrics_ c))).
Proof. reflexivity. Qed.

Lemma step_write_returns (c : t) (log log' : ostream) (e : MetricEntry)
    (es : list MetricEntry) (w : MetricWriter.t) :
  MetricWriter.writeMetrics (e :: es) (writer_ c) log = (w, log', Return tt) ->
  run (mkSystem c log (collected (e :: es))) [ev_write] =
  mkSystem (MetricCollector.mk (metrics_ c) (running_ c) w) log' written.
Proof.
  intros Hw. unfold run. cbn [fold_left step sys_collector sys_cerr sys_pc].
  rewrite Hw. reflexivity.
Qed.

Lemma step_reset (c : t) (log : ostream) :
  run (mkSystem c log written) [ev_reset] = mkSystem (reset_all c) log at_start.
Proof. reflexivity. Qed.

(** C4, as amended. [getAccumulatedValue] and [reset] are two
    critical sections of a flush cycle, with the write between them.
    Records under registered names that run after the first loop of
    the cycle and before its reset loop, in a cycle whose write
    returns, are discarded: the execution ends in the state of the
    execution without them, whatever follows. *)
Theorem records_between_snapshot_and_reset_are_discarded (ts : TimePoint)
    (c : t) (cerr : ostream) (mid1 mid2 post : list event) :
  ofstream.is_open (MetricWriter.file_stream_ (writer_ c)) = true ->
  Forall (registered_record c) mid1 ->
  Forall (registered_record c) mid2 ->
  run (mkSystem c cerr at_start)
      ([ev_collect ts] ++ mid1 ++ [ev_write] ++ mid2 ++ [ev_reset] ++ post) =
  run (mkSystem c cerr at_start) (flush_cycle ts ++ post).
Proof.
  intros Hopen Hmid1 Hmid2.
  destruct (collect_entries ts (metrics_ c)) as [|e es] eqn:Hes.
  { apply collect_entries_nil in Hes.
    assert (Hnone : forall mid, Forall (registered_record c) mid -> mid = []).
    { intros mid Hmid. destruct Hmid as [|x mid Hx _]; [reflexivity|].
      destruct x; simpl in Hx; try contradiction.
      rewrite Hes in Hx. destruct Hx as [i Hi]. discriminate. }
    rewrite (Hnone mid1 Hmid1), (Hnone mid2 Hmid2). reflexivity. }
  destruct (writeMetrics_open (e :: es) (writer_ c) cerr)
    as (w & Hw & _); [discriminate | exact Hopen |].
  set (log' := cerr ++ logged_errors (e :: es)) in *.
  (* the schedule with the records *)
  rewrite (run_app _ [ev_collect ts]), step_collect, Hes.
  destruct (run_registered_records mid1 c c cerr (collected (e :: es)) Hmid1
              (same_up_to_samples_refl c)) as (c1 & Hrun1 & Hms1 & Hr1 & Hw1).
  rewrite (run_app _ mid1), Hrun1.
  rewrite (run_app _ [ev_write]).
  rewrite (step_write_returns c1 cerr log' e es w) by (rewrite Hw1; exact Hw).
  set (cw := MetricCollector.mk (metrics_ c) (running_ c) w).
  destruct (run_registered_records mid2 cw
              (MetricCollector.mk (metrics_ c1) (running_ c1) w) log' written)
    as (c2 & Hrun2 & Hms2 & Hr2 & Hw2).
  { exact Hmid2. }
  { unfold same_up_to_samples, cw. simpl. auto. }
  rewrite (run_app _ mid2), Hrun2.
  rewrite (run_app _ [ev_reset]), step_reset.
  (* the schedule without them *)
  change (flush_cycle ts) with ([ev_collect ts] ++ [ev_write] ++ [ev_reset]).
  rewrite <- !app_assoc.
  rewrite (run_app _ [ev_collect ts]), step_collect, Hes.
  rewrite (run_app _ [ev_write]), (step_write_returns c cerr log' e es w Hw).
  rewrite (run_app _ [ev_reset]), step_reset.
  f_equal. f_equal. unfold reset_all. unfold cw in *. simpl in Hms2, Hr2, Hw2.
  simpl. rewrite Hms2, Hr2, Hw2. reflexivity.
Qed.

End Interleavings.

(** ** Worked examples on [example_host] *)

Section WorkedExamples.
Local Existing Instance example_host.
Import MetricCollector.

Local Abbreviation int := (Integral t_int).
Local Abbreviation double := (Floating t_double).

(** The scenarios of the specification: 0.5 and 1.0 on a floating
    metric flush as 0.75, 10 and 20 on an integral one as 30. *)
Example scenario_cpu_http :
  collectCurrentMetrics 1653
    (record_calls int "HTTP" [10; 20]
       (record_calls double "CPU" [(1 # 2)%Q; (1 # 1)%Q] (cpu_http_collector, []))) =
    (running_collector [cpu_metric; http_metric]
       (MetricWriter.mk "metrics.txt"
          (ofstream.mk true ""
             (example_line "CPU" "0.75" +:+ example_line "HTTP" "30"))),
     []).
Proof. vm_compute. reflexivity. Qed.

(** C1. The code at a registered metric without samples: the flush
    cycle makes an entry for it, and the sink receives a line with the
    value ["0"]. *)
Theorem zero_sample_metric_is_written :
  collect_entries 1653 (metrics_ cpu_collector) =
    [mkEntry 1653 "CPU"
       (metric_value double (TypedMetricValue.mk (T:=double) 0%Q 0))] /\
  sink (collectCurrentMetrics 1653 (cpu_collector, [])) = example_line "CPU" "0".
Proof. split; vm_compute; reflexivity. Qed.

(** C2, the claim as stated fails: two records on an [int] metric
    whose sum does not fit the type.  The flushed value is the wrapped
    sum, not the exact one. *)
Lemma int_sum_beyond_the_type_is_not_exact :
  exists tv,
    collect_entries 1653
      (metrics_ (fst (record_calls int "HTTP" [2147483647; 1] (http_collector, [])))) =
      [mkEntry 1653 "HTTP" (metric_value int tv)] /\
    TypedMetricValue.getValue tv = -2147483648 /\
    exact_sum [2147483647; 1] = 2147483648 /\
    TypedMetricValue.getValue tv <> exact_sum [2147483647; 1] /\
    sink (collectCurrentMetrics 1653
            (record_calls int "HTTP" [2147483647; 1] (http_collector, []))) =
      example_line "HTTP" "-2147483648".
Proof.
  eexists. split; [vm_compute; reflexivity|].
  repeat split; try (vm_compute; reflexivity).
  vm_compute. discriminate.
Qed.

(** The two side conditions of the statement on flushed values: with a
    closed stream the cycle resets nothing, and a count that wraps to
    zero makes the snapshot the one of a metric without samples. *)
Example failed_write_keeps_the_samples :
  collectCurrentMetrics 1653
    (record_calls int "HTTP" [10; 20] (running_collector [http_metric] closed_writer, [])) =
    (running_collector [http_metric_30] closed_writer,
     ["Error writing metrics: Output file is not open"%string]).
Proof. vm_compute. reflexivity. Qed.

Example wrapped_count_flushes_zero :
  TypedMetric.getAccumulatedValue
    (TypedMetric.recordValue (T:=int) 5
       (TypedMetric.mk (T:=int) "HTTP" 10 (2 ^ 64 - 1))) =
    Some (metric_value int (TypedMetricValue.mk (T:=int) 0 0)).
Proof. vm_compute. reflexivity. Qed.

Lemma flush_reports_mean_or_sum_witness :
  (running_ cpu_http_collector = true /\
   find_if (has_name "HTTP") (metrics_ cpu_http_collector) = Some 1%nat /\
   metrics_ cpu_http_collector !! 1%nat =
     Some (metric int (TypedMetric.make int "HTTP")) /\
   Z.of_nat (length [10; 20]) < 2 ^ size_bits /\
   ofstream.is_open (MetricWriter.file_stream_ (writer_ cpu_http_collector)) = true) /\
  exists tv,
    collect_entries 1653
      (metrics_ (fst (record_calls int "HTTP" [10; 20] (cpu_http_collector, []))))
      !! 1%nat = Some (mkEntry 1653 "HTTP" (metric_value int tv)) /\
    flushed_as int (TypedMetricValue.getValue tv) [10; 20] /\
    metrics_ (fst (collectCurrentMetrics 1653
                     (record_calls int "HTTP" [10; 20] (cpu_http_collector, []))))
      !! 1%nat = Some (metric int (TypedMetric.make int "HTTP")).
Proof.
  split; [repeat split; reflexivity|].
  apply (flush_reports_mean_or_sum int "HTTP" [10; 20] 1653 cpu_http_collector []
           1%nat);
    reflexivity.
Defined.

(** C3. The code at a write that the device refuses.  A running
    collector holds the samples 10 and 20 of one metric; its stream is
    open and the device refuses the write.  [writeMetrics] returns all
    the same, and the flush cycle resets the metric: nothing has
    reached the file, nothing is logged, and the samples are lost,
    where the claim keeps them for the next cycle.  On a device that
    takes the write the same cycle persists the line. *)
Theorem refused_write_loses_the_samples :
  StreamErrors.is_open
    (StreamErrors.file_stream_ (StreamErrors.writer_ refused_collector)) = true /\
  StreamErrors.metrics_
    (fst (StreamErrors.collectCurrentMetrics 1653 (refused_collector, []))) =
    [http_metric] /\
  StreamErrors.persisted
    (fst (StreamErrors.collectCurrentMetrics 1653 (refused_collector, []))) =
    ""%string /\
  snd (StreamErrors.collectCurrentMetrics 1653 (refused_collector, [])) = [] /\
  StreamErrors.persisted
    (fst (StreamErrors.collectCurrentMetrics 1653 (accepted_collector, []))) =
    example_line "HTTP" "30".
Proof. repeat split; vm_compute; reflexivity. Qed.

Lemma reset_only_after_successful_write_witness :
  MetricWriter.writeMetrics
    (collect_entries 1653
       (metrics_ (running_collector
                    [http_metric_30] closed_writer)))
    closed_writer [] =
    (closed_writer, [], Throw (runtime_error "Output file is not open")) /\
  collectCurrentMetrics 1653
    (running_collector [http_metric_30] closed_writer,
     []) =
    (running_collector [http_metric_30] closed_writer,
     ["Error writing metrics: Output file is not open"%string]).
Proof.
  split; [reflexivity|].
  apply (proj1 (reset_only_after_successful_write 1653
                  (running_collector
                     [http_metric_30] closed_writer)
                  [])
           closed_writer [] (runtime_error "Output file is not open")).
  reflexivity.
Defined.

(** C4, the claim as stated fails: a record that runs between the
    first loop of a flush cycle and its reset loop.  The sample 5 is
    not in the snapshot that is written (the value is 0), and not in
    the accumulator after the cycle (total and count are 0). *)
Lemma record_between_snapshot_and_reset_is_lost :
  sink (sys_collector
          (run (mkSystem http_collector [] at_start)
               [ev_collect 1653; ev_record int "HTTP" 5; ev_write; ev_reset]),
        []) = example_line "HTTP" "0" /\
  metrics_
    (sys_collector
       (run (mkSystem http_collector [] at_start)
            [ev_collect 1653; ev_record int "HTTP" 5; ev_write; ev_reset])) =
    [http_metric] /\
  sys_cerr
    (run (mkSystem http_collector [] at_start)
         [ev_collect 1653; ev_record int "HTTP" 5; ev_write; ev_reset]) = [].
Proof. repeat split; vm_compute; reflexivity. Qed.

Lemma records_between_snapshot_and_reset_are_discarded_witness :
  (ofstream.is_open (MetricWriter.file_stream_ (writer_ http_collector)) = true /\
   Forall (registered_record http_collector) [ev_record int "HTTP" 5] /\
   Forall (registered_record http_collector) [ev_record int "HTTP" 7]) /\
  run (mkSystem http_collector [] at_start)
      ([ev_collect 1653] ++ [ev_record int "HTTP" 5] ++ [ev_write] ++
       [ev_record int "HTTP" 7] ++ [ev_reset] ++ [ev_record int "HTTP" 1]) =
  run (mkSystem http_collector [] at_start)
      (flush_cycle 1653 ++ [ev_record int "HTTP" 1]).
Proof.
  assert (Hreg : forall v,
            Forall (registered_record http_collector) [ev_record int "HTTP" v]).
  { intros v. constructor; [exists 0%nat; reflexivity | constructor]. }
  split; [repeat split; try reflexivity; apply Hreg|].
  apply (records_between_snapshot_and_reset_are_discarded 1653 http_collector []
           [ev_record int "HTTP" 5] [ev_record int "HTTP" 7]
           [ev_record int "HTTP" 1]);
    [reflexivity | apply Hreg | apply Hreg].
Defined.

Lemma duplicate_registration_rejected_witness :
  (find_if (has_name "HTTP") (metrics_ http_collector) = Some 0%nat /\
   metrics_ http_collector !! 0%nat = Some http_metric /\
   MetricNameValidator.isValidName "HTTP" = true /\
   MetricRegistry.metrics_ (MetricRegistry.mk (<[ "HTTP"%string := http_metric ]> ∅))
     !! "HTTP"%string = Some http_metric) /\
  registerMetric double "HTTP" http_collector =
    (http_collector, Throw (invalid_argument "Metric already registered: HTTP")) /\
  MetricRegistry.registerMetric "HTTP" cpu_metric
    (MetricRegistry.mk (<[ "HTTP"%string := http_metric ]> ∅)) =
    (MetricRegistry.mk (<[ "HTTP"%string := http_metric ]> ∅),
     Throw (invalid_argument "Metric already registered: HTTP")).
Proof.
  split; [repeat split; reflexivity|]. split.
  - apply (proj1 (duplicate_registration_rejected "HTTP") double http_collector
             0%nat http_metric);
      reflexivity.
  - apply (proj2 (duplicate_registration_rejected "HTTP") cpu_metric http_metric
             (MetricRegistry.mk (<[ "HTTP"%string := http_metric ]> ∅)));
      reflexivity.
Defined.

(** The scenario of the claim: a registration, a record, and a second
    registration of the same name, which throws and leaves the metric
    with its sample. *)
Example second_registration_leaves_first_metric :
  registerMetric double "HTTP"
    (fst (recordMetric int "HTTP" 10
            (fst (registerMetric int "HTTP" (running_collector [] open_writer)), []))) =
    (running_collector [metric int (TypedMetric.mk (T:=int) "HTTP" 10 1)] open_writer,
     Throw (invalid_argument "Metric already registered: HTTP")).
Proof. vm_compute. reflexivity. Qed.

(** C6. The code at the empty name: [MetricCollector::registerMetric]
    returns and stores a metric under it, although the validator
    rejects the name. *)
Theorem collector_registers_empty_name :
  malformed "" /\
  MetricNameValidator.isValidName "" = false /\
  registerMetric int "" (running_collector [] open_writer) =
    (running_collector [metric int (TypedMetric.make int "")] open_writer,
     Return tt).
Proof. split; [left; reflexivity|]. split; reflexivity. Qed.

(** What follows from it: a sample recorded under the empty name is
    never written (the writer cannot format the name and skips the
    entry), and the reset after the write discards it. *)
Example sample_under_empty_name_is_lost :
  metrics_ (fst (recordMetric int "" 7 (running_collector [] open_writer, []))) =
    [metric int (TypedMetric.mk (T:=int) "" 7 1)] /\
  collectCurrentMetrics 1653
    (recordMetric int "" 7 (running_collector [] open_writer, [])) =
    (running_collector [metric int (TypedMetric.make int "")] open_writer,
     ["Error formatting metric entry '': Cannot format invalid metric name: "%string]).
Proof. split; vm_compute; reflexivity. Qed.

(** The validator accepts the delete character (code 127). *)
Example delete_character_is_accepted :
  MetricNameValidator.isValidName (String (ascii_of_nat 127) EmptyString) = true.
Proof. reflexivity. Qed.

(** C7, the claim as stated fails: a record of a [double] under the
    name of an [int] metric, on a running collector, writes no line to
    the log. *)
Lemma mismatched_record_is_not_logged :
  running_ http_collector = true /\
  find_if (has_name "HTTP") (metrics_ http_collector) = Some 0%nat /\
  metrics_ http_collector !! 0%nat = Some http_metric /\
  Metric_kind http_metric <> double /\
  ~ logged [] (snd (recordMetric double "HTTP" (3 # 2)%Q (http_collector, []))).
Proof.
  repeat split; try reflexivity; try discriminate.
  intros [l Hl]. vm_compute in Hl. discriminate Hl.
Qed.

(** The scenario of the specification: the first record under an
    unregistered name creates the metric with the kind of that call, and
    a later record of another kind is dropped and leaves it as it was. *)
Example auto_registration_fixes_the_kind :
  recordMetric double "X" (3 # 2)%Q
    (recordMetric int "X" 3 (running_collector [] open_writer, [])) =
    (running_collector [metric int (TypedMetric.mk (T:=int) "X" 3 1)] open_writer, []).
Proof. vm_compute. reflexivity. Qed.

Lemma record_of_other_kind_is_dropped_silently_witness :
  (running_ http_collector = true /\
   find_if (has_name "HTTP") (metrics_ http_collector) = Some 0%nat /\
   metrics_ http_collector !! 0%nat = Some http_metric /\
   Metric_kind http_metric <> double) /\
  recordMetric double "HTTP" (3 # 2)%Q (http_collector, []) = (http_collector, []).
Proof.
  split; [repeat split; try reflexivity; discriminate|].
  apply (record_of_other_kind_is_dropped_silently double "HTTP" (3 # 2)%Q
           http_collector [] 0%nat http_metric);
    try reflexivity.
  discriminate.
Defined.

Lemma record_while_idle_is_dropped_witness :
  running_ (idle_collector [http_metric] open_writer) = false /\
  recordMetric int "HTTP" 5 (idle_collector [http_metric] open_writer, []) =
    (idle_collector [http_metric] open_writer, []) /\
  recordMetric double "CPU" (1 # 2)%Q (idle_collector [http_metric] open_writer, []) =
    (idle_collector [http_metric] open_writer, []).
Proof.
  split; [reflexivity|]. split.
  - apply (record_while_idle_is_dropped int "HTTP" 5
             (idle_collector [http_metric] open_writer) []). reflexivity.
  - apply (record_while_idle_is_dropped double "CPU" (1 # 2)%Q
             (idle_collector [http_metric] open_writer) []). reflexivity.
Defined.

Lemma failed_entry_is_skipped_rest_written_witness :
  serializes (mkEntry 1653 "" thirty) = false /\
  exists w',
    MetricWriter.writeMetrics
      ([mkEntry 1653 "A" thirty] ++ mkEntry 1653 "" thirty :: [mkEntry 1653 "B" thirty])
      open_writer [] =
      (w',
       [] ++ logged_errors [mkEntry 1653 "A" thirty] ++
         entry_error (mkEntry 1653 "" thirty) :: logged_errors [mkEntry 1653 "B" thirty],
       Return tt) /\
    ofstream.file (MetricWriter.file_stream_ w') =
      ((ofstream.file (MetricWriter.file_stream_ open_writer) +:+
        ofstream.buffer (MetricWriter.file_stream_ open_writer))
       +:+ written_text [mkEntry 1653 "A" thirty]
       +:+ written_text [mkEntry 1653 "B" thirty])%string /\
    ofstream.buffer (MetricWriter.file_stream_ w') = ""%string /\
    ofstream.is_open (MetricWriter.file_stream_ w') = true.
Proof.
  split; [reflexivity|].
  destruct (failed_entry_is_skipped_rest_written
              [mkEntry 1653 "A" thirty] [mkEntry 1653 "B" thirty]
              (mkEntry 1653 "" thirty) open_writer [] eq_refl)
    as [[Hclosed _]|[_ Hreturns]].
  - discriminate Hclosed.
  - exact Hreturns.
Defined.

Example failed_entry_is_skipped_rest_written_file :
  MetricWriter.writeMetrics
    [mkEntry 1653 "A" thirty; mkEntry 1653 "" thirty; mkEntry 1653 "B" thirty]
    open_writer [] =
    (MetricWriter.mk "metrics.txt"
       (ofstream.mk true "" (example_line "A" "30" +:+ example_line "B" "30")),
     ["Error formatting metric entry '': Cannot format invalid metric name: "%string],
     Return tt).
Proof. vm_compute. reflexivity. Qed.

Lemma zero_mean_renders_as_plain_zero_witness :
  (([metric double cancelling_metric] : list Metric) !! 0%nat =
     Some (metric double cancelling_metric) /\
   (TypedMetric.count_ cancelling_metric = 0 \/
    (TypedMetric.accumulated_value_ cancelling_metric /
     inject_Z (TypedMetric.count_ cancelling_metric) == 0)%Q)) /\
  exists e,
    collect_entries 1653 [metric double cancelling_metric] !! 0%nat = Some e /\
    name e = TypedMetric.name_ cancelling_metric /\
    MetricValue_toString (value e) = "0"%string /\
    MetricValue_toString (value e) <> show_fixed 2 0.
Proof.
  split; [split; [reflexivity | right; reflexivity]|].
  apply (zero_mean_renders_as_plain_zero 1653 _ 0%nat t_double cancelling_metric);
    [reflexivity | right; reflexivity].
Defined.

Example zero_mean_line :
  sink (collectCurrentMetrics 1653
          (record_calls double "CPU" [(3 # 2)%Q; (- (3 # 2))%Q] (cpu_collector, []))) =
    example_line "CPU" "0".
Proof. vm_compute. reflexivity. Qed.

End WorkedExamples.

(** ** Names: validation, formatting and extraction *)

Lemma existsb_false_Forall {A : Type} (f : A -> bool) (l : list A) :
  existsb f l = false <-> Forall (fun x => f x = false) l.
Proof.
  induction l as [|a l IH]; simpl.
  - split; [constructor | reflexivity].
  - rewrite orb_false_iff, IH. split.
    + intros [Ha Hl]. constructor; assumption.
    + intros H. inversion H; subst. split; assumption.
Qed.

Lemma string_get_append_length (a b : string) (c : ascii) :
  String.get (String.length a) (a +:+ String c b) = Some c.
Proof.
  induction a as [|x a IH]; [reflexivity|].
  change (String.get (String.length a) (a +:+ String c b) = Some c). exact IH.
Qed.

Lemma string_length_append (a b : string) :
  String.length (a +:+ b) = (String.length a + String.length b)%nat.
Proof.
  induction a as [|x a IH]; [reflexivity|].
  change (S (String.length (a +:+ b)) = S (String.length a + String.length b)).
  rewrite IH. reflexivity.
Qed.

Lemma string_substring_prefix (a b : string) :
  String.substring 0 (String.length a) (a +:+ b) = a.
Proof.
  induction a as [|x a IH].
  - destruct b; reflexivity.
  - change (String x (String.substring 0 (String.length a) (a +:+ b)) = String x a).
    rewrite IH. reflexivity.
Qed.

Lemma string_split_last (k : nat) (s : string) (c : ascii) :
  String.length s = S k ->
  String.get k s = Some c ->
  s = (String.substring 0 k s +:+ String c EmptyString)%string.
Proof.
  revert s. induction k as [|k IH]; intros s Hlen Hget.
  - destruct s as [|x [|y s]]; simpl in Hlen; try discriminate.
    simpl in Hget. inversion Hget; subst. reflexivity.
  - destruct s as [|x s]; simpl in Hlen; [discriminate|].
    injection Hlen as Hlen. simpl in Hget.
    change (String x s = String x (String.substring 0 k s +:+ String c EmptyString)).
    rewrite <- (IH s Hlen Hget). reflexivity.
Qed.

Section Names.
Context {P : Platform}.
Import MetricNameValidator.

Lemma invalid_char_false_iff (c : ascii) :
  invalid_char c = false <-> acceptable_char c.
Proof.
  unfold invalid_char, char_value, acceptable_char.
  pose proof (N_ascii_bounded c) as Hb.
  assert (Hz : 0 <= Z.of_N (N_of_ascii c) < 256) by lia.
  set (n := N_of_ascii c) in *. set (z := Z.of_N n) in *.
  assert (Hn34 : n <> 34%N <-> z <> 34) by (unfold z; lia).
  assert (Hn32 : (32 <= n)%N <-> 32 <= z) by (unfold z; lia).
  assert (Hn128 : (n < 128)%N <-> z < 128) by (unfold z; lia).
  rewrite Hn34, Hn32, Hn128.
  destruct char_is_signed; simpl.
  - destruct (Z.leb_spec 128 z) as [Hge|Hlt].
    + split.
      * intros H. rewrite !orb_false_iff in H. destruct H as (_ & H).
        apply Z.ltb_ge in H. lia.
      * intros (_ & _ & H). specialize (H eq_refl). lia.
    + rewrite !orb_false_iff, !Z.eqb_neq, Z.ltb_ge. intuition lia.
  - rewrite !orb_false_iff, !Z.eqb_neq, Z.ltb_ge. intuition (try lia; discriminate).
Qed.

(** X1. [isValidName] accepts exactly the non-empty names all of whose
    characters have a code of at least 32, are not the double quote
    and, where plain [char] is signed, have a code below 128. *)
Theorem isValidName_characterised (n : string) :
  isValidName n = true <->
  n <> ""%string /\ Forall acceptable_char (list_ascii_of_string n).
Proof.
  unfold isValidName.
  destruct (String.eqb_spec n "") as [->|Hne].
  - split; [discriminate | intros [H _]; congruence].
  - rewrite negb_true_iff, existsb_false_Forall. split.
    + intros H. split; [exact Hne|].
      eapply Forall_impl; [exact H|]. intros c Hc. apply invalid_char_false_iff, Hc.
    + intros [_ H]. eapply Forall_impl; [exact H|].
      intros c Hc. apply invalid_char_false_iff, Hc.
Qed.

Lemma extract_of_quoted (n : string) :
  extractNameFromOutput (dquote +:+ n +:+ dquote) = Return n.
Proof.
  unfold extractNameFromOutput, dquote.
  change ((String (ascii_of_nat 34) EmptyString +:+ n +:+
           String (ascii_of_nat 34) EmptyString)%string)
    with (String (ascii_of_nat 34) (n +:+ String (ascii_of_nat 34) EmptyString)).
  assert (Hlen : String.length
                   (String (ascii_of_nat 34) (n +:+ String (ascii_of_nat 34) EmptyString)) =
                 S (S (String.length n))).
  { cbn [String.length]. rewrite string_length_append. cbn [String.length]. lia. }
  rewrite Hlen.
  replace (S (S (String.length n)) <? 2)%nat with false
    by (symmetry; apply Nat.ltb_ge; lia).
  unfold is_dquote_at.
  replace (S (S (String.length n)) - 1)%nat with (S (String.length n)) by lia.
  replace (S (S (String.length n)) - 2)%nat with (String.length n) by lia.
  cbn [String.get]. rewrite string_get_append_length, Ascii.eqb_refl.
  cbn [negb orb].
  change (String.substring 1 (String.length n)
            (String (ascii_of_nat 34) (n +:+ String (ascii_of_nat 34) EmptyString)))
    with (String.substring 0 (String.length n)
            (n +:+ String (ascii_of_nat 34) EmptyString)).
  rewrite string_substring_prefix. reflexivity.
Qed.

Lemma extract_only_of_quoted (s n : string) :
  extractNameFromOutput s = Return n -> s = (dquote +:+ n +:+ dquote)%string.
Proof.
  unfold extractNameFromOutput.
  destruct (String.length s <? 2)%nat eqn:Hlen; [intros H; discriminate H|].
  apply Nat.ltb_ge in Hlen.
  unfold is_dquote_at.
  destruct s as [|c rest]; [simpl in Hlen; lia|].
  cbn [String.get String.length] in *.
  destruct (Ascii.eqb_spec c (ascii_of_nat 34)) as [->|Hc];
    [|intros H; discriminate H].
  replace (S (String.length rest) - 1)%nat with (String.length rest) by lia.
  destruct (String.length rest) as [|k] eqn:Hk; [lia|].
  cbn [String.get].
  destruct (String.get k rest) as [d|] eqn:Hget; [|intros H; discriminate H].
  destruct (Ascii.eqb_spec d (ascii_of_nat 34)) as [->|Hd];
    [|intros H; discriminate H].
  cbn [negb orb]. intros H. inversion H as [Hn]. clear H.
  replace (S (S k) - 2)%nat with k by lia.
  change (String.substring 1 k (String (ascii_of_nat 34) rest))
    with (String.substring 0 k rest).
  unfold dquote.
  change ((String (ascii_of_nat 34) EmptyString +:+ String.substring 0 k rest +:+
           String (ascii_of_nat 34) EmptyString)%string)
    with (String (ascii_of_nat 34)
            (String.substring 0 k rest +:+ String (ascii_of_nat 34) EmptyString)).
  f_equal. rewrite ?Nat.sub_0_r. apply string_split_last; assumption.
Qed.

(** X2. [extractNameFromOutput] returns a name exactly for the strings
    that are this name between two double quotes; for every other
    string (shorter than two characters, or not quoted at both ends) it
    throws. *)
Theorem extractNameFromOutput_characterised (s n : string) :
  extractNameFromOutput s = Return n <-> s = (dquote +:+ n +:+ dquote)%string.
Proof.
  split; [apply extract_only_of_quoted | intros ->; apply extract_of_quoted].
Qed.

(** X3. Formatting and extraction are inverse on valid names: a valid
    name is formatted without error and extracted back from the result;
    and a string from which a valid name is extracted is the formatting
    of that name. *)
Theorem format_extract_round_trip (n : string) :
  isValidName n = true ->
  (exists f, formatNameForOutput n = Return f /\ extractNameFromOutput f = Return n) /\
  (forall s, extractNameFromOutput s = Return n -> formatNameForOutput n = Return s).
Proof.
  intros Hv. unfold formatNameForOutput. rewrite Hv. cbn [negb]. split.
  - eexists. split; [reflexivity|]. apply extract_of_quoted.
  - intros s Hs. f_equal. symmetry. apply extract_only_of_quoted. exact Hs.
Qed.

End Names.

(** ** The registry *)

Section Registry.
Context {P : Platform}.
Import MetricRegistry.

(** X4. A registration of a valid name that is not yet in the registry
    returns; afterwards the name is looked up to the metric just
    registered, the registry has one more entry, and every other name
    is looked up as before. *)
Theorem registry_register_then_lookup (n : string) (m : Metric) (r : t) :
  MetricNameValidator.isValidName n = true ->
  hasMetric n r = false ->
  exists r',
    registerMetric n m r = (r', Return tt) /\
    getMetric n r' = Some m /\
    hasMetric n r' = true /\
    size r' = S (size r) /\
    (forall n', n' <> n ->
       getMetric n' r' = getMetric n' r /\ hasMetric n' r' = hasMetric n' r).
Proof.
  intros Hv Hnew. unfold hasMetric in Hnew.
  destruct (metrics_ r !! n) eqn:Hn; [discriminate|].
  unfold registerMetric. rewrite Hv, Hn. simpl.
  eexists. split; [reflexivity|].
  unfold getMetric, hasMetric, size. simpl.
  rewrite lookup_insert_eq. repeat split.
  - apply map_size_insert_None. exact Hn.
  - rewrite lookup_insert_ne by congruence. reflexivity.
  - rewrite lookup_insert_ne by congruence. reflexivity.
Qed.

Lemma registry_step_names_valid (r : t) (op : registry_op) :
  names_valid r -> names_valid (registry_step r op).
Proof.
  intros Hr. destruct op as [n m|]; simpl.
  - unfold registerMetric.
    destruct (MetricNameValidator.isValidName n) eqn:Hv; simpl; [|exact Hr].
    destruct (metrics_ r !! n) eqn:Hn; simpl; [exact Hr|].
    intros n' m' Hl. simpl in Hl.
    destruct (decide (n = n')) as [<-|Hne]; [exact Hv|].
    rewrite lookup_insert_ne in Hl by exact Hne. eapply Hr; eauto.
  - intros n' m' Hl. simpl in Hl. rewrite lookup_empty in Hl. discriminate.
Qed.

(** X5. Whatever registrations and clearings are made on an empty
    registry, every name it holds passes [isValidName]: no metric is
    stored in a registry under an invalid name. *)
Theorem registry_names_always_valid (ops : list registry_op) :
  names_valid (fold_left registry_step ops empty).
Proof.
  assert (H0 : names_valid empty).
  { intros n m Hl. simpl in Hl. rewrite lookup_empty in Hl. discriminate. }
  revert H0. generalize empty. induction ops as [|op ops IH]; intros r Hr.
  - exact Hr.
  - simpl. apply IH. apply registry_step_names_valid. exact Hr.
Qed.

(** X6. The two enumerations agree with the lookups: a pair is in
    [getAllMetrics] exactly when the name is looked up to the metric, a
    name is in [getAllMetricNames] exactly when [hasMetric] holds, and
    the names are enumerated without repetition, [size] of them. *)
Theorem registry_enumerations_agree (r : t) :
  (forall n m, (n, m) ∈ getAllMetrics r <-> getMetric n r = Some m) /\
  (forall n, n ∈ getAllMetricNames r <-> hasMetric n r = true) /\
  NoDup (getAllMetricNames r) /\
  length (getAllMetricNames r) = size r /\
  getAllMetricNames r = map fst (getAllMetrics r).
Proof.
  unfold getAllMetrics, getAllMetricNames, getMetric, hasMetric, size.
  split; [|split; [|split; [|split]]].
  - intros n m. apply elem_of_map_to_list.
  - intros n. change (map fst (map_to_list (metrics_ r)))
      with ((map_to_list (metrics_ r)).*1).
    rewrite list_elem_of_fmap. split.
    + intros ([n' m] & -> & Hin). apply elem_of_map_to_list in Hin.
      simpl. rewrite Hin. reflexivity.
    + destruct (metrics_ r !! n) as [m|] eqn:Hn; [|discriminate].
      intros _. exists (n, m). split; [reflexivity|].
      apply elem_of_map_to_list. exact Hn.
  - apply NoDup_fst_map_to_list.
  - rewrite length_map. apply length_map_to_list.
  - reflexivity.
Qed.

End Registry.

(** ** What the operations of the collector keep *)

Lemma find_if_None_Forall {A : Type} (p : A -> bool) (l : list A) :
  find_if p l = None -> Forall (fun x => p x = false) l.
Proof.
  induction l as [|a l IH]; simpl; intros H; [constructor|].
  destruct (p a) eqn:Ha; [discriminate|].
  destruct (find_if p l); [discriminate|]. constructor; auto.
Qed.

Section CollectorInvariants.
Context {P : Platform}.
Import MetricCollector.

Lemma has_name_true (n : string) (m : Metric) :
  has_name n m = true <-> Metric_getName m = n.
Proof. unfold has_name. apply String.eqb_eq. Qed.

Lemma names_of_signature (c : t) : names_of c = map fst (signature c).
Proof. unfold names_of, signature. rewrite map_map. reflexivity. Qed.

Lemma find_if_None_fresh (n : string) (ms : list Metric) :
  find_if (has_name n) ms = None -> ~ In n (map Metric_getName ms).
Proof.
  intros Hf Hin. apply find_if_None_Forall in Hf.
  apply in_map_iff in Hin. destruct Hin as (m & Hm & Hin).
  rewrite Forall_forall in Hf. apply list_elem_of_In in Hin.
  specialize (Hf m Hin). apply has_name_true in Hm. congruence.
Qed.

Lemma record_at_signature (T : NumType) (v : val T) (i : nat) (c : t) :
  signature (record_at T v i c) = signature c.
Proof.
  unfold record_at.
  destruct (metrics_ c !! i) as [m|] eqn:Hm; [|reflexivity].
  destruct (dynamic_cast T m) as [tm|] eqn:Hcast; [|reflexivity].
  apply dynamic_cast_Some in Hcast. subst m.
  unfold signature. simpl.
  change (map (fun m => (Metric_getName m, Metric_kind m)))
    with (fmap (M:=list) (fun m => (Metric_getName m, Metric_kind m))).
  rewrite list_fmap_insert. apply list_insert_id.
  rewrite list_lookup_fmap, Hm. reflexivity.
Qed.

Lemma registerMetric_signature (T : NumType) (n : string) (c : t) :
  signature (fst (registerMetric T n c)) = signature c \/
  (~ In n (names_of c) /\
   signature (fst (registerMetric T n c)) = signature c ++ [(n, T)]).
Proof.
  unfold registerMetric.
  destruct (find_if (has_name n) (metrics_ c)) eqn:Hf; simpl; [left; reflexivity|].
  right. split; [apply find_if_None_fresh; exact Hf|].
  unfold signature. simpl. rewrite map_app. reflexivity.
Qed.

Lemma recordMetric_signature (T : NumType) (n : string) (v : val T)
    (st : t * ostream) :
  signature (fst (recordMetric T n v st)) = signature (fst st) \/
  (~ In n (names_of (fst st)) /\
   signature (fst (recordMetric T n v st)) = signature (fst st) ++ [(n, T)]).
Proof.
  destruct st as [c cerr]. unfold recordMetric. simpl fst.
  destruct (running_ c); simpl; [|left; reflexivity].
  destruct (find_if (has_name n) (metrics_ c)) as [i|] eqn:Hf; simpl.
  - left. apply record_at_signature.
  - right. split; [apply find_if_None_fresh; exact Hf|].
    unfold registerMetric. rewrite Hf.
    match goal with
    | |- context [find_if (has_name n) (metrics_ ?c1)] =>
        destruct (find_if (has_name n) (metrics_ c1)) as [j|]
    end; simpl; rewrite ?record_at_signature;
      unfold signature; simpl; rewrite map_app; reflexivity.
Qed.

Lemma reset_all_signature (c : t) : signature (reset_all c) = signature c.
Proof.
  unfold signature, reset_all. simpl. rewrite map_map.
  apply map_ext. intros [T tm]. reflexivity.
Qed.

Lemma collectCurrentMetrics_signature (ts : TimePoint) (st : t * ostream) :
  signature (fst (collectCurrentMetrics ts st)) = signature (fst st) /\
  running_ (fst (collectCurrentMetrics ts st)) = running_ (fst st).
Proof.
  destruct st as [c cerr]. unfold collectCurrentMetrics, write_and_reset. simpl fst.
  destruct (collect_entries ts (metrics_ c)) as [|e es]; [split; reflexivity|].
  destruct (MetricWriter.writeMetrics (e :: es) (writer_ c) cerr) as [[w log] [u|x]];
    simpl; [|split; reflexivity].
  rewrite reset_all_signature. split; reflexivity.
Qed.

Lemma collector_step_signature (st : t * ostream) (op : collector_op) :
  exists added,
    signature (fst (collector_step st op)) = signature (fst st) ++ added /\
    (forall n, In n (map fst added) -> ~ In n (names_of (fst st))) /\
    NoDup (map fst added).
Proof.
  assert (Hsame : forall c', signature c' = signature (fst st) ->
            exists added,
              signature c' = signature (fst st) ++ added /\
              (forall n, In n (map fst added) -> ~ In n (names_of (fst st))) /\
              NoDup (map fst added)).
  { intros c' H. exists []. rewrite app_nil_r. split; [exact H|].
    split; [intros n []|constructor]. }
  assert (Hone : forall c' n T, ~ In n (names_of (fst st)) ->
            signature c' = signature (fst st) ++ [(n, T)] ->
            exists added,
              signature c' = signature (fst st) ++ added /\
              (forall n, In n (map fst added) -> ~ In n (names_of (fst st))) /\
              NoDup (map fst added)).
  { intros c' n T Hn H. exists [(n, T)]. split; [exact H|]. split.
    - intros n' [<-|[]]. exact Hn.
    - simpl. constructor; [|constructor]. apply not_elem_of_nil. }
  destruct op as [T n|T n v| |ts|ts|ts]; simpl.
  - destruct (registerMetric_signature T n (fst st)) as [H|[Hn H]]; eauto.
  - destruct (recordMetric_signature T n v st) as [H|[Hn H]]; eauto.
  - apply Hsame. reflexivity.
  - apply Hsame. destruct st as [c cerr]. unfold stop.
    destruct (running_ c); simpl; [|reflexivity].
    apply (collectCurrentMetrics_signature ts
             (MetricCollector.mk (metrics_ c) false (writer_ c), cerr)).
  - apply Hsame. unfold flush. destruct (running_ (fst st)); simpl; [|reflexivity].
    apply collectCurrentMetrics_signature.
  - apply Hsame. apply collectCurrentMetrics_signature.
Qed.

(** X7. Metrics are never removed, renamed, reordered or given
    another kind: after any sequence of calls and worker cycles, the
    names and kinds of the metrics are those from before, in the same
    order, followed by those of the metrics registered since. *)
Theorem collector_metrics_only_grow (st : t * ostream) (ops : list collector_op) :
  exists added,
    signature (fst (collector_run st ops)) = signature (fst st) ++ added.
Proof.
  revert st. induction ops as [|op ops IH]; intros st.
  - exists []. rewrite app_nil_r. reflexivity.
  - unfold collector_run in *. cbn [fold_left].
    destruct (collector_step_signature st op) as (a1 & H1 & _).
    destruct (IH (collector_step st op)) as (a2 & H2).
    exists (a1 ++ a2). rewrite H2, H1, app_assoc. reflexivity.
Qed.

(** X8. Names stay unique: when no two metrics of a collector have
    the same name, none have after any sequence of calls and worker
    cycles. *)
Theorem collector_names_stay_unique (st : t * ostream) (ops : list collector_op) :
  NoDup (names_of (fst st)) ->
  NoDup (names_of (fst (collector_run st ops))).
Proof.
  revert st. induction ops as [|op ops IH]; intros st Hnd; [exact Hnd|].
  unfold collector_run in *. cbn [fold_left]. apply IH.
  destruct (collector_step_signature st op) as (added & Hsig & Hfresh & Hnd').
  rewrite names_of_signature, Hsig, map_app.
  apply NoDup_app. rewrite <- names_of_signature. split; [exact Hnd|]. split.
  - intros n Hin Hin'. apply list_elem_of_In in Hin, Hin'.
    exact (Hfresh n Hin' Hin).
  - exact Hnd'.
Qed.

Lemma after_miss_registers (T : NumType) (n : string) (v : val T)
    (c : t) (cerr : ostream) :
  find_if (has_name n) (metrics_ c) = None ->
  recordMetric_after_miss T n v (c, cerr) =
    (MetricCollector.mk
       (metrics_ c ++ [metric T (TypedMetric.recordValue v (TypedMetric.make T n))])
       (running_ c) (writer_ c),
     cerr).
Proof.
  intros Hf. unfold recordMetric_after_miss, registerMetric. rewrite Hf. cbn [metrics_].
  rewrite find_if_app_fresh;
    [|exact Hf|unfold has_name; simpl; apply String.eqb_refl].
  unfold record_at. cbn [metrics_ running_ writer_].
  rewrite lookup_app_r by lia. rewrite Nat.sub_diag. cbn [lookup list_lookup].
  rewrite dynamic_cast_same.
  replace (length (metrics_ c)) with (length (metrics_ c) + 0)%nat at 1 by lia.
  rewrite insert_app_r. reflexivity.
Qed.

(** X9. On a running collector, a record under a name that its lookup
    does not find goes on to register the name, after the lock of the
    lookup is released.  When the name is still not registered at that
    point, as it is when calls are made one at a time, the call appends
    a metric of the kind of the value, holding this one value, and logs
    nothing.  When another call has registered the name in between,
    the call registers nothing, records nothing, and logs that the
    auto-registration failed. *)
Theorem record_auto_registers (T : NumType) (n : string) (v : val T)
    (c c' : t) (cerr cerr' : ostream) :
  running_ c = true ->
  find_if (has_name n) (metrics_ c) = None ->
  recordMetric T n v (c, cerr) = recordMetric_after_miss T n v (c, cerr) /\
  recordMetric T n v (c, cerr) =
    (MetricCollector.mk
       (metrics_ c ++ [metric T (TypedMetric.recordValue v (TypedMetric.make T n))])
       true (writer_ c),
     cerr) /\
  (find_if (has_name n) (metrics_ c') = None ->
   recordMetric_after_miss T n v (c', cerr') =
     (MetricCollector.mk
        (metrics_ c' ++ [metric T (TypedMetric.recordValue v (TypedMetric.make T n))])
        (running_ c') (writer_ c'),
      cerr')) /\
  (forall i,
     find_if (has_name n) (metrics_ c') = Some i ->
     recordMetric_after_miss T n v (c', cerr') =
       (c', cerr' ++ [("Failed to auto-register metric '" +:+ n +:+ "': "
                       +:+ "Metric already registered: " +:+ n)%string])).
Proof.
  intros Hrun Hf.
  assert (Hseq : recordMetric T n v (c, cerr) = recordMetric_after_miss T n v (c, cerr)).
  { unfold recordMetric, recordMetric_after_miss. rewrite Hrun, Hf. reflexivity. }
  split; [exact Hseq|]. split; [|split].
  - rewrite Hseq, (after_miss_registers T n v c cerr Hf), Hrun. reflexivity.
  - apply after_miss_registers.
  - intros i Hi. unfold recordMetric_after_miss, registerMetric. rewrite Hi. reflexivity.
Qed.

(** X10. A record under one name leaves every metric registered under
    another name exactly as it was, at the same place, whatever the
    state of the collector. *)
Theorem record_touches_no_other_metric (T : NumType) (n : string) (v : val T)
    (st : t * ostream) (j : nat) (m : Metric) :
  metrics_ (fst st) !! j = Some m ->
  Metric_getName m <> n ->
  metrics_ (fst (recordMetric T n v st)) !! j = Some m.
Proof.
  destruct st as [c cerr]. simpl fst. intros Hj Hname.
  assert (Hat : forall i c', metrics_ c' !! j = Some m ->
            (forall x, metrics_ c' !! i = Some x -> i = j -> False) ->
            metrics_ (record_at T v i c') !! j = Some m).
  { intros i c' Hj' Hij. unfold record_at.
    destruct (metrics_ c' !! i) as [x|] eqn:Hx; [|exact Hj'].
    destruct (dynamic_cast T x); [|exact Hj'].
    simpl. rewrite list_lookup_insert_ne; [exact Hj'|].
    intros ->. eapply Hij; eauto. }
  unfold recordMetric. destruct (running_ c); simpl; [|exact Hj].
  destruct (find_if (has_name n) (metrics_ c)) as [i|] eqn:Hf; simpl.
  - apply Hat; [exact Hj|]. intros x Hx ->.
    destruct (find_if_lookup _ _ _ Hf) as (y & Hy & Hp).
    rewrite Hj in Hy. inversion Hy; subst y.
    apply has_name_true in Hp. contradiction.
  - unfold registerMetric. rewrite Hf.
    assert (Hj' : (metrics_ c ++ [metric T (TypedMetric.make T n)]) !! j = Some m).
    { rewrite lookup_app_l; [exact Hj|]. eapply lookup_lt_Some; eauto. }
    match goal with
    | |- context [find_if (has_name n) (metrics_ ?c1)] =>
        destruct (find_if (has_name n) (metrics_ c1)) as [i|] eqn:Hf1
    end; simpl; [|exact Hj'].
    apply Hat; [exact Hj'|]. intros x Hx ->.
    destruct (find_if_lookup _ _ _ Hf1) as (y & Hy & Hp).
    simpl in Hy. rewrite Hj' in Hy. inversion Hy; subst y.
    apply has_name_true in Hp. contradiction.
Qed.

End CollectorInvariants.

(** ** Stopping, idle cycles and the sink *)

Section Lifecycle.
Context {P : Platform}.
Import MetricCollector.

Lemma record_at_writer (T : NumType) (v : val T) (i : nat) (c : t) :
  writer_ (record_at T v i c) = writer_ c.
Proof.
  unfold record_at. destruct (metrics_ c !! i) as [m|]; [|reflexivity].
  destruct (dynamic_cast T m); reflexivity.
Qed.

Lemma recordMetric_writer (T : NumType) (n : string) (v : val T) (st : t * ostream) :
  writer_ (fst (recordMetric T n v st)) = writer_ (fst st).
Proof.
  destruct st as [c cerr]. unfold recordMetric. simpl fst.
  destruct (running_ c); simpl; [|reflexivity].
  destruct (find_if (has_name n) (metrics_ c)); simpl;
    [apply record_at_writer|].
  unfold registerMetric.
  destruct (find_if (has_name n) (metrics_ c)); simpl.
  - destruct (find_if (has_name n) (metrics_ c)); simpl;
      rewrite ?record_at_writer; reflexivity.
  - match goal with
    | |- context [find_if (has_name n) ?l] =>
        destruct (find_if (has_name n) l)
    end; simpl; rewrite ?record_at_writer; reflexivity.
Qed.

Lemma registerMetric_writer (T : NumType) (n : string) (c : t) :
  writer_ (fst (registerMetric T n c)) = writer_ c.
Proof.
  unfold registerMetric. destruct (find_if (has_name n) (metrics_ c)); reflexivity.
Qed.


(** X11. [stop] on a running collector is one last flush cycle on the
    collector made idle; whatever the state, the collector is idle after
    [stop], and a second [stop], a [flush] or a record after it changes
    nothing. *)
Theorem stop_flushes_once_and_idles (ts ts' : TimePoint) (st : t * ostream) :
  (running_ (fst st) = true ->
   stop ts st =
     collectCurrentMetrics ts
       (MetricCollector.mk (metrics_ (fst st)) false (writer_ (fst st)), snd st)) /\
  running_ (fst (stop ts st)) = false /\
  stop ts' (stop ts st) = stop ts st /\
  flush ts' (stop ts st) = stop ts st /\
  (forall T n v, recordMetric T n v (stop ts st) = stop ts st).
Proof.
  destruct st as [c cerr]. simpl fst. simpl snd.
  assert (Hidle : running_ (fst (stop ts (c, cerr))) = false).
  { unfold stop. destruct (running_ c) eqn:Hrun; cbn [negb]; [|exact Hrun].
    rewrite (proj2 (collectCurrentMetrics_signature ts _)). reflexivity. }
  split; [|split; [exact Hidle|]].
  - intros Hrun. unfold stop. rewrite Hrun. reflexivity.
  - destruct (stop ts (c, cerr)) as [c1 cerr1] eqn:Hs. simpl in Hidle.
    repeat split.
    + unfold stop. rewrite Hidle. reflexivity.
    + unfold flush. simpl. rewrite Hidle. reflexivity.
    + intros T n v. unfold recordMetric. rewrite Hidle. reflexivity.
Qed.

Lemma collect_entries_after_reset (ts : TimePoint) (ms : list Metric) :
  Forall (fun e => MetricValue_toString (value e) = "0"%string)
    (collect_entries ts (map Metric_reset ms)) /\
  length (collect_entries ts (map Metric_reset ms)) = length ms.
Proof.
  induction ms as [|[T tm] ms [IH1 IH2]]; simpl; [split; [constructor|reflexivity]|].
  unfold TypedMetric.getAccumulatedValue. simpl. split.
  - constructor; [|exact IH1]. simpl. apply toString_make_zero.
    destruct T; reflexivity.
  - f_equal. exact IH2.
Qed.

(** X12. A flush cycle does not skip metrics without samples: after a
    cycle on an open stream, the next cycle, with no record in between,
    again makes one entry for every registered metric, each with the
    rendered value ["0"]. *)
Theorem idle_cycle_reports_every_metric_as_zero (ts ts' : TimePoint) (c : t)
    (cerr : ostream) :
  ofstream.is_open (MetricWriter.file_stream_ (writer_ c)) = true ->
  Forall (fun e => MetricValue_toString (value e) = "0"%string)
    (collect_entries ts' (metrics_ (fst (collectCurrentMetrics ts (c, cerr))))) /\
  length (collect_entries ts' (metrics_ (fst (collectCurrentMetrics ts (c, cerr))))) =
    length (metrics_ c).
Proof.
  intros Hopen. destruct (metrics_ c) as [|m ms] eqn:Hms.
  - unfold collectCurrentMetrics, write_and_reset. simpl fst. rewrite Hms. simpl.
    rewrite Hms. split; [constructor | reflexivity].
  - destruct (collectCurrentMetrics_open ts c cerr) as (w & Hc & _);
      [rewrite Hms; discriminate | exact Hopen |].
    rewrite Hc. cbn [fst metrics_]. rewrite Hms.
    apply (collect_entries_after_reset ts' (m :: ms)).
Qed.

Lemma writeMetrics_appends (es : list MetricEntry) (w : MetricWriter.t)
    (cerr : ostream) :
  exists suffix,
    ofstream.file (MetricWriter.file_stream_ (fst (fst (MetricWriter.writeMetrics es w cerr)))) =
      (ofstream.file (MetricWriter.file_stream_ w) +:+ suffix)%string.
Proof.
  destruct es as [|e es].
  - exists ""%string. simpl. rewrite str_app_nil_r. reflexivity.
  - destruct (ofstream.is_open (MetricWriter.file_stream_ w)) eqn:Hopen.
    + destruct (writeMetrics_open (e :: es) w cerr) as (w' & Hw & _ & _ & _ & Hf);
        [discriminate | exact Hopen |].
      rewrite Hw. simpl. rewrite Hf, str_app_assoc. eauto.
    + rewrite writeMetrics_closed by (try discriminate; exact Hopen).
      exists ""%string. simpl. rewrite str_app_nil_r. reflexivity.
Qed.

Lemma collectCurrentMetrics_appends (ts : TimePoint) (st : t * ostream) :
  exists suffix, sink (collectCurrentMetrics ts st) = (sink st +:+ suffix)%string.
Proof.
  destruct st as [c cerr]. unfold collectCurrentMetrics, write_and_reset, sink.
  simpl fst.
  destruct (collect_entries ts (metrics_ c)) as [|e es].
  - exists ""%string. simpl. rewrite str_app_nil_r. reflexivity.
  - destruct (writeMetrics_appends (e :: es) (writer_ c) cerr) as (suffix & Hs).
    destruct (MetricWriter.writeMetrics (e :: es) (writer_ c) cerr) as [[w log] [u|x]];
      simpl in *; eauto.
Qed.

Lemma collector_step_appends (st : t * ostream) (op : collector_op) :
  exists suffix, sink (collector_step st op) = (sink st +:+ suffix)%string.
Proof.
  assert (Hsame : forall st', writer_ (fst st') = writer_ (fst st) ->
            exists suffix, sink st' = (sink st +:+ suffix)%string).
  { intros st' H. exists ""%string. unfold sink. rewrite H, str_app_nil_r.
    reflexivity. }
  destruct op as [T n|T n v| |ts|ts|ts]; simpl.
  - apply Hsame. apply registerMetric_writer.
  - apply Hsame. apply recordMetric_writer.
  - apply Hsame. reflexivity.
  - destruct st as [c cerr]. unfold stop. destruct (running_ c).
    + simpl negb. cbv iota.
      apply (collectCurrentMetrics_appends ts
               (MetricCollector.mk (metrics_ c) false (writer_ c), cerr)).
    + apply Hsame. reflexivity.
  - unfold flush. destruct (running_ (fst st)); simpl.
    + apply collectCurrentMetrics_appends.
    + apply Hsame. reflexivity.
  - apply collectCurrentMetrics_appends.
Qed.

(** X13. The sink is append-only: after any sequence of calls and
    worker cycles on a collector, the contents of its file are the
    contents from before followed by what was written since. *)
Theorem sink_is_append_only (st : t * ostream) (ops : list collector_op) :
  exists suffix, sink (collector_run st ops) = (sink st +:+ suffix)%string.
Proof.
  revert st. induction ops as [|op ops IH]; intros st.
  - exists ""%string. simpl. rewrite str_app_nil_r. reflexivity.
  - unfold collector_run in *. cbn [fold_left].
    destruct (collector_step_appends st op) as (s1 & H1).
    destruct (IH (collector_step st op)) as (s2 & H2).
    exists (s1 +:+ s2)%string. rewrite H2, H1, str_app_assoc. reflexivity.
Qed.

(** X14. [close] persists what the stream still buffers and is
    idempotent; after it, [writeMetrics] of a non-empty list throws and
    changes nothing, and of an empty list returns. *)
Theorem close_is_idempotent_and_final (w : MetricWriter.t) (es : list MetricEntry)
    (cerr : ostream) :
  MetricWriter.close (MetricWriter.close w) = MetricWriter.close w /\
  ofstream.is_open (MetricWriter.file_stream_ (MetricWriter.close w)) = false /\
  (ofstream.is_open (MetricWriter.file_stream_ w) = true ->
   ofstream.file (MetricWriter.file_stream_ (MetricWriter.close w)) =
     (ofstream.file (MetricWriter.file_stream_ w) +:+
      ofstream.buffer (MetricWriter.file_stream_ w))%string) /\
  MetricWriter.writeMetrics es (MetricWriter.close w) cerr =
    (MetricWriter.close w, cerr,
     match es with
     | [] => Return tt
     | _ :: _ => Throw (runtime_error "Output file is not open")
     end).
Proof.
  destruct w as [f [o b c]]. unfold MetricWriter.close, ofstream.close. simpl.
  destruct o; simpl; repeat split; try discriminate; destruct es; reflexivity.
Qed.

End Lifecycle.

(** ** Metric values: adding, merging and rendering *)

Lemma wrap_signed_plus_r (w a b : Z) :
  wrap_signed w (a + wrap_signed w b) = wrap_signed w (a + b).
Proof.
  rewrite (Z.add_comm a (wrap_signed w b)), wrap_signed_plus_l.
  f_equal. lia.
Qed.

Lemma in_range_quot (w a b : Z) :
  0 < w -> in_range w a -> 1 <= b -> in_range w (Z.quot a b).
Proof.
  unfold in_range. intros Hw Ha Hb.
  assert (Hh : 0 < 2 ^ (w - 1)) by (apply Z.pow_pos_nonneg; lia).
  destruct (Z.le_gt_cases 0 a) as [Hpos|Hneg].
  - rewrite Z.quot_div_nonneg by lia.
    assert (0 <= a / b) by (apply Z.div_pos; lia).
    assert (a / b <= a) by (apply Z.div_le_upper_bound; nia).
    lia.
  - replace a with (- - a) by lia. rewrite Z.quot_opp_l by lia.
    rewrite Z.quot_div_nonneg by lia.
    assert (0 <= (- a) / b) by (apply Z.div_pos; lia).
    assert ((- a) / b <= - a) by (apply Z.div_le_upper_bound; nia).
    lia.
Qed.

Lemma exact_sum_app (xs ys : list Z) :
  exact_sum (xs ++ ys) = exact_sum xs + exact_sum ys.
Proof.
  induction xs as [|x xs IH]; simpl; [reflexivity|].
  unfold exact_sum in *. simpl. rewrite IH. lia.
Qed.

Lemma rational_sum_app (xs ys : list Q) :
  (rational_sum (xs ++ ys) == rational_sum xs + rational_sum ys)%Q.
Proof.
  induction xs as [|x xs IH]; simpl.
  - symmetry. apply Qplus_0_l.
  - unfold rational_sum in *. simpl. rewrite IH. apply Qplus_assoc.
Qed.

Lemma MetricValue_cast_same (T : NumType) (v : TypedMetricValue.t T) :
  MetricValue_cast T (metric_value T v) = Some v.
Proof.
  unfold MetricValue_cast. destruct (NumType_eq_dec T T) as [e|n]; [|congruence].
  rewrite <- (Eqdep_dec.eq_rect_eq_dec NumType_eq_dec). reflexivity.
Qed.

Lemma MetricValue_cast_other (T U : NumType) (v : TypedMetricValue.t U) :
  U <> T -> MetricValue_cast T (metric_value U v) = None.
Proof.
  intros Hne. unfold MetricValue_cast.
  destruct (NumType_eq_dec U T); [congruence | reflexivity].
Qed.

Section MetricValues.
Context {P : Platform}.

Lemma add_values_as_record_values {T} (vs : list (val T)) (v : TypedMetricValue.t T)
    (n : string) :
  TypedMetricValue.value_ (add_values vs v) =
    TypedMetric.accumulated_value_
      (record_values vs
         (TypedMetric.mk n (TypedMetricValue.value_ v) (TypedMetricValue.count_ v))) /\
  TypedMetricValue.count_ (add_values vs v) =
    TypedMetric.count_
      (record_values vs
         (TypedMetric.mk n (TypedMetricValue.value_ v) (TypedMetricValue.count_ v))).
Proof.
  revert v. induction vs as [|x vs IH]; intros v; [split; reflexivity|].
  unfold add_values, record_values in *. cbn [fold_left].
  apply (IH (TypedMetricValue.addValue x v)).
Qed.

Lemma add_values_count {T} (vs : list (val T)) (v0 : TypedMetricValue.t T) :
  TypedMetricValue.count_ (add_values vs (TypedMetricValue.reset v0)) =
    wrap_unsigned size_bits (Z.of_nat (length vs)).
Proof.
  destruct (add_values_as_record_values vs (TypedMetricValue.reset v0) "") as [_ ->].
  simpl TypedMetricValue.value_. simpl TypedMetricValue.count_.
  destruct vs as [|x vs].
  - simpl. unfold wrap_unsigned. symmetry. apply Z.mod_0_l.
    pose proof size_bits_pos. apply Z.pow_nonzero; lia.
  - rewrite record_values_count_wrapped by discriminate.
    rewrite record_values_count. reflexivity.
Qed.

Lemma add_values_value (T : NumType) (vs : list (val T)) (v0 : TypedMetricValue.t T) :
  val_eq T (TypedMetricValue.value_ (add_values vs (TypedMetricValue.reset v0)))
    (match T return list (val T) -> val T with
     | Integral i => fun vs => wrap_signed (int_bits i) (exact_sum vs)
     | Floating _ => fun vs => rational_sum vs
     end vs).
Proof.
  destruct (add_values_as_record_values vs (TypedMetricValue.reset v0) "") as [-> _].
  destruct T as [i|f]; simpl.
  - apply (record_values_integral_fresh i vs "").
  - rewrite (record_values_floating f vs). simpl. apply Qplus_0_l.
Qed.

(** X15. [getValue] of a metric value to which fewer values have been
    added, since its reset, than [size_t] can count is their mean: the
    arithmetic mean for a floating kind, and for an integral kind the
    quotient of the sum by the number of values, truncated toward zero,
    when both fit the kind. *)
Theorem getValue_is_the_mean (T : NumType) (vs : list (val T))
    (v0 : TypedMetricValue.t T) :
  Z.of_nat (length vs) < 2 ^ size_bits ->
  averaged_as T
    (TypedMetricValue.getValue (add_values vs (TypedMetricValue.reset v0))) vs.
Proof.
  intros Hlen. unfold TypedMetricValue.getValue.
  pose proof (add_values_value T vs v0) as Hv.
  rewrite add_values_count. unfold wrap_unsigned.
  rewrite Z.mod_small by lia.
  destruct T as [i|f]; simpl in *.
  - intros Hsum Hn. pose proof (int_bits_pos i) as Hw. rewrite Hv.
    destruct (Z.ltb_spec 0 (Z.of_nat (length vs))) as [Hpos|Hzero].
    + rewrite (wrap_signed_small _ (exact_sum vs)) by (try exact Hsum; lia).
      rewrite (wrap_signed_small _ (Z.of_nat (length vs))) by (try exact Hn; lia).
      apply wrap_signed_small; [lia|]. apply in_range_quot; [lia | exact Hsum | lia].
    + destruct vs; [reflexivity | simpl in Hzero; lia].
  - destruct (Z.ltb_spec 0 (Z.of_nat (length vs))) as [Hpos|Hzero].
    + unfold arithmetic_mean. rewrite Hv. reflexivity.
    + destruct vs; [reflexivity | simpl in Hzero; lia].
Qed.

(** X16. [accumulate] merges partial aggregates: accumulating the
    value that holds the samples [ys] into the value that holds [xs]
    gives the total and the count of the value that holds [xs ++ ys];
    and accumulating a value of another kind throws and changes
    nothing. *)
Theorem accumulate_merges (T : NumType) (xs ys : list (val T))
    (v0 : TypedMetricValue.t T) :
  (exists r,
     TypedMetricValue_accumulate
       (metric_value T (add_values ys (TypedMetricValue.reset v0)))
       (add_values xs (TypedMetricValue.reset v0)) = (r, Return tt) /\
     val_eq T (TypedMetricValue.value_ r)
       (TypedMetricValue.value_ (add_values (xs ++ ys) (TypedMetricValue.reset v0))) /\
     TypedMetricValue.count_ r =
       TypedMetricValue.count_ (add_values (xs ++ ys) (TypedMetricValue.reset v0))) /\
  (forall (U : NumType) (other : TypedMetricValue.t U) (v : TypedMetricValue.t T),
     U <> T ->
     TypedMetricValue_accumulate (metric_value U other) v =
       (v, Throw (invalid_argument "Cannot accumulate different metric value types"))).
Proof.
  split.
  - unfold TypedMetricValue_accumulate. rewrite MetricValue_cast_same.
    eexists. split; [reflexivity|]. simpl. split.
    + pose proof (add_values_value T xs v0) as Hx.
      pose proof (add_values_value T ys v0) as Hy.
      pose proof (add_values_value T (xs ++ ys) v0) as Hxy.
      destruct T as [i|f]; simpl in *.
      * rewrite Hx, Hy, Hxy, exact_sum_app.
        rewrite wrap_signed_plus_l, wrap_signed_plus_r. reflexivity.
      * rewrite Hx, Hy, Hxy. symmetry. apply rational_sum_app.
    + rewrite !add_values_count, length_app, Nat2Z.inj_add.
      unfold wrap_unsigned. rewrite <- Zplus_mod. reflexivity.
  - intros U other v Hne. unfold TypedMetricValue_accumulate.
    rewrite MetricValue_cast_other by exact Hne. reflexivity.
Qed.

(** X17. The two overloads of [recordValue] agree: recording the
    pointer to a metric value constructed from [x] returns and leaves
    the metric with the name, total and count that recording [x] itself
    gives; recording the null pointer or a value of another kind throws
    and changes nothing. *)
Theorem recordValue_overloads_agree (T : NumType) (x : val T) (m : TypedMetric.t T) :
  (exists m',
     TypedMetric_recordValue_ptr (Some (metric_value T (TypedMetricValue.make T x))) m =
       (m', Return tt) /\
     TypedMetric.name_ m' = TypedMetric.name_ (TypedMetric.recordValue x m) /\
     val_eq T (TypedMetric.accumulated_value_ m')
       (TypedMetric.accumulated_value_ (TypedMetric.recordValue x m)) /\
     TypedMetric.count_ m' = TypedMetric.count_ (TypedMetric.recordValue x m)) /\
  TypedMetric_recordValue_ptr None m =
    (m, Throw (invalid_argument
                 ("Invalid metric value type for metric: " +:+ TypedMetric.name_ m))) /\
  (forall (U : NumType) (other : TypedMetricValue.t U),
     U <> T ->
     TypedMetric_recordValue_ptr (Some (metric_value U other)) m =
       (m, Throw (invalid_argument
                    ("Invalid metric value type for metric: " +:+ TypedMetric.name_ m)))).
Proof.
  split; [|split; [reflexivity|]].
  - unfold TypedMetric_recordValue_ptr. rewrite MetricValue_cast_same.
    eexists. split; [reflexivity|]. simpl. repeat split.
    destruct T as [i|f]; simpl.
    + unfold TypedMetricValue.getValue, TypedMetricValue.make. simpl.
      pose proof (int_bits_pos i) as Hw.
      destruct (Z.eqb_spec x 0) as [->|Hne]; simpl; [reflexivity|].
      rewrite (wrap_signed_small (int_bits i) 1) by (try apply in_range_one; lia).
      rewrite Z.quot_1_r. apply wrap_signed_plus_r.
    + rewrite (getValue_make_floating f x). reflexivity.
  - intros U other Hne. unfold TypedMetric_recordValue_ptr.
    rewrite MetricValue_cast_other by exact Hne. reflexivity.
Qed.

End MetricValues.

(** ** Rendering: [toString], [ValueFormatter] and the timestamp *)

Lemma in_range_mono (w w' z : Z) : 0 < w -> w <= w' -> in_range w z -> in_range w' z.
Proof.
  unfold in_range. intros Hw Hle Hz.
  assert (2 ^ (w - 1) <= 2 ^ (w' - 1)) by (apply Z.pow_le_mono_r; lia).
  lia.
Qed.

Lemma show_fixed_div_one (p : nat) (x : Q) :
  show_fixed p (x / inject_Z 1) = show_fixed p x.
Proof.
  destruct x as [n d]. unfold show_fixed, Qdiv, Qmult, Qinv. simpl.
  rewrite Z.mul_1_r, Pos.mul_1_r. reflexivity.
Qed.

Lemma show_fixed_2_zero (x : Q) : (x == 0)%Q -> show_fixed 2 x = "0.00"%string.
Proof.
  destruct x as [n d]. unfold Qeq. simpl. rewrite Z.mul_1_r. intros ->. reflexivity.
Qed.

Lemma show_padded_3_width (n : Z) :
  0 <= n < 1000 -> String.length (show_padded 3 n) = 3%nat.
Proof.
  intros Hn.
  assert (Hall : forallb
                   (fun k => Nat.eqb (String.length (show_padded 3 (Z.of_nat k))) 3)
                   (seq 0 1000) = true) by (vm_compute; reflexivity).
  rewrite forallb_forall in Hall.
  specialize (Hall (Z.to_nat n)). rewrite Z2Nat.id in Hall by lia.
  apply Nat.eqb_eq, Hall, in_seq. lia.
Qed.

Section Rendering.
Context {P : Platform}.

(** X18. [TypedMetricValue::toString] and [ValueFormatter::formatValue]
    render a value alike, except a floating zero: for an integral value
    in the range of its kind, and for a floating value other than zero,
    the string of the metric value constructed from it is the one
    [formatValue] gives; for a floating zero the former is ["0"], the
    latter is the zero with two decimals after whatever sign it prints
    (none for the zero of the model), and the two differ. *)
Theorem toString_and_formatValue (i : IntType) (f : FloatType) (z : Z) (x : Q) :
  (in_range (int_bits i) z ->
   TypedMetricValue.toString (TypedMetricValue.make (Integral i) z) =
     ValueFormatter.formatValue (Integral i) z) /\
  (~ (x == 0)%Q ->
   TypedMetricValue.toString (TypedMetricValue.make (Floating f) x) =
     ValueFormatter.formatValue (Floating f) x) /\
  ((x == 0)%Q ->
   TypedMetricValue.toString (TypedMetricValue.make (Floating f) x) = "0"%string /\
   (exists sign, ValueFormatter.formatValue (Floating f) x = (sign +:+ "0.00")%string) /\
   TypedMetricValue.toString (TypedMetricValue.make (Floating f) x) <>
     ValueFormatter.formatValue (Floating f) x).
Proof.
  split; [|split].
  - intros Hz. pose proof (int_bits_pos i) as Hw.
    unfold ValueFormatter.formatValue, ValueFormatter.formatInteger.
    rewrite (wrap_signed_small (int_bits t_long) z).
    + unfold TypedMetricValue.toString.
      pose proof (getValue_make_integral i z Hz) as Hg.
      unfold TypedMetricValue.make in *. simpl in *.
      destruct (Z.eqb_spec z 0) as [->|Hne]; simpl in *; [reflexivity|].
      rewrite Hg. reflexivity.
    + pose proof (int_bits_pos t_long). lia.
    + apply (in_range_mono (int_bits i)); [lia | | exact Hz].
      destruct i; simpl; destruct long_is_64; lia.
  - intros Hx. unfold ValueFormatter.formatValue, ValueFormatter.formatDouble.
    unfold TypedMetricValue.toString, TypedMetricValue.getValue, TypedMetricValue.make.
    simpl. destruct (Qeq_bool x 0) eqn:Hb; simpl.
    + apply Qeq_bool_eq in Hb. contradiction.
    + apply show_fixed_div_one.
  - intros Hx.
    assert (Hs : TypedMetricValue.toString (TypedMetricValue.make (Floating f) x) =
                 "0"%string).
    { apply toString_make_zero. simpl. apply negb_false_iff, Qeq_bool_iff. exact Hx. }
    assert (Hf : ValueFormatter.formatValue (Floating f) x = "0.00"%string)
      by (apply show_fixed_2_zero; exact Hx).
    split; [exact Hs|]. split.
    + exists ""%string. exact Hf.
    + rewrite Hs, Hf. discriminate.
Qed.

(** X19. For a time point at or after the epoch, [formatTimestamp]
    gives the local date and time of its second, a point, and a
    millisecond field of exactly three characters. *)
Theorem formatTimestamp_has_three_digit_milliseconds (tp : TimePoint) :
  0 <= tp ->
  exists ms,
    TimestampUtils.formatTimestamp tp =
      (put_time_local (tp / 1000) +:+ "." +:+ ms)%string /\
    ms = show_padded 3 (tp mod 1000) /\
    String.length ms = 3%nat.
Proof.
  intros Htp. unfold TimestampUtils.formatTimestamp.
  rewrite Z.quot_div_nonneg, Z.rem_mod_nonneg by lia.
  eexists. split; [reflexivity|]. split; [reflexivity|].
  apply show_padded_3_width. apply Z.mod_pos_bound. lia.
Qed.

End Rendering.

(** ** The manager *)

Section Manager.
Context {P : Platform}.

Lemma recordMetric_running (T : NumType) (n : string) (v : val T)
    (st : MetricCollector.t * ostream) :
  MetricCollector.running_ (fst (MetricCollector.recordMetric T n v st)) =
    MetricCollector.running_ (fst st).
Proof.
  destruct st as [c cerr]. unfold MetricCollector.recordMetric. simpl fst.
  destruct (MetricCollector.running_ c) eqn:Hrun; simpl; [|exact Hrun].
  assert (Hat : forall i c', MetricCollector.running_ (MetricCollector.record_at T v i c') =
                             MetricCollector.running_ c').
  { intros i c'. unfold MetricCollector.record_at.
    destruct (MetricCollector.metrics_ c' !! i) as [m|]; [|reflexivity].
    destruct (dynamic_cast T m); reflexivity. }
  destruct (find_if (MetricCollector.has_name n) (MetricCollector.metrics_ c)) eqn:Hf;
    simpl; [rewrite Hat; exact Hrun|].
  unfold MetricCollector.registerMetric. rewrite Hf.
  match goal with
  | |- context [find_if (MetricCollector.has_name n) ?l] =>
      destruct (find_if (MetricCollector.has_name n) l)
  end; simpl; rewrite ?Hat; exact Hrun.
Qed.




Lemma reset_holds_no_samples (ms : list Metric) :
  Forall holds_no_samples (map Metric_reset ms).
Proof.
  induction ms as [|[T tm] ms IH]; constructor; [reflexivity | exact IH].
Qed.

Lemma holds_no_samples_reset (ms : list Metric) :
  Forall holds_no_samples ms -> map Metric_reset ms = ms.
Proof.
  induction 1 as [|m ms Hm _ IH]; [reflexivity|]. simpl. rewrite Hm, IH. reflexivity.
Qed.

Lemma cycle_on_open_stream (ts : TimePoint) (c : MetricCollector.t) (cerr : ostream) :
  ofstream.is_open (MetricWriter.file_stream_ (MetricCollector.writer_ c)) = true ->
  MetricCollector.metrics_ (fst (MetricCollector.collectCurrentMetrics ts (c, cerr))) =
    map Metric_reset (MetricCollector.metrics_ c) /\
  MetricCollector.running_ (fst (MetricCollector.collectCurrentMetrics ts (c, cerr))) =
    MetricCollector.running_ c /\
  ofstream.is_open
    (MetricWriter.file_stream_
       (MetricCollector.writer_
          (fst (MetricCollector.collectCurrentMetrics ts (c, cerr))))) = true.
Proof.
  intros Hopen. destruct (MetricCollector.metrics_ c) as [|m ms] eqn:Hms.
  - unfold MetricCollector.collectCurrentMetrics, MetricCollector.write_and_reset.
    cbn [fst]. rewrite ?Hms. cbn. rewrite ?Hms. repeat split. exact Hopen.
  - destruct (collectCurrentMetrics_open ts c cerr) as (w & Hc & Ho & _);
      [rewrite Hms; discriminate | exact Hopen |].
    rewrite Hc. cbn [fst MetricCollector.metrics_ MetricCollector.running_
                     MetricCollector.writer_].
    rewrite Hms. repeat split. exact Ho.
Qed.

Lemma manager_stop_invariant (ts : TimePoint) (st : MetricSystemManager.t * ostream) :
  manager_invariant (fst st) ->
  manager_invariant (fst (MetricSystemManager.stop ts st)) /\
  MetricSystemManager.is_running_ (fst (MetricSystemManager.stop ts st)) = false.
Proof.
  destruct st as [m cerr]. cbn [fst]. intros (Ha & Hb & Hc).
  unfold MetricSystemManager.stop.
  destruct (MetricSystemManager.is_running_ m) eqn:Hr; cbn [negb fst].
  - unfold MetricCollector.stop. rewrite <- Ha. cbn [negb].
    destruct (cycle_on_open_stream ts
                (MetricCollector.mk
                   (MetricCollector.metrics_ (MetricSystemManager.collector_ m)) false
                   (MetricCollector.writer_ (MetricSystemManager.collector_ m))) cerr)
      as (Hm & Hrun & Ho); [exact Hb|].
    destruct (MetricCollector.collectCurrentMetrics ts _) as [c cerr'].
    cbn [fst MetricCollector.metrics_ MetricCollector.running_] in *.
    split; [|reflexivity]. unfold manager_invariant.
    cbn [MetricSystemManager.is_running_ MetricSystemManager.collector_].
    split; [symmetry; exact Hrun|]. split; [exact Ho|].
    intros _. rewrite Hm. apply reset_holds_no_samples.
  - split; [|exact Hr]. unfold manager_invariant. rewrite Hr. auto.
Qed.

Lemma manager_step_invariant (st : MetricSystemManager.t * ostream) (op : manager_op) :
  manager_invariant (fst st) -> manager_invariant (fst (manager_step st op)).
Proof.
  destruct st as [m cerr]. cbn [fst]. intros Hinv.
  pose proof Hinv as (Ha & Hb & Hc).
  destruct op as [|ts|T n|T n v|ts|ts]; cbn [manager_step fst snd].
  - unfold MetricSystemManager.start.
    destruct (MetricSystemManager.is_running_ m) eqn:Hr; [exact Hinv|].
    unfold manager_invariant.
    cbn [MetricSystemManager.is_running_ MetricSystemManager.collector_
         MetricCollector.start MetricCollector.running_ MetricCollector.writer_].
    split; [reflexivity|]. split; [exact Hb | discriminate].
  - apply (manager_stop_invariant ts (m, cerr)). exact Hinv.
  - unfold MetricSystemManager.registerMetric, MetricCollector.registerMetric.
    destruct (find_if _ _); cbn [fst]; unfold manager_invariant;
      cbn [MetricSystemManager.is_running_ MetricSystemManager.collector_
           MetricCollector.running_ MetricCollector.writer_ MetricCollector.metrics_].
    + auto.
    + split; [exact Ha|]. split; [exact Hb|]. intros Hr.
      apply Forall_app. split; [apply Hc; exact Hr|].
      constructor; [reflexivity | constructor].
  - unfold MetricSystemManager.recordMetric.
    destruct (MetricSystemManager.is_running_ m) eqn:Hr; cbn [negb fst];
      [|exact Hinv].
    pose proof (recordMetric_running T n v (MetricSystemManager.collector_ m, cerr)) as Hk.
    pose proof (recordMetric_writer T n v (MetricSystemManager.collector_ m, cerr)) as Hw.
    destruct (MetricCollector.recordMetric T n v (MetricSystemManager.collector_ m, cerr))
      as [c cerr'].
    cbn [fst] in *. unfold manager_invariant.
    cbn [MetricSystemManager.is_running_ MetricSystemManager.collector_].
    rewrite Hk, Hw. split; [exact Ha|]. split; [exact Hb | discriminate].
  - unfold MetricSystemManager.flush.
    destruct (MetricSystemManager.is_running_ m) eqn:Hr; cbn [fst]; [|exact Hinv].
    unfold MetricCollector.flush. cbn [fst]. rewrite <- Ha. cbn [negb].
    destruct (cycle_on_open_stream ts (MetricSystemManager.collector_ m) cerr Hb)
      as (Hm & Hrun & Ho).
    destruct (MetricCollector.collectCurrentMetrics ts _) as [c cerr'].
    cbn [fst] in *. unfold manager_invariant.
    cbn [MetricSystemManager.is_running_ MetricSystemManager.collector_].
    rewrite Hrun. split; [exact Ha|]. split; [exact Ho | discriminate].
  - destruct (cycle_on_open_stream ts (MetricSystemManager.collector_ m) cerr Hb)
      as (Hm & Hrun & Ho).
    destruct (MetricCollector.collectCurrentMetrics ts _) as [c cerr'].
    cbn [fst] in *. unfold manager_invariant.
    cbn [MetricSystemManager.is_running_ MetricSystemManager.collector_].
    rewrite Hrun, Hm. split; [exact Ha|]. split; [exact Ho|].
    intros _. apply reset_holds_no_samples.
Qed.

(** X21. A scoped metric system leaves no sample behind: for a system
    constructed by [ScopedMetricSystem], after any sequence of calls on
    its manager and of cycles of the worker, the destructor leaves the
    manager stopped and every metric without samples, so that a later
    snapshot renders each of them as ["0"]. *)
Theorem scope_exit_leaves_no_samples (output_file : string) (opened : option string)
    (m0 : MetricSystemManager.t) (cerr : ostream) (ops : list manager_op)
    (ts ts' : TimePoint) :
  ScopedMetricSystem.make output_file opened = Return m0 ->
  MetricSystemManager.isRunning
    (fst (ScopedMetricSystem.destroy ts (manager_run (m0, cerr) ops))) = false /\
  Forall holds_no_samples
    (MetricCollector.metrics_
       (MetricSystemManager.collector_
          (fst (ScopedMetricSystem.destroy ts (manager_run (m0, cerr) ops))))) /\
  Forall (fun e => MetricValue_toString (value e) = "0"%string)
    (MetricCollector.collect_entries ts'
       (MetricCollector.metrics_
          (MetricSystemManager.collector_
             (fst (ScopedMetricSystem.destroy ts (manager_run (m0, cerr) ops)))))).
Proof.
  intros Hmake.
  assert (H0 : manager_invariant (fst (m0, cerr))).
  { unfold ScopedMetricSystem.make, MetricSystemManager.make,
      MetricSystemFactory.createSystem, MetricWriter.make in Hmake.
    destruct (String.eqb output_file "") ; [discriminate|].
    destruct opened as [contents|]; [|discriminate].
    cbn in Hmake. inversion Hmake. unfold manager_invariant. cbn. auto. }
  assert (Hrun : manager_invariant (fst (manager_run (m0, cerr) ops))).
  { revert H0. generalize (m0, cerr) as st. clear.
    induction ops as [|op ops IH]; intros st H0; [exact H0|].
    unfold manager_run in *. cbn [fold_left]. apply IH.
    apply manager_step_invariant. exact H0. }
  unfold ScopedMetricSystem.destroy, MetricSystemManager.isRunning.
  destruct (manager_stop_invariant ts (manager_run (m0, cerr) ops) Hrun)
    as ((_ & _ & Hc) & Hidle).
  specialize (Hc Hidle).
  split; [exact Hidle|]. split; [exact Hc|].
  rewrite <- (holds_no_samples_reset _ Hc).
  apply collect_entries_after_reset.
Qed.

End Manager.

(** ** The metrics of SpecificMetrics *)

Lemma Qltb_false (a b : Q) : Qltb a b = false -> (b <= a)%Q.
Proof.
  unfold Qltb. intros H. apply negb_false_iff in H. apply Qle_bool_iff. exact H.
Qed.

Lemma Qltb_true (a b : Q) : Qltb a b = true -> (a < b)%Q.
Proof.
  unfold Qltb. intros H. apply negb_true_iff in H. apply Qnot_le_lt.
  intros Hle. apply Qle_bool_iff in Hle. congruence.
Qed.






Section SpecificMetrics.
Context {P : Platform}.


Lemma integral_usage (i : IntType) (acc : list Z) (n : string) :
  Z.of_nat (length acc) < 2 ^ size_bits ->
  exists tv,
    match
      TypedMetric.getAccumulatedValue
        (record_values (T:=Integral i) acc (TypedMetric.make (Integral i) n))
    with
    | Some current_value => MetricValue_cast (Integral i) current_value
    | None => None
    end = Some tv /\
    TypedMetricValue.getValue tv = wrap_signed (int_bits i) (exact_sum acc).
Proof.
  intros Hlen. destruct (snapshot_integral i acc n Hlen) as (tv & Hs & Hv & _).
  exists tv. rewrite Hs, MetricValue_cast_same. split; [reflexivity | exact Hv].
Qed.

Lemma record_values_snoc {T} (acc : list (val T)) (v : val T) (m : TypedMetric.t T) :
  record_values (acc ++ [v]) m = TypedMetric.recordValue v (record_values acc m).
Proof. unfold record_values. rewrite fold_left_app. reflexivity. Qed.

Lemma reset_of_record_values {T} (acc : list (val T)) (n : string) :
  TypedMetric.reset (record_values acc (TypedMetric.make T n)) = TypedMetric.make T n.
Proof.
  unfold TypedMetric.reset, TypedMetric.make. rewrite record_values_name. reflexivity.
Qed.

(** *** CPUMetric *)




(** *** MemoryMetric *)

Lemma memory_run_invariant (ops : list memory_op) :
  forall (m : MemoryMetric.t) (acc : list Q),
    MemoryMetric.track_peak_ m = true ->
    List.Forall (fun v => v <= MemoryMetric.peak_usage_ m)%Q acc ->
    MemoryMetric.peak_usage_ m = 0%Q \/ List.In (MemoryMetric.peak_usage_ m) acc ->
    List.Forall (fun v => v <= MemoryMetric.peak_usage_ (memory_run m ops))%Q
      (fold_left memory_since_step ops acc) /\
    (MemoryMetric.peak_usage_ (memory_run m ops) = 0%Q \/
     List.In (MemoryMetric.peak_usage_ (memory_run m ops))
       (fold_left memory_since_step ops acc)).
Proof.
  induction ops as [|op ops IH]; intros m acc Ht Hall Hin; [split; assumption|].
  unfold memory_run in *. cbn [fold_left].
  destruct op as [v|]; cbn [memory_step memory_since_step].
  - unfold MemoryMetric.recordValue.
    destruct (Qltb v 0) eqn:Hneg; cbn [fst]; [apply IH; assumption|].
    rewrite Ht. cbn [andb].
    apply IH; cbn [MemoryMetric.track_peak_ MemoryMetric.peak_usage_]; [reflexivity| |].
    + destruct (Qltb (MemoryMetric.peak_usage_ m) v) eqn:Hlt.
      * apply Qltb_true in Hlt. apply List.Forall_app. split.
        -- eapply List.Forall_impl; [|exact Hall]. intros x Hx.
           eapply Qle_trans; [exact Hx | apply Qlt_le_weak; exact Hlt].
        -- constructor; [apply Qle_refl | constructor].
      * apply Qltb_false in Hlt. apply List.Forall_app. split; [exact Hall|].
        constructor; [exact Hlt | constructor].
    + destruct (Qltb (MemoryMetric.peak_usage_ m) v).
      * right. apply List.in_or_app. right. left. reflexivity.
      * destruct Hin as [H0|Hin]; [left; exact H0|].
        right. apply List.in_or_app. left. exact Hin.
  - apply IH; cbn [MemoryMetric.reset MemoryMetric.track_peak_ MemoryMetric.peak_usage_].
    + exact Ht.
    + constructor.
    + left. reflexivity.
Qed.

Lemma memory_run_untracked (ops : list memory_op) :
  forall m : MemoryMetric.t,
    MemoryMetric.track_peak_ m = false ->
    MemoryMetric.peak_usage_ m = 0%Q ->
    MemoryMetric.peak_usage_ (memory_run m ops) = 0%Q.
Proof.
  induction ops as [|op ops IH]; intros m Ht Hp; [exact Hp|].
  unfold memory_run in *. cbn [fold_left].
  destruct op as [v|]; cbn [memory_step].
  - unfold MemoryMetric.recordValue.
    destruct (Qltb v 0); cbn [fst]; [apply IH; assumption|].
    apply IH; cbn [MemoryMetric.track_peak_ MemoryMetric.peak_usage_]; [exact Ht|].
    rewrite Ht. exact Hp.
  - apply IH; [exact Ht | reflexivity].
Qed.

(** X23. On a memory metric that tracks its peak, after any sequence
    of records and resets of numbers, the peak is the largest value
    accepted since the last reset: every such value is at most the
    peak, and the peak is one of them, or 0 when none of them exceeds
    0.  On a metric that does not track its peak, the peak stays 0.
    Only comparisons are involved, which are exact on the doubles. *)
Theorem memory_peak_is_the_largest_accepted (name : string) (ops : list memory_op) :
  List.Forall
    (fun v => v <= MemoryMetric.getPeakUsage
                     (memory_run (MemoryMetric.make name true) ops))%Q
    (memory_since_reset ops) /\
  (MemoryMetric.getPeakUsage (memory_run (MemoryMetric.make name true) ops) = 0%Q \/
   List.In (MemoryMetric.getPeakUsage (memory_run (MemoryMetric.make name true) ops))
     (memory_since_reset ops)) /\
  MemoryMetric.getPeakUsage (memory_run (MemoryMetric.make name false) ops) = 0%Q.
Proof.
  unfold MemoryMetric.getPeakUsage. split; [|split].
  - apply (memory_run_invariant ops (MemoryMetric.make name true) []);
      [reflexivity | constructor | left; reflexivity].
  - apply (memory_run_invariant ops (MemoryMetric.make name true) []);
      [reflexivity | constructor | left; reflexivity].
  - apply memory_run_untracked; reflexivity.
Qed.

(** *** HTTPRequestMetric *)

Lemma http_run_total (ops : list http_op) :
  forall m : HTTPRequestMetric.t,
    in_range (int_bits t_long) (HTTPRequestMetric.total_requests_ m) ->
    HTTPRequestMetric.total_requests_ (http_run m ops) =
      wrap_signed (int_bits t_long)
        (HTTPRequestMetric.total_requests_ m + exact_sum (http_accepted ops)).
Proof.
  pose proof (int_bits_pos t_long) as Hw.
  induction ops as [|op ops IH]; intros m Hm.
  - unfold http_run, http_accepted, exact_sum. cbn [fold_left flat_map fold_right].
    rewrite Z.add_0_r. symmetry. apply wrap_signed_small; [lia | exact Hm].
  - unfold http_run in *. cbn [fold_left http_accepted flat_map].
    destruct op as [r|now]; cbn [http_step].
    + unfold HTTPRequestMetric.recordValue.
      destruct (r <? 0) eqn:Hr; cbn [fst app]; [apply IH; exact Hm|].
      rewrite IH by (apply wrap_signed_in_range; lia).
      cbn [HTTPRequestMetric.total_requests_]. rewrite wrap_signed_plus_l.
      f_equal. unfold http_accepted, exact_sum. cbn [fold_right app]. lia.
    + cbn [app]. rewrite IH by exact Hm. reflexivity.
Qed.

Lemma http_run_base (name : string) (ops : list http_op) :
  forall (m : HTTPRequestMetric.t) (acc : list Z),
    HTTPRequestMetric.base m =
      record_values (T:=Integral t_int) acc (TypedMetric.make (Integral t_int) name) ->
    HTTPRequestMetric.base (http_run m ops) =
      record_values (T:=Integral t_int) (fold_left http_since_step ops acc)
        (TypedMetric.make (Integral t_int) name).
Proof.
  induction ops as [|op ops IH]; intros m acc Hb; [exact Hb|].
  unfold http_run in *. cbn [fold_left].
  destruct op as [r|now]; cbn [http_step http_since_step].
  - unfold HTTPRequestMetric.recordValue.
    destruct (r <? 0) eqn:Hr; cbn [fst]; [apply IH; exact Hb|].
    apply IH. cbn [HTTPRequestMetric.base]. rewrite Hb. symmetry.
    apply (record_values_snoc (T:=Integral t_int)).
  - apply IH. cbn [HTTPRequestMetric.reset HTTPRequestMetric.base].
    rewrite Hb. apply reset_of_record_values.
Qed.

(** X24. The lifetime total of an HTTP request metric survives its
    resets: after any sequence of records and resets it is the sum of
    the request counts of all the accepted records, reduced to the
    width of [long], and that sum itself when it fits a [long]; a
    rejected record, of a negative count, adds nothing. *)
Theorem http_total_survives_resets (name : string) (t0 : TimePoint) (ops : list http_op) :
  HTTPRequestMetric.getTotalRequests (http_run (HTTPRequestMetric.make name t0) ops) =
    wrap_signed (int_bits t_long) (exact_sum (http_accepted ops)) /\
  (in_range (int_bits t_long) (exact_sum (http_accepted ops)) ->
   HTTPRequestMetric.getTotalRequests (http_run (HTTPRequestMetric.make name t0) ops) =
     exact_sum (http_accepted ops)).
Proof.
  pose proof (int_bits_pos t_long) as Hw.
  assert (H : HTTPRequestMetric.getTotalRequests
                (http_run (HTTPRequestMetric.make name t0) ops) =
              wrap_signed (int_bits t_long) (exact_sum (http_accepted ops))).
  { unfold HTTPRequestMetric.getTotalRequests. rewrite http_run_total.
    - reflexivity.
    - cbn [HTTPRequestMetric.make HTTPRequestMetric.total_requests_]. unfold in_range.
      assert (0 < 2 ^ (int_bits t_long - 1)) by (apply Z.pow_pos_nonneg; lia). lia. }
  split; [exact H|]. intros Hr. rewrite H. apply wrap_signed_small; [lia | exact Hr].
Qed.

Lemma http_run_times (ops : list http_op) :
  forall m : HTTPRequestMetric.t,
    HTTPRequestMetric.last_reset_ (http_run m ops) =
      http_last_reset (HTTPRequestMetric.last_reset_ m) ops /\
    HTTPRequestMetric.start_time_ (http_run m ops) = HTTPRequestMetric.start_time_ m.
Proof.
  induction ops as [|op ops IH]; intros m; [split; reflexivity|].
  unfold http_run, http_last_reset in *. cbn [fold_left].
  destruct op as [r|now]; cbn [http_step].
  - unfold HTTPRequestMetric.recordValue. destruct (r <? 0); cbn [fst]; [apply IH|].
    match goal with
    | |- context [fold_left http_step ops ?m'] => exact (IH m')
    end.
  - apply (IH (HTTPRequestMetric.reset now m)).
Qed.

(** X25. The rate an HTTP request metric reports is taken over the
    time since its last reset, and its uptime over the time since its
    construction.  After any sequence of records and resets with fewer
    than [2 ^ size_bits] records accepted since the last reset,
    [getCurrentRPS] is the sum of the request counts accepted since the
    last reset, reduced to the width of [int], divided by the whole
    seconds between the time of the last reset (the time of the
    construction when there was none) and now, and 0 when less than a
    second lies between them; [getUptime] is the whole seconds since
    the construction, whatever resets were made. *)
Theorem http_rate_since_last_reset (name : string) (t0 now : TimePoint)
    (ops : list http_op) :
  Z.of_nat (length (http_since_reset ops)) < 2 ^ size_bits ->
  HTTPRequestMetric.getCurrentRPS now (http_run (HTTPRequestMetric.make name t0) ops) =
    (if 0 <? HTTPRequestMetric.seconds_between (http_last_reset t0 ops) now
     then
       (inject_Z (wrap_signed (int_bits t_int) (exact_sum (http_since_reset ops))) /
        inject_Z (HTTPRequestMetric.seconds_between (http_last_reset t0 ops) now))%Q
     else 0%Q) /\
  HTTPRequestMetric.getUptime now (http_run (HTTPRequestMetric.make name t0) ops) =
    HTTPRequestMetric.seconds_between t0 now.
Proof.
  intros Hlen.
  destruct (http_run_times ops (HTTPRequestMetric.make name t0)) as [Hlast Hstart].
  cbn [HTTPRequestMetric.make HTTPRequestMetric.last_reset_
       HTTPRequestMetric.start_time_] in Hlast, Hstart.
  split.
  - unfold HTTPRequestMetric.getCurrentRPS. rewrite Hlast.
    rewrite (http_run_base name ops (HTTPRequestMetric.make name t0) []) by reflexivity.
    fold (http_since_reset ops).
    destruct (integral_usage t_int (http_since_reset ops) name Hlen) as (tv & -> & ->).
    cbv zeta.
    match goal with
    | |- context [?d <=? 0] => destruct (Z.leb_spec d 0); destruct (Z.ltb_spec 0 d)
    end; try lia; reflexivity.
  - unfold HTTPRequestMetric.getUptime. rewrite Hstart. reflexivity.
Qed.

End SpecificMetrics.

(** ** Worked examples of the further properties *)

Section FurtherExamples.
Local Existing Instance example_host.

Local Abbreviation int := (Integral t_int).
Local Abbreviation double := (Floating t_double).

Lemma format_extract_round_trip_witness :
  MetricNameValidator.isValidName "CPU" = true /\
  (exists f,
     MetricNameValidator.formatNameForOutput "CPU" = Return f /\
     MetricNameValidator.extractNameFromOutput f = Return "CPU"%string) /\
  (forall s,
     MetricNameValidator.extractNameFromOutput s = Return "CPU"%string ->
     MetricNameValidator.formatNameForOutput "CPU" = Return s).
Proof.
  split; [reflexivity|]. apply (format_extract_round_trip "CPU"). reflexivity.
Defined.

Lemma registry_register_then_lookup_witness :
  (MetricNameValidator.isValidName "CPU" = true /\
   MetricRegistry.hasMetric "CPU" MetricRegistry.empty = false) /\
  exists r',
    MetricRegistry.registerMetric "CPU" cpu_metric MetricRegistry.empty =
      (r', Return tt) /\
    MetricRegistry.getMetric "CPU" r' = Some cpu_metric /\
    MetricRegistry.hasMetric "CPU" r' = true /\
    MetricRegistry.size r' = S (MetricRegistry.size MetricRegistry.empty) /\
    (forall n', n' <> "CPU"%string ->
       MetricRegistry.getMetric n' r' = MetricRegistry.getMetric n' MetricRegistry.empty /\
       MetricRegistry.hasMetric n' r' = MetricRegistry.hasMetric n' MetricRegistry.empty).
Proof.
  split; [split; reflexivity|].
  apply (registry_register_then_lookup "CPU" cpu_metric MetricRegistry.empty);
    reflexivity.
Defined.

Lemma collector_names_stay_unique_witness :
  NoDup (names_of cpu_http_collector) /\
  NoDup (names_of
           (fst (collector_run (cpu_http_collector, [])
                   [op_record int "HTTP" 10; op_register double "HTTP";
                    op_record double "Memory" (1 # 2)%Q; op_cycle 1653]))).
Proof.
  assert (H : NoDup (names_of cpu_http_collector)).
  { apply (bool_decide_unpack _). vm_compute. exact I. }
  split; [exact H|].
  apply (collector_names_stay_unique (cpu_http_collector, [])). exact H.
Defined.

Lemma record_auto_registers_witness :
  (MetricCollector.running_ cpu_collector = true /\
   find_if (MetricCollector.has_name "HTTP") (MetricCollector.metrics_ cpu_collector) =
     None) /\
  MetricCollector.recordMetric int "HTTP" 10 (cpu_collector, []) =
    recordMetric_after_miss int "HTTP" 10 (cpu_collector, []) /\
  MetricCollector.recordMetric int "HTTP" 10 (cpu_collector, []) =
    (MetricCollector.mk
       (MetricCollector.metrics_ cpu_collector ++
        [metric int (TypedMetric.recordValue (T:=int) 10 (TypedMetric.make int "HTTP"))])
       true (MetricCollector.writer_ cpu_collector),
     []) /\
  (find_if (MetricCollector.has_name "HTTP")
     (MetricCollector.metrics_ cpu_http_collector) = None ->
   recordMetric_after_miss int "HTTP" 10 (cpu_http_collector, []) =
     (MetricCollector.mk
        (MetricCollector.metrics_ cpu_http_collector ++
         [metric int (TypedMetric.recordValue (T:=int) 10 (TypedMetric.make int "HTTP"))])
        (MetricCollector.running_ cpu_http_collector)
        (MetricCollector.writer_ cpu_http_collector),
      [])) /\
  (forall i,
     find_if (MetricCollector.has_name "HTTP")
       (MetricCollector.metrics_ cpu_http_collector) = Some i ->
     recordMetric_after_miss int "HTTP" 10 (cpu_http_collector, []) =
       (cpu_http_collector,
        [] ++ [("Failed to auto-register metric '" +:+ "HTTP" +:+ "': "
                +:+ "Metric already registered: " +:+ "HTTP")%string])).
Proof.
  split; [split; reflexivity|].
  apply (record_auto_registers int "HTTP" 10 cpu_collector cpu_http_collector [] []);
    reflexivity.
Defined.

(** The race of two producers on one new name.  Both look the name up
    on [cpu_collector] and find nothing; the first then registers it
    and records 10; the second, continuing on the collector the first
    has left, records nothing and logs the failure. *)
Example second_producer_loses_the_race :
  find_if (MetricCollector.has_name "HTTP") (MetricCollector.metrics_ cpu_collector) =
    None /\
  recordMetric_after_miss int "HTTP" 5
    (recordMetric_after_miss int "HTTP" 10 (cpu_collector, [])) =
    (running_collector
       [cpu_metric; metric int (TypedMetric.mk (T:=int) "HTTP" 10 1)] open_writer,
     ["Failed to auto-register metric 'HTTP': Metric already registered: HTTP"%string]).
Proof. split; vm_compute; reflexivity. Qed.

Lemma record_touches_no_other_metric_witness :
  (MetricCollector.metrics_ cpu_http_collector !! 0%nat = Some cpu_metric /\
   Metric_getName cpu_metric <> "HTTP"%string) /\
  MetricCollector.metrics_
    (fst (MetricCollector.recordMetric int "HTTP" 10 (cpu_http_collector, [])))
    !! 0%nat = Some cpu_metric.
Proof.
  assert (H : Metric_getName cpu_metric <> "HTTP"%string) by discriminate.
  split; [split; [reflexivity | exact H]|].
  apply (record_touches_no_other_metric int "HTTP" 10 (cpu_http_collector, []) 0%nat
           cpu_metric); [reflexivity | exact H].
Defined.

Lemma idle_cycle_reports_every_metric_as_zero_witness :
  ofstream.is_open
    (MetricWriter.file_stream_ (MetricCollector.writer_ cpu_http_collector)) = true /\
  Forall (fun e => MetricValue_toString (value e) = "0"%string)
    (MetricCollector.collect_entries 2653
       (MetricCollector.metrics_
          (fst (MetricCollector.collectCurrentMetrics 1653 (cpu_http_collector, []))))) /\
  length
    (MetricCollector.collect_entries 2653
       (MetricCollector.metrics_
          (fst (MetricCollector.collectCurrentMetrics 1653 (cpu_http_collector, []))))) =
    length (MetricCollector.metrics_ cpu_http_collector).
Proof.
  split; [reflexivity|].
  apply (idle_cycle_reports_every_metric_as_zero 1653 2653 cpu_http_collector []).
  reflexivity.
Defined.

Lemma getValue_is_the_mean_witness :
  Z.of_nat (length [10; 25]) < 2 ^ size_bits /\
  averaged_as int
    (TypedMetricValue.getValue
       (add_values (T:=int) [10; 25]
          (TypedMetricValue.reset (TypedMetricValue.make int 7))))
    [10; 25].
Proof.
  split; [reflexivity|].
  apply (getValue_is_the_mean int [10; 25] (TypedMetricValue.make int 7)).
  reflexivity.
Defined.

Lemma formatTimestamp_has_three_digit_milliseconds_witness :
  0 <= 60007 /\
  exists ms,
    TimestampUtils.formatTimestamp 60007 =
      (put_time_local (60007 / 1000) +:+ "." +:+ ms)%string /\
    ms = show_padded 3 (60007 mod 1000) /\
    String.length ms = 3%nat.
Proof.
  split; [discriminate|].
  apply (formatTimestamp_has_three_digit_milliseconds 60007). discriminate.
Defined.


Lemma scope_exit_leaves_no_samples_witness :
  ScopedMetricSystem.make "metrics.txt" (Some ""%string) = Return example_scoped_manager /\
  MetricSystemManager.isRunning
    (fst (ScopedMetricSystem.destroy 2653
            (manager_run (example_scoped_manager, []) example_scoped_calls))) = false /\
  Forall holds_no_samples
    (MetricCollector.metrics_
       (MetricSystemManager.collector_
          (fst (ScopedMetricSystem.destroy 2653
                  (manager_run (example_scoped_manager, []) example_scoped_calls))))) /\
  Forall (fun e => MetricValue_toString (value e) = "0"%string)
    (MetricCollector.collect_entries 3653
       (MetricCollector.metrics_
          (MetricSystemManager.collector_
             (fst (ScopedMetricSystem.destroy 2653
                     (manager_run (example_scoped_manager, []) example_scoped_calls)))))).
Proof.
  split; [reflexivity|].
  apply (scope_exit_leaves_no_samples "metrics.txt" (Some ""%string)). reflexivity.
Defined.

(** The file of the scoped example: the sample made before the stop,
    nothing for the record dropped while stopped, and at the exit the
    sample of the metric that the last record registered. *)
Example scoped_example_file :
  ofstream.file
    (MetricWriter.file_stream_
       (MetricCollector.writer_
          (MetricSystemManager.collector_
             (fst (ScopedMetricSystem.destroy 2653
                     (manager_run (example_scoped_manager, []) example_scoped_calls)))))) =
    (example_line "HTTP" "10" +:+ example_line "HTTP" "0" +:+
     example_line "CPU" "0.50")%string.
Proof. vm_compute. reflexivity. Qed.


Lemma http_rate_since_last_reset_witness :
  Z.of_nat (length (http_since_reset example_http_calls)) < 2 ^ size_bits /\
  HTTPRequestMetric.getCurrentRPS 4000
    (http_run (HTTPRequestMetric.make "HTTP" 0) example_http_calls) =
    (if 0 <? HTTPRequestMetric.seconds_between (http_last_reset 0 example_http_calls) 4000
     then
       (inject_Z (wrap_signed (int_bits t_int)
                    (exact_sum (http_since_reset example_http_calls))) /
        inject_Z (HTTPRequestMetric.seconds_between
                    (http_last_reset 0%Z example_http_calls) 4000%Z))%Q
     else 0%Q) /\
  HTTPRequestMetric.getUptime 4000
    (http_run (HTTPRequestMetric.make "HTTP" 0) example_http_calls) =
    HTTPRequestMetric.seconds_between 0 4000.
Proof.
  split; [reflexivity|].
  apply (http_rate_since_last_reset "HTTP" 0 4000 example_http_calls). reflexivity.
Defined.

(** The values of the examples: the peak 4 and the mean 3 of the
    memory metric, the total 40 and the rate 10 of the request metric
    over the 3 seconds since the reset at 1000 and its uptime of 4,
    the utilization of 43.75 percent of the four cores, and the manager
    idle after its calls, with the lines of the cycle of the worker
    and of the stop in the file: the sample made while it ran, and
    then 0. *)
Example further_examples_values :
  MemoryMetric.getPeakUsage
    (memory_run (MemoryMetric.make "Memory" true) example_memory_calls) = 4%Q /\
  Qeq (MemoryMetric.getCurrentUsage
         (memory_run (MemoryMetric.make "Memory" true) example_memory_calls)) 3%Q /\
  HTTPRequestMetric.getTotalRequests
    (http_run (HTTPRequestMetric.make "HTTP" 0) example_http_calls) = 40 /\
  Qeq (HTTPRequestMetric.getCurrentRPS 4000
         (http_run (HTTPRequestMetric.make "HTTP" 0) example_http_calls)) 10%Q /\
  http_last_reset 0 example_http_calls = 1000 /\
  HTTPRequestMetric.getUptime 4000
    (http_run (HTTPRequestMetric.make "HTTP" 0) example_http_calls) = 4 /\
  Qeq (CPUMetric.getUtilizationPercentage
         (cpu_records example_cpu_records (CPUMetric.make "CPU" 4 8))) (175 # 4)%Q /\
  MetricSystemManager.isRunning
    (fst (manager_run (example_manager, []) example_manager_calls)) = false /\
  ofstream.file
    (MetricWriter.file_stream_
       (MetricCollector.writer_
          (MetricSystemManager.collector_
             (fst (manager_run (example_manager, []) example_manager_calls))))) =
    (example_line "HTTP" "10" +:+ example_line "HTTP" "0")%string.
Proof. repeat split; vm_compute; reflexivity. Qed.

End FurtherExamples.
